(** * The persistence layer of the to-do application (lib/db.ts, lib/types.ts)

    The program keeps its tasks and lists in an embedded SQLite store behind
    [expo-sqlite].  This development embeds the components with logic in
    them:

    - the schema migrator [migrateDB] with its two steps [initializeDB] and
      [upgradeToVersion2];
    - the data access layer: [getAllTodos], [getTodosByList], [getAllLists],
      [createList], [createTodo], [updateTodoStatus], [updateTodo];
    - the handlers of the three screens that call the layer, and the list
      the task screen shows.

    The store is a value of type [DB]; every SQL statement of the source is a
    function on [DB] that fails where the engine raises an error (missing
    table, missing or duplicate column, primary-key conflict); faults of the
    storage itself are not modelled.  The [async] functions of the source
    are computations in the monad [Async]: they thread the world (store,
    console, identifier generator, clock) and either return a value or
    throw, and the world is kept in both cases, because statements that ran
    before an exception stay committed. *)

From Stdlib Require Import String Ascii ZArith List Bool Lia.
From Stdlib Require Import Sorting.Sorted Sorting.Permutation.
From Stdlib Require Import DecimalString DecimalN.
Import ListNotations.
Local Open Scope string_scope.
Local Open Scope Z_scope.
Local Open Scope list_scope.

(** ** JavaScript values used by the layer *)

(** [Date] objects.  The layer renders a date with [toISOString] (on the clock
    and on the dates its callers pass in) and rebuilds one from a stored
    string with [new Date(s)].  The two laws are the ones ECMAScript gives for
    time values: the rendering is never empty and parses back to the same
    instant.  The dates handed to the layer are time values: an Invalid Date,
    on which [toISOString] throws, comes from no caller and is not part of
    this interface. *)
Class JsDate : Type := {
  Date : Type;
  toISOString : Date -> string;
  newDate : string -> Date;
  toISOString_nonempty : forall d, toISOString d <> "";
  newDate_toISOString : forall d, newDate (toISOString d) = d
}.

(** [x || null] on an optional string: the empty string is falsy. *)
Definition or_null (x : option string) : option string :=
  match x with
  | Some s => if (s =? "")%string then None else Some s
  | None => None
  end.

(** [x ?? y]. *)
Definition nullish {A : Type} (x : option A) (y : A) : A :=
  match x with
  | Some a => a
  | None => y
  end.

(** Truthiness of an optional string, as in [if (listId)] and
    [todo.dueDate ? .. : ..]. *)
Definition truthy (x : option string) : bool :=
  match x with
  | Some s => negb (s =? "")%string
  | None => false
  end.

(** ** Rows and tables *)

(** A row of table [todos].  The three columns added by the upgrade to
    version 2 are nullable. *)
Module TodoRow.
Record t : Type := mk {
  id : string;
  text : string;
  done : Z;
  createdAt : string;
  listId : option string;
  notes : option string;
  dueDate : option string
}.

Definition set_done (d : Z) (r : t) : t :=
  mk (id r) (text r) d (createdAt r) (listId r) (notes r) (dueDate r).
Definition set_listId (l : option string) (r : t) : t :=
  mk (id r) (text r) (done r) (createdAt r) l (notes r) (dueDate r).
Definition set_notes (n : option string) (r : t) : t :=
  mk (id r) (text r) (done r) (createdAt r) (listId r) n (dueDate r).
Definition set_dueDate (d : option string) (r : t) : t :=
  mk (id r) (text r) (done r) (createdAt r) (listId r) (notes r) d.
Definition set_text (x : string) (r : t) : t :=
  mk (id r) x (done r) (createdAt r) (listId r) (notes r) (dueDate r).
End TodoRow.

(** A row of table [todo_lists]. *)
Module TodoList.
Record t : Type := mk { id : string; name : string }.
End TodoList.

(** The nullable columns of [todos]. *)
Inductive column : Type := ColListId | ColNotes | ColDueDate.

(** Table [todos]: which of the added columns exist, and the rows in rowid
    order (the order [SELECT *] yields them in). *)
Record TodosTable : Type := mkTodos {
  has_listId : bool;
  has_notes : bool;
  has_dueDate : bool;
  rows : list TodoRow.t
}.

(** The store: the [user_version] counter of the file header, the journal
    mode, and the two tables, each absent until it is created. *)
Record DB : Type := mkDB {
  user_version : Z;
  journal_wal : bool;
  todos : option TodosTable;
  todo_lists : option (list TodoList.t)
}.

(** A new database file. *)
Definition empty_db : DB := mkDB 0 false None None.

Definition set_todos (t : TodosTable) (d : DB) : DB :=
  mkDB (user_version d) (journal_wal d) (Some t) (todo_lists d).
Definition set_todo_lists (l : list TodoList.t) (d : DB) : DB :=
  mkDB (user_version d) (journal_wal d) (todos d) (Some l).
Definition set_rows (rs : list TodoRow.t) (t : TodosTable) : TodosTable :=
  mkTodos (has_listId t) (has_notes t) (has_dueDate t) rs.

Definition has_column (c : column) (t : TodosTable) : bool :=
  match c with
  | ColListId => has_listId t
  | ColNotes => has_notes t
  | ColDueDate => has_dueDate t
  end.

Definition all_columns (t : TodosTable) : bool :=
  has_listId t && has_notes t && has_dueDate t.

Definition todo_ids (t : TodosTable) : list string :=
  map TodoRow.id (rows t).

Definition mem_string (x : string) (l : list string) : bool :=
  existsb (String.eqb x) l.
Arguments mem_string : simpl never.

(** The order of [ORDER BY name] on [todo_lists]: a stable insertion into
    the sequence sorted so far. *)
Fixpoint insert_by_name (x : TodoList.t) (l : list TodoList.t)
  : list TodoList.t :=
  match l with
  | [] => [x]
  | y :: l' =>
      if String.leb (TodoList.name x) (TodoList.name y) then x :: y :: l'
      else y :: insert_by_name x l'
  end.

Definition order_by_name (l : list TodoList.t) : list TodoList.t :=
  fold_right insert_by_name [] l.

(** ** The SQL statements of the source

    Each function is one statement text of lib/db.ts.  [None] is an error of
    the engine. *)
Module Sql.

(** [PRAGMA user_version]: one row, with the counter. *)
Definition get_user_version (d : DB) : option (list Z * DB) :=
  Some ([user_version d], d).

(** [PRAGMA user_version = v] *)
Definition set_user_version (v : Z) (d : DB) : option DB :=
  Some (mkDB v (journal_wal d) (todos d) (todo_lists d)).

(** [PRAGMA journal_mode = WAL] *)
Definition journal_mode_wal (d : DB) : option DB :=
  Some (mkDB (user_version d) true (todos d) (todo_lists d)).

(** [CREATE TABLE IF NOT EXISTS todos (id TEXT PRIMARY KEY, text TEXT NOT
    NULL, done INTEGER NOT NULL, createdAt TEXT NOT NULL)] *)
Definition create_todos (d : DB) : option DB :=
  match todos d with
  | Some _ => Some d
  | None => Some (set_todos (mkTodos false false false []) d)
  end.

(** [INSERT INTO todos (id, text, done, createdAt) VALUES (..)]: the
    table must exist and the primary key must be new; the other columns
    of the new row are NULL. *)
Definition insert_todo4 (i x : string) (dn : Z) (c : string) (d : DB)
  : option DB :=
  match todos d with
  | None => None
  | Some t =>
      if mem_string i (todo_ids t) then None
      else Some (set_todos
                   (set_rows (rows t ++ [TodoRow.mk i x dn c None None None]) t)
                   d)
  end.

(** [CREATE TABLE IF NOT EXISTS todo_lists (id TEXT PRIMARY KEY, name TEXT
    NOT NULL)] *)
Definition create_todo_lists (d : DB) : option DB :=
  match todo_lists d with
  | Some _ => Some d
  | None => Some (set_todo_lists [] d)
  end.

(** [ALTER TABLE todos ADD COLUMN c TEXT]: fails when the table is missing
    or already has the column; the new column is NULL in every row. *)
Definition add_column (c : column) (d : DB) : option DB :=
  match todos d with
  | None => None
  | Some t =>
      if has_column c t then None
      else
        Some (set_todos
                match c with
                | ColListId =>
                    mkTodos true (has_notes t) (has_dueDate t)
                      (map (TodoRow.set_listId None) (rows t))
                | ColNotes =>
                    mkTodos (has_listId t) true (has_dueDate t)
                      (map (TodoRow.set_notes None) (rows t))
                | ColDueDate =>
                    mkTodos (has_listId t) (has_notes t) true
                      (map (TodoRow.set_dueDate None) (rows t))
                end d)
  end.

(** [SELECT COUNT( * ) as count FROM todo_lists WHERE id = i]: one row,
    with the count. *)
Definition count_lists_with_id (i : string) (d : DB)
  : option (list Z * DB) :=
  match todo_lists d with
  | None => None
  | Some l =>
      Some ([Z.of_nat
               (length (filter (fun r => (TodoList.id r =? i)%string) l))],
            d)
  end.

(** [INSERT INTO todo_lists (id, name) VALUES (i, n)] *)
Definition insert_list (i n : string) (d : DB) : option DB :=
  match todo_lists d with
  | None => None
  | Some l =>
      if mem_string i (map TodoList.id l) then None
      else Some (set_todo_lists (l ++ [TodoList.mk i n]) d)
  end.

(** [UPDATE todos SET listId = l WHERE listId IS NULL] *)
Definition backfill_listId (l : string) (d : DB) : option DB :=
  match todos d with
  | None => None
  | Some t =>
      if has_listId t then
        Some (set_todos
                (set_rows
                   (map (fun r =>
                           match TodoRow.listId r with
                           | None => TodoRow.set_listId (Some l) r
                           | Some _ => r
                           end) (rows t)) t) d)
      else None
  end.

(** [SELECT * FROM todos] *)
Definition select_todos (d : DB) : option (list TodoRow.t * DB) :=
  match todos d with
  | None => None
  | Some t => Some (rows t, d)
  end.

(** [SELECT * FROM todos WHERE listId = l]; a NULL [listId] matches
    nothing. *)
Definition select_todos_by_list (l : string) (d : DB)
  : option (list TodoRow.t * DB) :=
  match todos d with
  | None => None
  | Some t =>
      if has_listId t then
        Some (filter (fun r =>
                        match TodoRow.listId r with
                        | Some x => (x =? l)%string
                        | None => false
                        end) (rows t), d)
      else None
  end.

(** [SELECT * FROM todos WHERE id = i] *)
Definition select_todo_by_id (i : string) (d : DB)
  : option (list TodoRow.t * DB) :=
  match todos d with
  | None => None
  | Some t =>
      Some (filter (fun r => (TodoRow.id r =? i)%string) (rows t), d)
  end.

(** [SELECT * FROM todo_lists ORDER BY name]: the default collation of a
    TEXT column compares the bytes of the two names. *)
Definition select_lists_by_name (d : DB)
  : option (list TodoList.t * DB) :=
  match todo_lists d with
  | None => None
  | Some l => Some (order_by_name l, d)
  end.

(** [INSERT INTO todo_lists (id, name) VALUES (i, n) RETURNING id, name] *)
Definition insert_list_returning (i n : string) (d : DB)
  : option (list TodoList.t * DB) :=
  match insert_list i n d with
  | None => None
  | Some d' => Some ([TodoList.mk i n], d')
  end.

(** [INSERT INTO todos (id, text, done, createdAt, listId, notes, dueDate)
    VALUES (i, x, 0, c, l, n, du) RETURNING id, text, done, createdAt,
    listId, notes, dueDate] *)
Definition insert_todo_returning (i x c l : string) (n du : option string)
  (d : DB) : option (list TodoRow.t * DB) :=
  match todos d with
  | None => None
  | Some t =>
      if all_columns t then
        if mem_string i (todo_ids t) then None
        else
          let r := TodoRow.mk i x 0 c (Some l) n du in
          Some ([r], set_todos (set_rows (rows t ++ [r]) t) d)
      else None
  end.

(** [UPDATE todos SET .. WHERE id = i RETURNING id, text, done, createdAt,
    listId, notes, dueDate], where the assignments of the [SET] clause are
    the function [f]. *)
Definition update_where_id (f : TodoRow.t -> TodoRow.t) (i : string) (d : DB)
  : option (list TodoRow.t * DB) :=
  match todos d with
  | None => None
  | Some t =>
      if all_columns t then
        Some (map f (filter (fun r => (TodoRow.id r =? i)%string) (rows t)),
              set_todos
                (set_rows
                   (map (fun r => if (TodoRow.id r =? i)%string then f r else r)
                      (rows t)) t) d)
      else None
  end.

(** [UPDATE todos SET done = dn WHERE id = i RETURNING ..] *)
Definition update_done (dn : Z) (i : string)
  : DB -> option (list TodoRow.t * DB) :=
  update_where_id (TodoRow.set_done dn) i.

(** [UPDATE todos SET text = x, notes = n, dueDate = du, listId = l WHERE
    id = i RETURNING ..] *)
Definition update_fields (x : string) (n du l : option string) (i : string)
  : DB -> option (list TodoRow.t * DB) :=
  update_where_id
    (fun r => TodoRow.set_listId l
                (TodoRow.set_dueDate du
                   (TodoRow.set_notes n (TodoRow.set_text x r)))) i.

End Sql.

(** ** The world and the monad of [async] functions *)

Section Layer.

Context {JD : JsDate}.

(** What an [async] function of the layer can touch: the store behind the
    [SQLiteDatabase] handle, the console, the stream of identifiers that
    [crypto.randomUUID()] draws from, and the clock read by [new Date()]. *)
Record World : Type := mkWorld {
  db : DB;
  console : list string;
  uuids : nat -> string;
  drawn : nat;
  clock : Date
}.

Definition set_db (d : DB) (w : World) : World :=
  mkWorld d (console w) (uuids w) (drawn w) (clock w).

(** An awaited promise either resolves to a value or rejects; the world
    reached so far is kept in both cases. *)
Inductive outcome (A : Type) : Type :=
| Returned (a : A) (w : World)
| Thrown (w : World).
Arguments Returned {A} a w.
Arguments Thrown {A} w.

Definition Async (A : Type) : Type := World -> outcome A.

Definition ret {A : Type} (a : A) : Async A := fun w => Returned a w.

Definition bind {A B : Type} (m : Async A) (k : A -> Async B) : Async B :=
  fun w =>
    match m w with
    | Returned a w' => k a w'
    | Thrown w' => Thrown w'
    end.

(** [try { m } catch (e) { h }] *)
Definition try_catch {A : Type} (m : Async A) (h : Async A) : Async A :=
  fun w =>
    match m w with
    | Returned a w' => Returned a w'
    | Thrown w' => h w'
    end.

Definition world_of {A : Type} (o : outcome A) : World :=
  match o with
  | Returned _ w => w
  | Thrown w => w
  end.

Definition value_of {A : Type} (o : outcome A) : option A :=
  match o with
  | Returned a _ => Some a
  | Thrown _ => None
  end.

Notation "x <- m ;; k" := (bind m (fun x => k))
  (at level 61, m at next level, right associativity).
Notation "m ;;; k" := (bind m (fun _ => k))
  (at level 61, right associativity).

(** [db.execAsync(stmt)] *)
Definition execAsync (stmt : DB -> option DB) : Async unit :=
  fun w =>
    match stmt (db w) with
    | Some d => Returned tt (set_db d w)
    | None => Thrown w
    end.

(** [db.getAllAsync(stmt)]: the statement runs and all the rows it yields
    are the result. *)
Definition getAllAsync {A : Type} (stmt : DB -> option (list A * DB))
  : Async (list A) :=
  fun w =>
    match stmt (db w) with
    | Some (rs, d) => Returned rs (set_db d w)
    | None => Thrown w
    end.

(** [db.getFirstAsync(stmt)]: the statement runs to completion and the
    first row it yields, if any, is the result, [null] otherwise. *)
Definition getFirstAsync {A : Type} (stmt : DB -> option (list A * DB))
  : Async (option A) :=
  fun w =>
    match stmt (db w) with
    | Some (rs, d) => Returned (hd_error rs) (set_db d w)
    | None => Thrown w
    end.

(** [console.log(line)] *)
Definition console_log (line : string) : Async unit :=
  fun w => Returned tt
             (mkWorld (db w) (console w ++ [line]) (uuids w) (drawn w) (clock w)).

(** [crypto.randomUUID()] *)
Definition randomUUID : Async string :=
  fun w => Returned (uuids w (drawn w))
             (mkWorld (db w) (console w) (uuids w) (S (drawn w)) (clock w)).

(** [new Date()] *)
Definition date_now : Async Date := fun w => Returned (clock w) w.

(** ** The schema migrator *)

Definition DATABASE_VERSION : Z := 2.

Definition string_of_Z (z : Z) : string := NilZero.string_of_int (Z.to_int z).

Definition initializeDB : Async unit :=
  todo1Id <- randomUUID ;;
  todo2Id <- randomUUID ;;
  todo3Id <- randomUUID ;;
  execAsync Sql.journal_mode_wal ;;;
  execAsync Sql.create_todos ;;;
  execAsync (Sql.insert_todo4 todo1Id "Sample Todo from DB" 0
               "2023-01-01T00:00:00Z") ;;;
  execAsync (Sql.insert_todo4 todo2Id "Sample Todo 2 from DB" 1
               "2023-01-02T00:00:00Z") ;;;
  execAsync (Sql.insert_todo4 todo3Id "Sample Todo 3 from DB" 0
               "2023-01-03T00:00:00Z").

Definition upgradeToVersion2 : Async unit :=
  console_log "Running database upgrade to version 2..." ;;;
  execAsync Sql.create_todo_lists ;;;
  try_catch (execAsync (Sql.add_column ColListId))
            (console_log "Column listId may already exist") ;;;
  try_catch (execAsync (Sql.add_column ColNotes))
            (console_log "Column notes may already exist") ;;;
  try_catch (execAsync (Sql.add_column ColDueDate))
            (console_log "Column dueDate may already exist") ;;;
  defaultListExists <- getFirstAsync (Sql.count_lists_with_id "default-list") ;;
  (if match defaultListExists with
      | None => true
      | Some count => count =? 0
      end
   then execAsync (Sql.insert_list "default-list" "Todas as Tarefas")
   else ret tt) ;;;
  execAsync (Sql.backfill_listId "default-list").

Definition migrateDB : Async unit :=
  userVersionRow <- getFirstAsync Sql.get_user_version ;;
  let currentDbVersion := nullish userVersionRow 0 in
  if currentDbVersion =? DATABASE_VERSION then ret tt
  else
    currentDbVersion <-
      (if currentDbVersion =? 0 then
         console_log "Running initial database setup..." ;;;
         console_log ("Current DB version: " ++ string_of_Z currentDbVersion
                      ++ ", Target DB version: "
                      ++ string_of_Z DATABASE_VERSION) ;;;
         initializeDB ;;;
         ret 1
       else ret currentDbVersion) ;;
    currentDbVersion <-
      (if currentDbVersion =? 1 then
         console_log "Upgrading database to version 2..." ;;;
         upgradeToVersion2 ;;;
         ret 2
       else ret currentDbVersion) ;;
    execAsync (Sql.set_user_version DATABASE_VERSION).

(** ** The data access layer *)

(** A task as the layer returns it (type [TodoItem]): the row with its two
    timestamps turned into dates.  [done] stays the stored integer. *)
Record TodoItem : Type := mkTodoItem {
  item_id : string;
  item_text : string;
  item_done : Z;
  item_createdAt : Date;
  item_listId : option string;
  item_notes : option string;
  item_dueDate : option Date
}.

(** [{ ...todo, createdAt: new Date(todo.createdAt),
       dueDate: todo.dueDate ? new Date(todo.dueDate) : undefined }] *)
Definition toTodoItem (todo : TodoRow.t) : TodoItem :=
  mkTodoItem (TodoRow.id todo) (TodoRow.text todo) (TodoRow.done todo)
    (newDate (TodoRow.createdAt todo))
    (TodoRow.listId todo) (TodoRow.notes todo)
    (if truthy (TodoRow.dueDate todo)
     then option_map newDate (TodoRow.dueDate todo)
     else None).

(** The argument [updates] of [updateTodo]. *)
Record Updates : Type := mkUpdates {
  upd_text : option string;
  upd_notes : option string;
  upd_dueDate : option Date;
  upd_listId : option string
}.

Definition getDBVersion : Async (option Z) :=
  getFirstAsync Sql.get_user_version.

Definition getAllTodos : Async (list TodoItem) :=
  result <- getAllAsync Sql.select_todos ;;
  ret (map toTodoItem result).

Definition getTodosByList (listId : option string) : Async (list TodoItem) :=
  result <-
    (if truthy listId
     then getAllAsync (Sql.select_todos_by_list (nullish listId ""))
     else getAllAsync Sql.select_todos) ;;
  ret (map toTodoItem result).

Definition getAllLists : Async (list TodoList.t) :=
  result <- getAllAsync Sql.select_lists_by_name ;;
  ret result.

(** [createList]: the statement returns the inserted row, so the [result!]
    of the source never meets [null]; [None] stands for that. *)
Definition createList (name : string) : Async (option TodoList.t) :=
  id <- randomUUID ;;
  result <- getFirstAsync (Sql.insert_list_returning id name) ;;
  ret result.

(** [createTodo(db, text, listId = 'default-list', notes?, dueDate?)] *)
Definition createTodo (text : string) (listId notes : option string)
  (dueDate : option Date) : Async (option TodoItem) :=
  let listId := nullish listId "default-list" in
  id <- randomUUID ;;
  now <- date_now ;;
  let createdAt := toISOString now in
  let dueDateString := option_map toISOString dueDate in
  result <- getFirstAsync
              (Sql.insert_todo_returning id text createdAt listId
                 (or_null notes) dueDateString) ;;
  ret (option_map toTodoItem result).

Definition updateTodoStatus (id : string) (done : bool)
  : Async (option TodoItem) :=
  result <- getFirstAsync (Sql.update_done (if done then 1 else 0) id) ;;
  match result with
  | None => ret None
  | Some result => ret (Some (toTodoItem result))
  end.

(** [updateTodo].  A stored [dueDate] is a string whenever it is truthy, so
    the [typeof todo.dueDate === 'string'] test of the source holds. *)
Definition updateTodo (id : string) (updates : Updates)
  : Async (option TodoItem) :=
  todo <- getFirstAsync (Sql.select_todo_by_id id) ;;
  match todo with
  | None => ret None
  | Some todo =>
      let text := nullish (upd_text updates) (TodoRow.text todo) in
      let notes :=
        match upd_notes updates with
        | Some n => Some n
        | None => TodoRow.notes todo
        end in
      let dueDate :=
        match upd_dueDate updates with
        | Some d => Some (toISOString d)
        | None =>
            if truthy (TodoRow.dueDate todo) then TodoRow.dueDate todo
            else None
        end in
      let listId :=
        match upd_listId updates with
        | Some l => Some l
        | None => TodoRow.listId todo
        end in
      result <- getFirstAsync
                  (Sql.update_fields text (or_null notes) dueDate listId id) ;;
      match result with
      | None => ret None
      | Some result => ret (Some (toTodoItem result))
      end
  end.

End Layer.

Arguments initializeDB : simpl never.
Arguments upgradeToVersion2 : simpl never.
Arguments migrateDB : simpl never.

Arguments Returned {JD A} a w.
Arguments Thrown {JD A} w.

(** ** Reading a store *)

(** The task rows and the list rows of a store; a missing table holds none. *)
Definition tasks (d : DB) : list TodoRow.t :=
  match todos d with
  | Some t => rows t
  | None => []
  end.

Definition lists (d : DB) : list TodoList.t :=
  match todo_lists d with
  | Some l => l
  | None => []
  end.

(** The task with key [i], if any. *)
Definition find_task (i : string) (d : DB) : option TodoRow.t :=
  find (fun r => (TodoRow.id r =? i)%string) (tasks d).

(** The rows of a store whose [listId] is [l]. *)
Definition tasks_of_list (l : string) (d : DB) : list TodoRow.t :=
  filter (fun r => match TodoRow.listId r with
                   | Some x => (x =? l)%string
                   | None => false
                   end) (tasks d).

(** The store with the rows of [todos] replaced. *)
Definition set_tasks (rs : list TodoRow.t) (d : DB) : DB :=
  match todos d with
  | Some t => set_todos (set_rows rs t) d
  | None => d
  end.

(** The row with primary key [i] replaced by [f] of it. *)
Definition replace_task (i : string) (f : TodoRow.t -> TodoRow.t)
  (l : list TodoRow.t) : list TodoRow.t :=
  map (fun r => if (TodoRow.id r =? i)%string then f r else r) l.

(** The order on list rows that [ORDER BY name] sorts by. *)
Definition name_le (a b : TodoList.t) : Prop :=
  String.leb (TodoList.name a) (TodoList.name b) = true.

(** ** The stores the layer works on *)

(** The schema of version 2: both tables exist and [todos] has its three
    added columns.  The data access layer is only called on such a store,
    since the application mounts behind [SQLiteProvider onInit={migrateDB}]. *)
Definition schema_v2 (d : DB) : bool :=
  match todos d, todo_lists d with
  | Some t, Some _ => all_columns t
  | _, _ => false
  end.

(** A stored optional text is NULL or a non-empty string. *)
Definition null_or_nonempty (x : option string) : Prop := x <> Some "".

Definition row_ok (r : TodoRow.t) : Prop :=
  null_or_nonempty (TodoRow.notes r) /\ null_or_nonempty (TodoRow.dueDate r).

(** No task of the store has the empty string as its [notes]. *)
Definition notes_ok (d : DB) : Prop :=
  Forall (fun r => null_or_nonempty (TodoRow.notes r)) (tasks d).

(** The stores the layer works on: schema of version 2, the primary key of
    [todos] unique, and no empty string in [notes] or [dueDate].  The
    migration leaves such a store and every write of the layer keeps it
    one. *)
Definition store_ok (d : DB) : Prop :=
  schema_v2 d = true /\
  NoDup (map TodoRow.id (tasks d)) /\
  Forall row_ok (tasks d).

(** The write operations of the data access layer. *)
Inductive dal_write {JD : JsDate} : Type :=
| CreateList (name : string)
| CreateTodo (text : string) (listId notes : option string)
    (dueDate : option Date)
| UpdateTodoStatus (id : string) (done : bool)
| UpdateTodo (id : string) (updates : Updates).

(** The world after a write operation, whether it returned or threw. *)
Definition after_write {JD : JsDate} (c : dal_write) (w : World) : World :=
  match c with
  | CreateList name => world_of (createList name w)
  | CreateTodo text listId notes dueDate =>
      world_of (createTodo text listId notes dueDate w)
  | UpdateTodoStatus id done => world_of (updateTodoStatus id done w)
  | UpdateTodo id updates => world_of (updateTodo id updates w)
  end.

(** ** What the migration writes *)

(** The seed rows of [initializeDB], given the three identifiers drawn. *)
Definition seed_rows (i1 i2 i3 : string) : list TodoRow.t :=
  [ TodoRow.mk i1 "Sample Todo from DB" 0 "2023-01-01T00:00:00Z" None None None;
    TodoRow.mk i2 "Sample Todo 2 from DB" 1 "2023-01-02T00:00:00Z" None None None;
    TodoRow.mk i3 "Sample Todo 3 from DB" 0 "2023-01-03T00:00:00Z" None None None ].

(** The sentinel list of [upgradeToVersion2]. *)
Definition default_list : TodoList.t :=
  TodoList.mk "default-list" "Todas as Tarefas".

(** A row of [todos] after [upgradeToVersion2], run on table [t]: each
    column that [t] lacks is added with NULL in it, and a NULL [listId]
    becomes the sentinel list. *)
Definition upgraded_row (t : TodosTable) (r : TodoRow.t) : TodoRow.t :=
  let r := if has_listId t then r else TodoRow.set_listId None r in
  let r := if has_notes t then r else TodoRow.set_notes None r in
  let r := if has_dueDate t then r else TodoRow.set_dueDate None r in
  match TodoRow.listId r with
  | None => TodoRow.set_listId (Some "default-list") r
  | Some _ => r
  end.

(** The three identifiers that [initializeDB] draws are new keys. *)
Definition fresh3 {JD : JsDate} (w : World) : Prop :=
  NoDup (uuids w (drawn w) :: uuids w (S (drawn w))
         :: uuids w (S (S (drawn w))) :: map TodoRow.id (tasks (db w))).

(** The migration step a console line announces: [0] for the step from
    version 0 to 1, [1] for the step from version 1 to 2.  [migrateDB] logs
    the first line right before it calls [initializeDB] and the second
    right before it calls [upgradeToVersion2]. *)
Definition step_announced (line : string) : option Z :=
  if (line =? "Running initial database setup...")%string then Some 0
  else if (line =? "Upgrading database to version 2...")%string then Some 1
  else None.

Fixpoint steps_announced (lines : list string) : list Z :=
  match lines with
  | [] => []
  | line :: rest =>
      match step_announced line with
      | Some k => k :: steps_announced rest
      | None => steps_announced rest
      end
  end.

(** The steps that lead from version [v] to version 2, in order. *)
Definition steps_from (v : Z) : list Z :=
  if v =? 0 then [0; 1] else if v =? 1 then [1] else [].

(** A computation that leaves the persisted version marker as it found it,
    whether it returns or throws. *)
Definition keeps_version {JD : JsDate} {A : Type} (m : Async A) : Prop :=
  forall w, user_version (db (world_of (m w))) = user_version (db w).

(** A computation that only appends to the console, and announces no
    migration step. *)
Definition announces_nothing {JD : JsDate} {A : Type} (m : Async A) : Prop :=
  forall w, exists lines,
    console (world_of (m w)) = console w ++ lines /\
    steps_announced lines = [].

(** ** The run of [migrateDB], step by step *)

(** The world once [console.log(line)] has run. *)
Definition logged {JD : JsDate} (line : string) (w : World) : World :=
  world_of (console_log line w).

(** The world once [PRAGMA user_version = v] has run. *)
Definition marked {JD : JsDate} (v : Z) (w : World) : World :=
  set_db (mkDB v (journal_wal (db w)) (todos (db w)) (todo_lists (db w))) w.

(** ** Concrete worlds

    A clock to run the layer on concrete worlds: instants are counted in
    milliseconds since the epoch and rendered in decimal digits. *)
Lemma epoch_render_nonempty (n : N) :
  NilEmpty.string_of_uint (N.to_uint n) <> "".
Proof.
  intro H.
  pose proof (NilEmpty.usu (N.to_uint n)) as U.
  rewrite H in U. simpl in U. injection U as U.
  pose proof (DecimalN.Unsigned.of_to n) as O.
  rewrite <- U in O. simpl in O. subst n. discriminate U.
Qed.

Lemma epoch_render_parse (n : N) :
  match NilEmpty.uint_of_string (NilEmpty.string_of_uint (N.to_uint n)) with
  | Some u => N.of_uint u
  | None => 0%N
  end = n.
Proof.
  rewrite NilEmpty.usu. apply DecimalN.Unsigned.of_to.
Qed.

#[local] Instance epoch_clock : JsDate := {|
  Date := N;
  toISOString := fun n => NilEmpty.string_of_uint (N.to_uint n);
  newDate := fun s => match NilEmpty.uint_of_string s with
                      | Some u => N.of_uint u
                      | None => 0%N
                      end;
  toISOString_nonempty := epoch_render_nonempty;
  newDate_toISOString := epoch_render_parse
|}.

(** Identifiers ["id-0"], ["id-1"], ... and a clock at a fixed instant. *)
Definition id_of (n : nat) : string :=
  "id-" ++ NilEmpty.string_of_uint (Nat.to_uint n).

Definition world0 (d : DB) : @World epoch_clock :=
  mkWorld d [] id_of 0 1700000000000%N.

(** The world of a first launch, and the world once [migrateDB] has run in
    it. *)
Definition fresh_world : @World epoch_clock := world0 empty_db.

Definition migrated_world : @World epoch_clock :=
  world_of (migrateDB fresh_world).

(** The three seeded tasks as [migrateDB] leaves them in [migrated_world]. *)
Definition seeded_task_1 : TodoRow.t :=
  TodoRow.mk "id-0" "Sample Todo from DB" 0 "2023-01-01T00:00:00Z"
    (Some "default-list") None None.
Definition seeded_task_2 : TodoRow.t :=
  TodoRow.mk "id-1" "Sample Todo 2 from DB" 1 "2023-01-02T00:00:00Z"
    (Some "default-list") None None.
Definition seeded_task_3 : TodoRow.t :=
  TodoRow.mk "id-2" "Sample Todo 3 from DB" 0 "2023-01-03T00:00:00Z"
    (Some "default-list") None None.

(** A store left by a later release: the schema of version 2 under the
    version marker 3. *)
Definition world_at_version_3 : @World epoch_clock :=
  world0 (mkDB 3 true (todos (db migrated_world))
            (todo_lists (db migrated_world))).

(** The world after lists "Work", "Apple" and "Z" have been created, in this
    order, once the migration has run. *)
Definition world_with_lists : @World epoch_clock :=
  world_of (createList "Z"
    (world_of (createList "Apple"
      (world_of (createList "Work" migrated_world))))).

(** ** Rows across a write *)

(** What identifies a task for good: its key and its creation time. *)
Definition key_of (r : TodoRow.t) : string * string :=
  (TodoRow.id r, TodoRow.createdAt r).

(** The row that the [UPDATE] of [updateTodo] makes of a row [q], with the
    values merged from the update [u] and the row [todo] read first. *)
Definition merged_row {JD : JsDate} (u : Updates) (todo q : TodoRow.t)
  : TodoRow.t :=
  TodoRow.set_listId
    (match upd_listId u with
     | Some l => Some l
     | None => TodoRow.listId todo
     end)
    (TodoRow.set_dueDate
       (match upd_dueDate u with
        | Some d => Some (toISOString d)
        | None => if truthy (TodoRow.dueDate todo)
                  then TodoRow.dueDate todo else None
        end)
       (TodoRow.set_notes
          (or_null (match upd_notes u with
                    | Some n => Some n
                    | None => TodoRow.notes todo
                    end))
          (TodoRow.set_text (nullish (upd_text u) (TodoRow.text todo)) q))).

(** The store with the rows of [todo_lists] replaced. *)
Definition set_lists (l : list TodoList.t) (d : DB) : DB :=
  match todo_lists d with
  | Some _ => set_todo_lists l d
  | None => d
  end.

(** A store whose marker stayed at 0 over the rows of a first run, with
    the identifier generator three draws further. *)
Definition world_with_stale_marker : @World epoch_clock :=
  mkWorld (mkDB 0 true (todos (db migrated_world))
             (todo_lists (db migrated_world)))
    [] id_of 3 1700000000000%N.

(** ** The screens (app/(tabs)/index.tsx, app/lists.tsx, app/task-details.tsx)

    A handler of a screen runs against the state its component had at the
    last render (the values its closure holds), awaits operations of the
    layer, sets state and shows alerts.  What it has set stays set when it
    throws later, so the state of the component and the alerts shown are
    threaded like the world. *)

Record UI (S : Type) : Type := mkUI {
  state : S;
  alerts : list (string * string)
}.
Arguments mkUI {S} state alerts.
Arguments state {S} u.
Arguments alerts {S} u.

Inductive ui_outcome {JD : JsDate} (S A : Type) : Type :=
| Settled (a : A) (ui : UI S) (w : World)
| Rejected (ui : UI S) (w : World).
Arguments Settled {JD S A} a ui w.
Arguments Rejected {JD S A} ui w.

Definition Handler {JD : JsDate} (S A : Type) : Type :=
  UI S -> World -> ui_outcome S A.

Definition h_ret {JD : JsDate} {S A : Type} (a : A) : Handler S A :=
  fun ui w => Settled a ui w.

Definition h_bind {JD : JsDate} {S A B : Type} (m : Handler S A)
  (k : A -> Handler S B) : Handler S B :=
  fun ui w =>
    match m ui w with
    | Settled a ui' w' => k a ui' w'
    | Rejected ui' w' => Rejected ui' w'
    end.

(** [try { m } catch (error) { h }] in a handler. *)
Definition h_try {JD : JsDate} {S A : Type} (m h : Handler S A)
  : Handler S A :=
  fun ui w =>
    match m ui w with
    | Settled a ui' w' => Settled a ui' w'
    | Rejected ui' w' => h ui' w'
    end.

(** [await m], for an operation [m] of the layer. *)
Definition await {JD : JsDate} {S A : Type} (m : Async A) : Handler S A :=
  fun ui w =>
    match m w with
    | Returned a w' => Settled a ui w'
    | Thrown w' => Rejected ui w'
    end.

(** [await m] where the source goes on to read the row returned: a
    [null] there is the TypeError of reading a field of [null]. *)
Definition await_row {JD : JsDate} {S A : Type} (m : Async (option A))
  : Handler S A :=
  fun ui w =>
    match m w with
    | Returned (Some a) w' => Settled a ui w'
    | Returned None w' => Rejected ui w'
    | Thrown w' => Rejected ui w'
    end.

(** A state setter of the component: [setTodos(..)], [setLists(..)], ... *)
Definition set_state {JD : JsDate} {S : Type} (f : S -> S)
  : Handler S unit :=
  fun ui w => Settled tt (mkUI (f (state ui)) (alerts ui)) w.

(** [Alert.alert(title, message)] *)
Definition alert {JD : JsDate} {S : Type} (title message : string)
  : Handler S unit :=
  fun ui w => Settled tt (mkUI (state ui) (alerts ui ++ [(title, message)])) w.

(** [console.error(line, error)]: the line goes to the console. *)
Definition console_error {JD : JsDate} {S : Type} (line : string)
  : Handler S unit :=
  await (console_log line).

Definition ui_of {JD : JsDate} {S A : Type} (o : ui_outcome S A) : UI S :=
  match o with
  | Settled _ ui _ => ui
  | Rejected ui _ => ui
  end.

Definition ui_world {JD : JsDate} {S A : Type} (o : ui_outcome S A) : World :=
  match o with
  | Settled _ _ w => w
  | Rejected _ w => w
  end.

Declare Scope handler_scope.
Delimit Scope handler_scope with handler.
Notation "x <- m ;; k" := (h_bind m (fun x => k))
  (at level 61, m at next level, right associativity) : handler_scope.
Notation "m ;;; k" := (h_bind m (fun _ => k))
  (at level 61, right associativity) : handler_scope.
Local Open Scope handler_scope.

(** Truthiness of the [done] of a task, the integer the store holds. *)
Definition is_done {JD : JsDate} (todo : TodoItem) : bool :=
  negb (item_done todo =? 0).

(** *** The task screen: component [TodoList] *)

Inductive FilterOptions : Type := FilterAll | FilterPending | FilterDone.

Record TodoListState {JD : JsDate} : Type := mkTodoListState {
  st_todos : list TodoItem;
  st_lists : list TodoList.t;
  st_filter : FilterOptions;
  st_listName : string
}.
Arguments mkTodoListState {JD} st_todos st_lists st_filter st_listName.

Definition setTodos {JD : JsDate} (x : list TodoItem) (s : TodoListState)
  : TodoListState :=
  mkTodoListState x (st_lists s) (st_filter s) (st_listName s).
Definition setLists {JD : JsDate} (x : list TodoList.t) (s : TodoListState)
  : TodoListState :=
  mkTodoListState (st_todos s) x (st_filter s) (st_listName s).
Definition setListName {JD : JsDate} (x : string) (s : TodoListState)
  : TodoListState :=
  mkTodoListState (st_todos s) (st_lists s) (st_filter s) x.

(** [selectedList?.name || "Lista"] *)
Definition name_or_Lista (selectedList : option TodoList.t) : string :=
  match selectedList with
  | Some list => if (TodoList.name list =? "")%string then "Lista"
                 else TodoList.name list
  | None => "Lista"
  end.

Definition loadData {JD : JsDate} (selectedListId : option string)
  : Handler TodoListState unit :=
  h_try
    (listsResult <- await getAllLists ;;
     set_state (setLists listsResult) ;;;
     (if truthy selectedListId then
        let selectedList :=
          find (fun list =>
                  (TodoList.id list =? nullish selectedListId "")%string)
            listsResult in
        set_state (setListName (name_or_Lista selectedList))
      else h_ret tt) ;;;
     todosResult <-
       (if truthy selectedListId
        then await (getTodosByList selectedListId)
        else await getAllTodos) ;;
     set_state (setTodos todosResult))
    (console_error "Error loading data:").

Definition addTodo {JD : JsDate} (todos : list TodoItem)
  (text listId : string) (notes : option string) (dueDate : option Date)
  : Handler TodoListState unit :=
  h_try
    (newTodo <- await_row (createTodo text (Some listId) notes dueDate) ;;
     set_state (setTodos (todos ++ [newTodo])))
    (console_error "Error adding todo:" ;;;
     alert "Erro" "Não foi possível adicionar a tarefa").

Definition toggleTodo {JD : JsDate} (todos : list TodoItem) (id : string)
  : Handler TodoListState unit :=
  h_try
    (match find (fun t => (item_id t =? id)%string) todos with
     | None => h_ret tt
     | Some todo =>
         updatedTodo <- await (updateTodoStatus id (negb (is_done todo))) ;;
         match updatedTodo with
         | Some updatedTodo =>
             set_state
               (setTodos
                  (map (fun t =>
                          if (item_id t =? item_id updatedTodo)%string
                          then updatedTodo else t) todos))
         | None => h_ret tt
         end
     end)
    (console_error "Error toggling todo:").

(** The list shown: [filteredAndSortedTodos].  Dates are compared by
    their time value, [getTime()], in milliseconds. *)
Class JsTime {JD : JsDate} : Type := {
  getTime : Date -> Z
}.

#[local] Instance epoch_time : @JsTime epoch_clock :=
  @Build_JsTime epoch_clock Z.of_N.

(** The predicate of [todos.filter(..)]. *)
Definition shown_by {JD : JsDate} (filter : FilterOptions) (todo : TodoItem)
  : bool :=
  match filter with
  | FilterAll => true
  | FilterPending => negb (is_done todo)
  | FilterDone => is_done todo
  end.

Definition has_dueDate_item {JD : JsDate} (todo : TodoItem) : bool :=
  match item_dueDate todo with
  | Some _ => true
  | None => false
  end.

(** The comparator of [.sort((a, b) => ..)]. *)
Definition compareTodos {JD : JsDate} {JT : JsTime} (a b : TodoItem) : Z :=
  if is_done a && negb (is_done b) then 1
  else if negb (is_done a) && is_done b then -1
  else if has_dueDate_item a && negb (has_dueDate_item b) then -1
  else if negb (has_dueDate_item a) && has_dueDate_item b then 1
  else
    match item_dueDate a, item_dueDate b with
    | Some x, Some y => getTime x - getTime y
    | _, _ => getTime (item_createdAt b) - getTime (item_createdAt a)
    end.

(** [Array.prototype.sort(compare)]: a stable sort.  For a comparator that
    orders its arguments consistently the outcome does not depend on the
    algorithm; it is the one of this insertion, which puts an element
    before the first one it does not come after. *)
Fixpoint insert_sorted {A : Type} (compare : A -> A -> Z) (x : A)
  (l : list A) : list A :=
  match l with
  | [] => [x]
  | y :: l' =>
      if compare x y <=? 0 then x :: y :: l'
      else y :: insert_sorted compare x l'
  end.

Definition array_sort {A : Type} (compare : A -> A -> Z) (l : list A)
  : list A :=
  fold_right (insert_sorted compare) [] l.

Definition filteredAndSortedTodos {JD : JsDate} {JT : JsTime}
  (todos : list TodoItem) (filter : FilterOptions) : list TodoItem :=
  array_sort compareTodos (List.filter (shown_by filter) todos).

(** The order of the list shown, in words: tasks not done before tasks
    done; among tasks equally done, those with a due date before those
    without, by due date, the earliest first; those without by creation
    time, the latest first. *)
Definition shown_before {JD : JsDate} {JT : JsTime} (a b : TodoItem)
  : Prop :=
  (is_done a = false /\ is_done b = true) \/
  (is_done a = is_done b /\
   match item_dueDate a, item_dueDate b with
   | Some x, Some y => getTime x <= getTime y
   | Some _, None => True
   | None, Some _ => False
   | None, None => getTime (item_createdAt b) <= getTime (item_createdAt a)
   end).

(** *** The lists screen: component [ListsScreen] *)

Record ListsState : Type := mkListsState {
  ls_lists : list TodoList.t;
  ls_modalVisible : bool;
  ls_newListName : string
}.

Definition ls_setLists (x : list TodoList.t) (s : ListsState) : ListsState :=
  mkListsState x (ls_modalVisible s) (ls_newListName s).
Definition ls_setModalVisible (x : bool) (s : ListsState) : ListsState :=
  mkListsState (ls_lists s) x (ls_newListName s).
Definition ls_setNewListName (x : string) (s : ListsState) : ListsState :=
  mkListsState (ls_lists s) (ls_modalVisible s) x.

Definition loadLists {JD : JsDate} : Handler ListsState unit :=
  h_try
    (result <- await getAllLists ;;
     set_state (ls_setLists result))
    (console_error "Error loading lists:" ;;;
     alert "Erro" "Não foi possível carregar as listas").

(** [handleCreateList]; [trim] is [String.prototype.trim]. *)
Definition handleCreateList {JD : JsDate} (trim : string -> string)
  (lists : list TodoList.t) (newListName : string)
  : Handler ListsState unit :=
  if (trim newListName =? "")%string then
    alert "Erro" "Por favor, digite um nome para a lista"
  else
    h_try
      (newList <- await_row (createList (trim newListName)) ;;
       set_state (ls_setLists (lists ++ [newList])) ;;;
       set_state (ls_setNewListName "") ;;;
       set_state (ls_setModalVisible false) ;;;
       alert "Sucesso" "Lista criada com sucesso!")
      (alert "Erro" "Não foi possível criar a lista").

(** *** The details screen: component [TaskDetailScreen] *)

Record TaskDetailState {JD : JsDate} : Type := mkTaskDetailState {
  td_task : option TodoItem;
  td_lists : list TodoList.t;
  td_editing : bool;
  td_showDatePicker : bool
}.
Arguments mkTaskDetailState {JD} td_task td_lists td_editing td_showDatePicker.

Definition td_setTask {JD : JsDate} (x : option TodoItem)
  (s : TaskDetailState) : TaskDetailState :=
  mkTaskDetailState x (td_lists s) (td_editing s) (td_showDatePicker s).
Definition td_setEditing {JD : JsDate} (x : bool) (s : TaskDetailState)
  : TaskDetailState :=
  mkTaskDetailState (td_task s) (td_lists s) x (td_showDatePicker s).
Definition td_setShowDatePicker {JD : JsDate} (x : bool)
  (s : TaskDetailState) : TaskDetailState :=
  mkTaskDetailState (td_task s) (td_lists s) (td_editing s) x.

(** [{ ...task, dueDate: d }] *)
Definition with_dueDate {JD : JsDate} (d : option Date) (task : TodoItem)
  : TodoItem :=
  mkTodoItem (item_id task) (item_text task) (item_done task)
    (item_createdAt task) (item_listId task) (item_notes task) d.

Definition loadTask {JD : JsDate} (taskId : string)
  : Handler TaskDetailState unit :=
  result <- await (getFirstAsync (Sql.select_todo_by_id taskId)) ;;
  match result with
  | Some result => set_state (td_setTask (Some (toTodoItem result)))
  | None => h_ret tt
  end.

Definition handleUpdate {JD : JsDate} (task : option TodoItem)
  : Handler TaskDetailState unit :=
  match task with
  | None => h_ret tt
  | Some task =>
      h_try
        (updated <- await (updateTodo (item_id task)
                             (mkUpdates (Some (item_text task))
                                (item_notes task) (item_dueDate task)
                                (item_listId task))) ;;
         match updated with
         | Some updated =>
             set_state (td_setTask (Some updated)) ;;;
             set_state (td_setEditing false) ;;;
             alert "Sucesso" "Tarefa atualizada!"
         | None => h_ret tt
         end)
        (alert "Erro" "Não foi possível atualizar a tarefa")
  end.

Definition handleDateChange {JD : JsDate} (task : option TodoItem)
  (selectedDate : option Date) : Handler TaskDetailState unit :=
  set_state (td_setShowDatePicker false) ;;;
  match selectedDate, task with
  | Some d, Some task => set_state (td_setTask (Some (with_dueDate (Some d) task)))
  | _, _ => h_ret tt
  end.

Definition removeDueDate {JD : JsDate} (task : option TodoItem)
  : Handler TaskDetailState unit :=
  match task with
  | Some task => set_state (td_setTask (Some (with_dueDate None task)))
  | None => h_ret tt
  end.

(** ** Screens and the store *)

(** The task screen mirrors the store: it holds the tasks of the store, in
    stored order. *)
Definition mirrors {JD : JsDate} (ui : UI TodoListState) (w : World) : Prop :=
  st_todos (state ui) = map toTodoItem (tasks (db w)).

(** A handler that settles on every screen state and every world. *)
Definition settles {JD : JsDate} {S : Type} (h : Handler S unit) : Prop :=
  forall ui w, exists ui' w', h ui w = Settled tt ui' w'.

(** ** Concrete screens *)

(** [migrated_world] after a task with a due date was created. *)
Definition world_with_dueDate : @World epoch_clock :=
  world_of (createTodo "Pay rent" (Some "default-list") None (Some 86400%N)
              migrated_world).

(** The task created in [world_with_dueDate]. *)
Definition task_with_dueDate : TodoRow.t :=
  TodoRow.mk "id-3" "Pay rent" 0 "1700000000000" (Some "default-list") None
    (Some "86400").

(** The task screen showing every task of [migrated_world]. *)
Definition task_screen : UI (@TodoListState epoch_clock) :=
  mkUI (mkTodoListState (map toTodoItem (tasks (db migrated_world))) []
          FilterAll "Todas as Tarefas") [].

(** The details screen before a task is loaded. *)
Definition details_screen : UI (@TaskDetailState epoch_clock) :=
  mkUI (mkTaskDetailState None [] true false) [].

(** * Properties *)

(** ** Elementary facts *)

Lemma mem_string_In (x : string) (l : list string) :
  mem_string x l = true <-> In x l.
Proof.
  unfold mem_string. rewrite existsb_exists. split.
  - intros [y [Hy E]]. apply String.eqb_eq in E. now subst.
  - intro H. exists x. split; [assumption | apply String.eqb_refl].
Qed.

Lemma mem_string_notin (x : string) (l : list string) :
  ~ In x l -> mem_string x l = false.
Proof.
  intro H. destruct (mem_string x l) eqn:E; [|reflexivity].
  apply mem_string_In in E. contradiction.
Qed.

Ltac run :=
  unfold bind, ret, try_catch, execAsync, getAllAsync, getFirstAsync,
    console_log, randomUUID, date_now, set_db; simpl.

(** ** Properties of the migrator *)

Lemma count_zero_notin (i : string) (l : list TodoList.t) :
  Z.of_nat (length (filter (fun r => (TodoList.id r =? i)%string) l)) = 0 ->
  mem_string i (map TodoList.id l) = false.
Proof.
  intro H. apply mem_string_notin. intro Hin.
  apply in_map_iff in Hin. destruct Hin as [r [E Hr]].
  assert (Hf : In r (filter (fun r => (TodoList.id r =? i)%string) l)).
  { apply filter_In. split; [assumption|]. rewrite E. apply String.eqb_refl. }
  destruct (filter (fun r => (TodoList.id r =? i)%string) l);
    [contradiction | simpl in H; lia].
Qed.

Lemma count_nonzero_in (i : string) (l : list TodoList.t) :
  Z.of_nat (length (filter (fun r => (TodoList.id r =? i)%string) l)) <> 0 ->
  In i (map TodoList.id l).
Proof.
  intro H.
  destruct (filter (fun r => (TodoList.id r =? i)%string) l) as [|r f] eqn:E;
    [simpl in H; lia|].
  assert (Hr : In r (filter (fun r => (TodoList.id r =? i)%string) l))
    by (rewrite E; now left).
  apply filter_In in Hr. destruct Hr as [Hr Hi].
  apply String.eqb_eq in Hi. subst i. now apply in_map.
Qed.

(** Where [todos] is missing, the upgrade creates [todo_lists] with its
    sentinel row and then throws on the backfill; the version marker stays. *)
Lemma upgradeToVersion2_no_todos {JD : JsDate} (w : World) :
  todos (db w) = None ->
  exists w',
    upgradeToVersion2 w = Thrown w' /\
    user_version (db w') = user_version (db w) /\
    journal_wal (db w') = journal_wal (db w) /\
    todos (db w') = None /\
    todo_lists (db w') =
      Some (if mem_string "default-list" (map TodoList.id (lists (db w)))
            then lists (db w)
            else lists (db w) ++ [default_list]).
Proof.
  destruct w as [[v j t l] c u n clk]; simpl. intros ->.
  unfold upgradeToVersion2. run.
  unfold Sql.create_todo_lists, Sql.add_column, Sql.count_lists_with_id; simpl.
  destruct l as [l|]; simpl.
  - destruct (Z.of_nat _ =? 0) eqn:E.
    + apply Z.eqb_eq in E. pose proof (count_zero_notin _ _ E) as Hm.
      unfold Sql.insert_list. simpl. rewrite Hm. simpl.
      eexists. split; [reflexivity|]. unfold lists. simpl. rewrite Hm. auto.
    + apply Z.eqb_neq in E. apply count_nonzero_in in E.
      apply mem_string_In in E.
      eexists. split; [reflexivity|]. unfold lists. simpl. rewrite E. auto.
  - eexists. split; [reflexivity|]. simpl. auto.
Qed.

(** Where [todos] exists, the upgrade returns: the store has the schema of
    version 2, the sentinel list and the same version marker, and every row
    has been brought to the new columns. *)
Lemma upgradeToVersion2_returns {JD : JsDate} (w : World) (t : TodosTable) :
  todos (db w) = Some t ->
  exists w',
    upgradeToVersion2 w = Returned tt w' /\
    user_version (db w') = user_version (db w) /\
    schema_v2 (db w') = true /\
    In "default-list" (map TodoList.id (lists (db w'))) /\
    tasks (db w') = map (upgraded_row t) (rows t).
Proof.
  destruct w as [[v j t0 l] c u n clk]; simpl. intros ->.
  unfold upgradeToVersion2. run.
  unfold Sql.create_todo_lists, Sql.add_column, Sql.count_lists_with_id,
    Sql.backfill_listId, Sql.insert_list; simpl.
  destruct t as [hl hn hd rs].
  destruct l as [l|]; simpl;
    [pose proof (count_zero_notin "default-list" l) as Hm;
     pose proof (count_nonzero_in "default-list" l) as Hin;
     destruct hl, hn, hd; simpl;
     match goal with
     | |- context [Z.of_nat ?x =? 0] =>
         destruct (Z.eqb_spec (Z.of_nat x) 0) as [E|E];
         [simpl; rewrite (Hm E) | specialize (Hin E)]
     end
    |destruct hl, hn, hd]; simpl;
      (eexists; split; [reflexivity|]; simpl; unfold schema_v2, tasks, lists;
       simpl;
       repeat split;
       try assumption;
       try (rewrite map_app; apply in_or_app; right; now left);
       try (now left);
       rewrite ?map_map; apply map_ext; intro r; reflexivity).
Qed.

Lemma upgraded_row_id (t : TodosTable) (r : TodoRow.t) :
  TodoRow.id (upgraded_row t r) = TodoRow.id r.
Proof.
  unfold upgraded_row.
  destruct (has_listId t), (has_notes t), (has_dueDate t); simpl;
    destruct (TodoRow.listId r); reflexivity.
Qed.

Lemma upgraded_row_ok (t : TodosTable) (r : TodoRow.t) :
  (has_notes t = true -> null_or_nonempty (TodoRow.notes r)) ->
  (has_dueDate t = true -> null_or_nonempty (TodoRow.dueDate r)) ->
  row_ok (upgraded_row t r).
Proof.
  unfold upgraded_row, row_ok, null_or_nonempty.
  destruct (has_listId t), (has_notes t), (has_dueDate t); simpl;
    intros Hn Hd; destruct (TodoRow.listId r); simpl; split;
      try discriminate; auto.
Qed.

(** *** The steps leave the version marker alone *)

Lemma keeps_version_ret {JD : JsDate} {A : Type} (a : A) :
  keeps_version (ret a).
Proof. intro w. reflexivity. Qed.

Lemma keeps_version_bind {JD : JsDate} {A B : Type}
  (m : Async A) (k : A -> Async B) :
  keeps_version m -> (forall a, keeps_version (k a)) ->
  keeps_version (bind m k).
Proof.
  intros Hm Hk w. unfold bind. specialize (Hm w).
  destruct (m w) as [a w'|w']; simpl in *; [|assumption].
  rewrite Hk. assumption.
Qed.

Lemma keeps_version_try {JD : JsDate} {A : Type} (m h : Async A) :
  keeps_version m -> keeps_version h -> keeps_version (try_catch m h).
Proof.
  intros Hm Hh w. unfold try_catch. specialize (Hm w).
  destruct (m w) as [a w'|w']; simpl in *; [assumption|].
  rewrite Hh. assumption.
Qed.

Lemma keeps_version_exec {JD : JsDate} (stmt : DB -> option DB) :
  (forall d d', stmt d = Some d' -> user_version d' = user_version d) ->
  keeps_version (execAsync stmt).
Proof.
  intros H [d c u n clk]. unfold execAsync. simpl.
  destruct (stmt d) as [d'|] eqn:E; simpl; [now apply H | reflexivity].
Qed.

Lemma keeps_version_first {JD : JsDate} {A : Type}
  (stmt : DB -> option (list A * DB)) :
  (forall d rs d', stmt d = Some (rs, d') -> user_version d' = user_version d) ->
  keeps_version (getFirstAsync stmt).
Proof.
  intros H [d c u n clk]. unfold getFirstAsync. simpl.
  destruct (stmt d) as [[rs d']|] eqn:E; simpl; [now apply (H d rs) | reflexivity].
Qed.

Lemma keeps_version_count {JD : JsDate} (i : string) :
  keeps_version (getFirstAsync (Sql.count_lists_with_id i)).
Proof.
  apply keeps_version_first. intros d rs d'. unfold Sql.count_lists_with_id.
  destruct (todo_lists d); [|discriminate]. intro E. now injection E as _ <-.
Qed.

Lemma keeps_version_log {JD : JsDate} (line : string) :
  keeps_version (console_log line).
Proof. intro w. reflexivity. Qed.

Lemma keeps_version_uuid {JD : JsDate} : keeps_version randomUUID.
Proof. intro w. reflexivity. Qed.

Lemma insert_todo4_version (i x : string) (dn : Z) (c : string) (d d' : DB) :
  Sql.insert_todo4 i x dn c d = Some d' -> user_version d' = user_version d.
Proof.
  unfold Sql.insert_todo4. destruct (todos d) as [t|]; [|discriminate].
  destruct (mem_string i (todo_ids t)); [discriminate|].
  intro E. injection E as <-. reflexivity.
Qed.

Lemma add_column_version (c : column) (d d' : DB) :
  Sql.add_column c d = Some d' -> user_version d' = user_version d.
Proof.
  unfold Sql.add_column. destruct (todos d) as [t|]; [|discriminate].
  destruct (has_column c t); [discriminate|].
  intro E. injection E as <-. reflexivity.
Qed.

Create HintDb version discriminated.
#[local] Hint Resolve keeps_version_ret keeps_version_try keeps_version_count
  keeps_version_log keeps_version_uuid : version.

Lemma initializeDB_keeps_version {JD : JsDate} : keeps_version initializeDB.
Proof.
  unfold initializeDB.
  repeat (apply keeps_version_bind; [|intro]); auto with version;
    apply keeps_version_exec; intros d d'.
  - intro E. injection E as <-. reflexivity.
  - unfold Sql.create_todos. destruct (todos d); intro E; injection E as <-;
      reflexivity.
  - apply insert_todo4_version.
  - apply insert_todo4_version.
  - apply insert_todo4_version.
Qed.

Lemma upgradeToVersion2_keeps_version {JD : JsDate} :
  keeps_version upgradeToVersion2.
Proof.
  unfold upgradeToVersion2.
  repeat (apply keeps_version_bind; [|intro]);
    try (apply keeps_version_try); auto with version;
    try (match goal with
         | |- keeps_version (if ?b then _ else _) => destruct b
         end; auto with version);
    apply keeps_version_exec; intros d d';
    try apply add_column_version.
  - unfold Sql.create_todo_lists. destruct (todo_lists d); intro E;
      injection E as <-; reflexivity.
  - unfold Sql.insert_list. destruct (todo_lists d) as [l|]; [|discriminate].
    destruct (mem_string _ _); [discriminate|].
    intro E. injection E as <-. reflexivity.
  - unfold Sql.backfill_listId. destruct (todos d) as [t|]; [|discriminate].
    destruct (has_listId t); [|discriminate].
    intro E. injection E as <-. reflexivity.
Qed.

(** *** What the steps write to the console *)

Lemma steps_announced_app (l1 l2 : list string) :
  steps_announced (l1 ++ l2) = steps_announced l1 ++ steps_announced l2.
Proof.
  induction l1 as [|x l1 IH]; simpl; [reflexivity|].
  destruct (step_announced x); simpl; now rewrite IH.
Qed.

Lemma announces_nothing_ret {JD : JsDate} {A : Type} (a : A) :
  announces_nothing (ret a).
Proof. intro w. exists []. simpl. now rewrite app_nil_r. Qed.

Lemma announces_nothing_bind {JD : JsDate} {A B : Type}
  (m : Async A) (k : A -> Async B) :
  announces_nothing m -> (forall a, announces_nothing (k a)) ->
  announces_nothing (bind m k).
Proof.
  intros Hm Hk w. unfold bind. destruct (Hm w) as [l1 [E1 S1]].
  destruct (m w) as [a w'|w']; simpl in *; [|now exists l1].
  destruct (Hk a w') as [l2 [E2 S2]]. exists (l1 ++ l2).
  rewrite E2, E1, app_assoc, steps_announced_app, S1, S2. now split.
Qed.

Lemma announces_nothing_try {JD : JsDate} {A : Type} (m h : Async A) :
  announces_nothing m -> announces_nothing h ->
  announces_nothing (try_catch m h).
Proof.
  intros Hm Hh w. unfold try_catch. destruct (Hm w) as [l1 [E1 S1]].
  destruct (m w) as [a w'|w']; simpl in *; [now exists l1|].
  destruct (Hh w') as [l2 [E2 S2]]. exists (l1 ++ l2).
  rewrite E2, E1, app_assoc, steps_announced_app, S1, S2. now split.
Qed.

Lemma announces_nothing_exec {JD : JsDate} (stmt : DB -> option DB) :
  announces_nothing (execAsync stmt).
Proof.
  intros [d c u n clk]. unfold execAsync. simpl. exists [].
  destruct (stmt d); simpl; now rewrite app_nil_r.
Qed.

Lemma announces_nothing_first {JD : JsDate} {A : Type}
  (stmt : DB -> option (list A * DB)) :
  announces_nothing (getFirstAsync stmt).
Proof.
  intros [d c u n clk]. unfold getFirstAsync. simpl. exists [].
  destruct (stmt d) as [[rs d']|]; simpl; now rewrite app_nil_r.
Qed.

Lemma announces_nothing_uuid {JD : JsDate} : announces_nothing randomUUID.
Proof. intro w. exists []. simpl. now rewrite app_nil_r. Qed.

Lemma announces_nothing_log {JD : JsDate} (line : string) :
  step_announced line = None -> announces_nothing (console_log line).
Proof. intros H w. exists [line]. simpl. now rewrite H. Qed.

Create HintDb console discriminated.
#[local] Hint Resolve announces_nothing_ret announces_nothing_try
  announces_nothing_exec announces_nothing_first announces_nothing_uuid
  : console.

Lemma initializeDB_announces_nothing {JD : JsDate} :
  announces_nothing initializeDB.
Proof.
  unfold initializeDB.
  repeat (apply announces_nothing_bind; [|intro]); auto with console.
Qed.

Lemma upgradeToVersion2_announces_nothing {JD : JsDate} :
  announces_nothing upgradeToVersion2.
Proof.
  unfold upgradeToVersion2.
  repeat (apply announces_nothing_bind; [|intro]);
    try (apply announces_nothing_try);
    try (match goal with
         | |- announces_nothing (if ?b then _ else _) => destruct b
         end); auto with console;
    apply announces_nothing_log; reflexivity.
Qed.

(** *** The first step *)

(** With new identifiers the first step returns: the three seed rows are
    appended to [todos], created if missing, and nothing else changes but
    the journal mode. *)
Lemma initializeDB_returns {JD : JsDate} (w : World) :
  fresh3 w ->
  exists w' t,
    initializeDB w = Returned tt w' /\
    todos (db w') = Some t /\
    rows t = tasks (db w) ++
             seed_rows (uuids w (drawn w)) (uuids w (S (drawn w)))
               (uuids w (S (S (drawn w)))) /\
    todo_lists (db w') = todo_lists (db w) /\
    user_version (db w') = user_version (db w).
Proof.
  destruct w as [[v j t l] c u n clk]. unfold fresh3, tasks. simpl.
  intro Hnd.
  inversion Hnd as [|? ? H1 Hnd1]; subst.
  inversion Hnd1 as [|? ? H2 Hnd2]; subst.
  inversion Hnd2 as [|? ? H3 _]; subst.
  unfold initializeDB. run.
  unfold Sql.insert_todo4, Sql.create_todos, todo_ids; simpl.
  destruct t as [[hl hn hd rs]|]; simpl in *.
  - rewrite (mem_string_notin (u n) (map TodoRow.id rs)); simpl.
    2:{ intro Hin. apply H1. right. right. exact Hin. }
    rewrite (mem_string_notin (u (S n))); simpl.
    2:{ rewrite map_app. intro Hin. apply in_app_or in Hin.
        destruct Hin as [Hin|[E|[]]];
          [apply H2; right; exact Hin | apply H1; left; now symmetry]. }
    rewrite (mem_string_notin (u (S (S n)))); simpl.
    2:{ rewrite !map_app. intro Hin. apply in_app_or in Hin.
        destruct Hin as [Hin|[E|[]]].
        - apply in_app_or in Hin. destruct Hin as [Hin|[E|[]]];
            [apply H3; exact Hin | apply H1; right; left; now symmetry].
        - apply H2. left. now symmetry. }
    eexists. eexists. split; [reflexivity|]. simpl.
    rewrite <- !app_assoc. simpl. auto.
  - rewrite (mem_string_notin (u (S n))); simpl.
    2:{ intros [E|[]]. apply H1. left. now symmetry. }
    rewrite (mem_string_notin (u (S (S n)))); simpl.
    2:{ intros [E|[E|[]]];
          [apply H1; right; left; now symmetry | apply H2; left; now symmetry]. }
    eexists. eexists. split; [reflexivity|]. simpl. auto.
Qed.

(** *** [migrateDB], by starting version *)

Lemma console_after {JD : JsDate} {A : Type} (m : Async A) (w w' : World)
  (a : A) :
  announces_nothing m -> m w = Returned a w' ->
  exists lines, console w' = console w ++ lines /\ steps_announced lines = [].
Proof.
  intros H E. destruct (H w) as [lines Hl]. rewrite E in Hl. now exists lines.
Qed.

Lemma console_after_throw {JD : JsDate} {A : Type} (m : Async A)
  (w w' : World) :
  announces_nothing m -> m w = Thrown w' ->
  exists lines, console w' = console w ++ lines /\ steps_announced lines = [].
Proof.
  intros H E. destruct (H w) as [lines Hl]. rewrite E in Hl. now exists lines.
Qed.

(** At the target version [migrateDB] returns at once. *)
Lemma migrateDB_at_target {JD : JsDate} (w : World) :
  user_version (db w) = DATABASE_VERSION -> migrateDB w = Returned tt w.
Proof.
  destruct w as [[v j t l] c u n clk]. simpl. intros ->. reflexivity.
Qed.

(** From version 0, with new identifiers, both steps run and the marker is
    set. *)
Lemma migrateDB_from_0 {JD : JsDate} (w : World) :
  user_version (db w) = 0 -> fresh3 w ->
  exists w' lines,
    migrateDB w = Returned tt w' /\
    user_version (db w') = 2 /\
    schema_v2 (db w') = true /\
    console w' = console w ++ lines /\
    steps_announced lines = [0; 1].
Proof.
  destruct w as [[v j t l] c u n clk]. simpl. intros -> Hf.
  unfold migrateDB. run.
  match goal with
  | |- context [initializeDB ?W] =>
      destruct (initializeDB_returns W Hf) as [w1 [t1 [E1 [Ht1 [_ [_ Hv1]]]]]];
      destruct (console_after _ _ _ _ initializeDB_announces_nothing E1)
        as [l1 [C1 S1]];
      rewrite E1
  end.
  destruct w1 as [d1 c1 u1 n1 clk1]. simpl in *.
  match goal with
  | |- context [upgradeToVersion2 ?W] =>
      destruct (upgradeToVersion2_returns W t1 Ht1)
        as [w2 [E2 [Hv2 [Hs2 _]]]];
      destruct (console_after _ _ _ _ upgradeToVersion2_announces_nothing E2)
        as [l2 [C2 S2]];
      rewrite E2
  end.
  destruct w2 as [[v2 j2 t2 ls2] c2 u2 n2 clk2]. simpl in *.
  eexists. eexists. split; [reflexivity|]. simpl.
  split; [reflexivity|]. split; [exact Hs2|].
  split.
  - rewrite C2, C1. rewrite <- !app_assoc. reflexivity.
  - repeat (rewrite ?steps_announced_app, ?S1, ?S2; simpl). reflexivity.
Qed.

(** From version 1 with table [todos] in place, the second step runs and
    the marker is set. *)
Lemma migrateDB_from_1 {JD : JsDate} (w : World) (t : TodosTable) :
  user_version (db w) = 1 -> todos (db w) = Some t ->
  exists w' lines,
    migrateDB w = Returned tt w' /\
    user_version (db w') = 2 /\
    schema_v2 (db w') = true /\
    console w' = console w ++ lines /\
    steps_announced lines = [1].
Proof.
  destruct w as [[v j t0 l] c u n clk]. simpl. intros -> ->.
  unfold migrateDB. run.
  match goal with
  | |- context [upgradeToVersion2 ?W] =>
      destruct (upgradeToVersion2_returns W t eq_refl)
        as [w2 [E2 [Hv2 [Hs2 _]]]];
      destruct (console_after _ _ _ _ upgradeToVersion2_announces_nothing E2)
        as [l2 [C2 S2]];
      rewrite E2
  end.
  destruct w2 as [[v2 j2 t2 ls2] c2 u2 n2 clk2]. simpl in *.
  eexists. eexists. split; [reflexivity|]. simpl.
  split; [reflexivity|]. split; [exact Hs2|].
  split.
  - rewrite C2. rewrite <- !app_assoc. reflexivity.
  - repeat (rewrite ?steps_announced_app, ?S2; simpl). reflexivity.
Qed.

(** From version 1 without table [todos], the second step throws on its
    backfill and the marker stays at 1. *)
Lemma migrateDB_from_1_no_todos {JD : JsDate} (w : World) :
  user_version (db w) = 1 -> todos (db w) = None ->
  exists w' lines,
    migrateDB w = Thrown w' /\
    user_version (db w') = 1 /\
    journal_wal (db w') = journal_wal (db w) /\
    todos (db w') = None /\
    todo_lists (db w') =
      Some (if mem_string "default-list" (map TodoList.id (lists (db w)))
            then lists (db w)
            else lists (db w) ++ [default_list]) /\
    console w' = console w ++ lines /\
    steps_announced lines = [1].
Proof.
  destruct w as [[v j t0 l] c u n clk]. simpl. intros -> ->.
  unfold migrateDB. run.
  match goal with
  | |- context [upgradeToVersion2 ?W] =>
      destruct (upgradeToVersion2_no_todos W eq_refl)
        as [w2 [E2 [Hv2 [Hj2 [Ht2 Hl2]]]]];
      destruct (console_after_throw _ _ _ upgradeToVersion2_announces_nothing
                  E2) as [l2 [C2 S2]];
      rewrite E2
  end.
  simpl in *.
  eexists. eexists. split; [reflexivity|].
  repeat split; try assumption.
  - rewrite C2. rewrite <- !app_assoc. reflexivity.
  - repeat (rewrite ?steps_announced_app, ?S2; simpl). reflexivity.
Qed.

(** From any other version no step runs and the marker is overwritten. *)
Lemma migrateDB_other {JD : JsDate} (w : World) :
  user_version (db w) <> 0 -> user_version (db w) <> 1 ->
  user_version (db w) <> 2 ->
  migrateDB w =
    Returned tt (set_db (mkDB 2 (journal_wal (db w)) (todos (db w))
                           (todo_lists (db w))) w).
Proof.
  destruct w as [[v j t0 l] c u n clk]. simpl. intros H0 H1 H2.
  unfold migrateDB. run. unfold DATABASE_VERSION.
  destruct (Z.eqb_spec v 2); [contradiction|].
  destruct (Z.eqb_spec v 0); [contradiction|]. simpl.
  destruct (Z.eqb_spec v 1); [contradiction|]. reflexivity.
Qed.

(** *** The first launch *)

(** The run of [migrateDB] on a store at version 0 that holds no row. *)
Lemma migrateDB_fresh_run {JD : JsDate} (w : World) :
  user_version (db w) = 0 ->
  tasks (db w) = [] ->
  lists (db w) = [] ->
  NoDup [uuids w (drawn w); uuids w (S (drawn w)); uuids w (S (S (drawn w)))] ->
  exists w',
    migrateDB w = Returned tt w' /\
    db w' =
      mkDB 2 true
        (Some (mkTodos true true true
                 (map (TodoRow.set_listId (Some "default-list"))
                    (seed_rows (uuids w (drawn w)) (uuids w (S (drawn w)))
                       (uuids w (S (S (drawn w))))))))
        (Some [default_list]).
Proof.
  destruct w as [[v j t l] c u n clk]; unfold tasks, lists; simpl.
  intros -> Ht Hl Hnd.
  inversion Hnd as [|? ? H1 Hnd']; subst.
  inversion Hnd' as [|? ? H2 _]; subst.
  assert (E21 : (u (S n) =? u n)%string = false).
  { apply String.eqb_neq. intro E. apply H1. left. now symmetry. }
  assert (E31 : (u (S (S n)) =? u n)%string = false).
  { apply String.eqb_neq. intro E. apply H1. right. left. now symmetry. }
  assert (E32 : (u (S (S n)) =? u (S n))%string = false).
  { apply String.eqb_neq. intro E. apply H2. left. now symmetry. }
  unfold migrateDB, initializeDB, upgradeToVersion2. run.
  unfold Sql.insert_todo4, Sql.create_todos, todo_ids, mem_string; simpl.
  destruct t as [[hl hn hd rs]|]; simpl in *; subst;
    destruct l as [l|]; simpl in *; subst; simpl;
      rewrite E21; simpl; rewrite E31, E32; simpl;
        try (destruct hl, hn, hd; simpl);
        (eexists; split; reflexivity).
Qed.

(** X27. Running [migrateDB] on a store at version 0 that holds no task and
    no list yet returns, and leaves exactly the three seeded task rows,
    every one with [listId] ['default-list'], exactly one list row, with id
    ['default-list'] and name ['Todas as Tarefas'], and the persisted
    version 2.  The three identifiers drawn are taken to be distinct. *)
Theorem migrateDB_fresh {JD : JsDate} (w : World) :
  user_version (db w) = 0 ->
  tasks (db w) = [] ->
  lists (db w) = [] ->
  NoDup [uuids w (drawn w); uuids w (S (drawn w)); uuids w (S (S (drawn w)))] ->
  exists w',
    migrateDB w = Returned tt w' /\
    tasks (db w') =
      map (TodoRow.set_listId (Some "default-list"))
        (seed_rows (uuids w (drawn w)) (uuids w (S (drawn w)))
           (uuids w (S (S (drawn w))))) /\
    length (tasks (db w')) = 3%nat /\
    Forall (fun r => TodoRow.listId r = Some "default-list") (tasks (db w')) /\
    lists (db w') = [TodoList.mk "default-list" "Todas as Tarefas"] /\
    user_version (db w') = 2.
Proof.
  intros Hv Ht Hl Hnd.
  destruct (migrateDB_fresh_run w Hv Ht Hl Hnd) as [w' [E D]].
  exists w'. split; [exact E|]. rewrite D. unfold tasks, lists. simpl.
  repeat split; repeat constructor.
Qed.

Lemma migrateDB_fresh_witness :
  exists w',
    migrateDB fresh_world = Returned tt w' /\
    tasks (db w') =
      map (TodoRow.set_listId (Some "default-list"))
        (seed_rows "id-0" "id-1" "id-2") /\
    length (tasks (db w')) = 3%nat /\
    Forall (fun r => TodoRow.listId r = Some "default-list") (tasks (db w')) /\
    lists (db w') = [TodoList.mk "default-list" "Todas as Tarefas"] /\
    user_version (db w') = 2.
Proof.
  apply (migrateDB_fresh fresh_world); try reflexivity.
  vm_compute. repeat constructor; simpl; intuition discriminate.
Defined.

(** C1 does not hold of the code on every store at version 0.  The marker
    is persisted only after both steps, so a run that stops after
    [initializeDB] leaves the marker at 0 over the seed rows.  On such a
    store, here with the three seed rows of the earlier run, [migrateDB]
    returns with six task rows: [initializeDB] creates the table only if it
    is missing, but inserts its three seeds again, under new identifiers.
    The list row and the persisted version are as C1 says. *)
Theorem migrateDB_stale_marker_seeds_twice :
  user_version (db world_with_stale_marker) = 0 /\
  map TodoRow.text (tasks (db world_with_stale_marker)) =
    ["Sample Todo from DB"; "Sample Todo 2 from DB"; "Sample Todo 3 from DB"] /\
  exists w',
    migrateDB world_with_stale_marker = Returned tt w' /\
    user_version (db w') = 2 /\
    length (tasks (db w')) = 6%nat /\
    map TodoRow.text (tasks (db w')) =
      ["Sample Todo from DB"; "Sample Todo 2 from DB"; "Sample Todo 3 from DB";
       "Sample Todo from DB"; "Sample Todo 2 from DB"; "Sample Todo 3 from DB"] /\
    Forall (fun r => TodoRow.listId r = Some "default-list") (tasks (db w')) /\
    lists (db w') = [TodoList.mk "default-list" "Todas as Tarefas"].
Proof.
  split; [reflexivity|]. split; [vm_compute; reflexivity|].
  eexists. split; [vm_compute; reflexivity|].
  split; [reflexivity|]. split; [reflexivity|]. split; [reflexivity|].
  split; [|reflexivity].
  vm_compute. repeat constructor.
Qed.

(** *** Running twice, and the path of the version marker *)

Lemma DB_eq (d d' : DB) :
  user_version d = user_version d' -> journal_wal d = journal_wal d' ->
  todos d = todos d' -> todo_lists d = todo_lists d' -> d = d'.
Proof. destruct d, d'; simpl; intros; subst; reflexivity. Qed.

(** C2. Running [migrateDB] a second time, directly after a first run,
    leaves the store (version marker, journal mode, both tables) as the
    first run left it, and ends as the first run ended; at the target
    version [migrateDB] returns without touching anything.  The identifiers
    drawn by a run from version 0 are taken to be new. *)
Theorem migrateDB_idempotent {JD : JsDate} (w : World) :
  (user_version (db w) = 0 -> fresh3 w) ->
  db (world_of (migrateDB (world_of (migrateDB w)))) =
    db (world_of (migrateDB w)) /\
  value_of (migrateDB (world_of (migrateDB w))) = value_of (migrateDB w) /\
  (user_version (db w) = DATABASE_VERSION -> migrateDB w = Returned tt w).
Proof.
  intro Hf. split; [|split]; [| |apply migrateDB_at_target].
  all: destruct (Z.eq_dec (user_version (db w)) 2) as [E2|N2];
    [rewrite (migrateDB_at_target w E2); simpl;
     rewrite (migrateDB_at_target w E2); reflexivity|].
  all: destruct (Z.eq_dec (user_version (db w)) 0) as [E0|N0];
    [destruct (migrateDB_from_0 w E0 (Hf E0)) as [w' [ls [E [Hv _]]]];
     rewrite E; simpl; rewrite (migrateDB_at_target w' Hv); reflexivity|].
  all: destruct (Z.eq_dec (user_version (db w)) 1) as [E1|N1];
    [|rewrite (migrateDB_other w N0 N1 N2); simpl; reflexivity].
  all: destruct (todos (db w)) as [t|] eqn:Et;
    [destruct (migrateDB_from_1 w t E1 Et) as [w' [ls [E [Hv _]]]];
     rewrite E; simpl; rewrite (migrateDB_at_target w' Hv); reflexivity|].
  all: destruct (migrateDB_from_1_no_todos w E1 Et)
    as [w' [ls [E [Hv [Hj [Ht [Hl _]]]]]]];
    rewrite E; simpl;
    destruct (migrateDB_from_1_no_todos w' Hv Ht)
      as [w'' [ls' [E' [Hv' [Hj' [Ht' [Hl' _]]]]]]];
    rewrite E'; simpl.
  2: reflexivity.
  apply DB_eq; try congruence.
  rewrite Hl'. unfold lists at 1 2 3. rewrite Hl.
  destruct (mem_string "default-list" (map TodoList.id (lists (db w)))) eqn:M.
  - rewrite M. reflexivity.
  - rewrite (proj2 (mem_string_In _ _)); [reflexivity|].
    rewrite map_app. apply in_or_app. right. now left.
Qed.

Lemma migrateDB_idempotent_witness :
  db (world_of (migrateDB (world_of (migrateDB fresh_world)))) =
    db (world_of (migrateDB fresh_world)) /\
  value_of (migrateDB (world_of (migrateDB fresh_world))) =
    value_of (migrateDB fresh_world) /\
  (user_version (db fresh_world) = DATABASE_VERSION ->
   migrateDB fresh_world = Returned tt fresh_world).
Proof.
  apply (migrateDB_idempotent fresh_world).
  intros _. vm_compute. repeat constructor; simpl; intuition discriminate.
Defined.


(** *** The world after a first launch *)

Lemma migrated_world_tasks :
  tasks (db migrated_world) = [seeded_task_1; seeded_task_2; seeded_task_3].
Proof. vm_compute. reflexivity. Qed.

Lemma migrated_world_ok : store_ok (db migrated_world).
Proof.
  unfold store_ok. rewrite migrated_world_tasks.
  split; [vm_compute; reflexivity|]. split.
  - simpl. repeat constructor; simpl; intuition discriminate.
  - repeat constructor; discriminate.
Defined.

(** ** Properties of the data access layer *)

(** *** Keys that match no task *)

Lemma schema_v2_shape (d : DB) :
  schema_v2 d = true ->
  exists rs l,
    d = mkDB (user_version d) (journal_wal d)
          (Some (mkTodos true true true rs)) (Some l).
Proof.
  destruct d as [v j [[hl hn hd rs]|] [l|]]; unfold schema_v2, all_columns;
    simpl; try discriminate.
  destruct hl, hn, hd; try discriminate. intros _. now exists rs, l.
Qed.

Lemma filter_id_absent (i : string) (rs : list TodoRow.t) :
  ~ In i (map TodoRow.id rs) ->
  filter (fun r => (TodoRow.id r =? i)%string) rs = [].
Proof.
  induction rs as [|r rs IH]; simpl; [reflexivity|]. intro H.
  destruct (String.eqb_spec (TodoRow.id r) i) as [E|_].
  - exfalso. apply H. now left.
  - apply IH. intro Hin. apply H. now right.
Qed.

Lemma replace_task_absent (i : string) (f : TodoRow.t -> TodoRow.t)
  (rs : list TodoRow.t) :
  ~ In i (map TodoRow.id rs) -> replace_task i f rs = rs.
Proof.
  unfold replace_task.
  induction rs as [|r rs IH]; simpl; [reflexivity|]. intro H.
  destruct (String.eqb_spec (TodoRow.id r) i) as [E|_].
  - exfalso. apply H. now left.
  - f_equal. apply IH. intro Hin. apply H. now right.
Qed.

Lemma filter_id_unique (r : TodoRow.t) (rs : list TodoRow.t) :
  NoDup (map TodoRow.id rs) -> In r rs ->
  filter (fun q => (TodoRow.id q =? TodoRow.id r)%string) rs = [r].
Proof.
  induction rs as [|q rs IH]; simpl; [contradiction|].
  intros Hnd [E|Hin]; inversion Hnd as [|? ? Hq Hnd']; subst.
  - rewrite String.eqb_refl. f_equal. now apply filter_id_absent.
  - destruct (String.eqb_spec (TodoRow.id q) (TodoRow.id r)) as [E|_].
    + exfalso. apply Hq. rewrite E. now apply in_map.
    + now apply IH.
Qed.

Lemma replace_task_id (i : string) (rs : list TodoRow.t) :
  replace_task i (fun r => r) rs = rs.
Proof.
  unfold replace_task. induction rs as [|r rs IH]; simpl; [reflexivity|].
  rewrite IH. now destruct (TodoRow.id r =? i)%string.
Qed.

Lemma replace_task_ext (i : string) (f g : TodoRow.t -> TodoRow.t)
  (rs : list TodoRow.t) :
  (forall r, In r rs -> TodoRow.id r = i -> f r = g r) ->
  replace_task i f rs = replace_task i g rs.
Proof.
  intro H. unfold replace_task. apply map_ext_in. intros r Hr.
  destruct (String.eqb_spec (TodoRow.id r) i) as [E|_]; [now apply H|reflexivity].
Qed.

Lemma replace_task_twice (i : string) (f g : TodoRow.t -> TodoRow.t)
  (rs : list TodoRow.t) :
  (forall r, TodoRow.id (f r) = TodoRow.id r) ->
  replace_task i g (replace_task i f rs) = replace_task i (fun r => g (f r)) rs.
Proof.
  intro Hf. unfold replace_task. rewrite map_map. apply map_ext. intro r.
  destruct (String.eqb_spec (TodoRow.id r) i) as [E|N].
  - rewrite Hf, E, String.eqb_refl. reflexivity.
  - destruct (String.eqb_spec (TodoRow.id r) i); [contradiction|reflexivity].
Qed.

Lemma replace_task_ids (i : string) (f : TodoRow.t -> TodoRow.t)
  (rs : list TodoRow.t) :
  (forall r, TodoRow.id (f r) = TodoRow.id r) ->
  map TodoRow.id (replace_task i f rs) = map TodoRow.id rs.
Proof.
  intro Hf. unfold replace_task. rewrite map_map. apply map_ext. intro r.
  destruct (TodoRow.id r =? i)%string; [apply Hf|reflexivity].
Qed.

(** C6. On a store with the schema of version 2, for an id that is the key of
    no task, [updateTodoStatus] and [updateTodo] return [null] and do not
    throw, and the world, the store in it, is as before. *)
Theorem update_absent_id {JD : JsDate} (w : World) (i : string) (dn : bool)
  (u : Updates) :
  schema_v2 (db w) = true ->
  ~ In i (map TodoRow.id (tasks (db w))) ->
  updateTodoStatus i dn w = Returned None w /\
  updateTodo i u w = Returned None w.
Proof.
  intros Hs Hi. destruct (schema_v2_shape _ Hs) as [rs [l E]].
  destruct w as [d c us n clk]. simpl in *. rewrite E in *.
  unfold tasks in Hi. simpl in Hi.
  unfold updateTodoStatus, updateTodo. run.
  unfold Sql.update_done, Sql.update_where_id, Sql.select_todo_by_id. simpl.
  rewrite (filter_id_absent i rs Hi). simpl.
  fold (replace_task i (TodoRow.set_done (if dn then 1 else 0)) rs).
  rewrite (replace_task_absent i _ rs Hi). split; reflexivity.
Qed.

Lemma update_absent_id_witness :
  updateTodoStatus "no-such-id" true migrated_world
    = Returned None migrated_world /\
  updateTodo "no-such-id" (mkUpdates (Some "x") None None None) migrated_world
    = Returned None migrated_world.
Proof.
  apply (update_absent_id migrated_world).
  - vm_compute. reflexivity.
  - rewrite migrated_world_tasks. vm_compute. intuition discriminate.
Defined.

(** *** Updating a task *)

Lemma set_tasks_same (d : DB) : set_tasks (tasks d) d = d.
Proof.
  destruct d as [v j [[hl hn hd rs]|] l]; reflexivity.
Qed.

Lemma unique_by_id (q r : TodoRow.t) (rs : list TodoRow.t) :
  NoDup (map TodoRow.id rs) -> In q rs -> In r rs ->
  TodoRow.id q = TodoRow.id r -> q = r.
Proof.
  intros Hnd Hq Hr E.
  pose proof (filter_id_unique r rs Hnd Hr) as F.
  assert (Hin : In q (filter (fun x => (TodoRow.id x =? TodoRow.id r)%string) rs)).
  { apply filter_In. split; [assumption|]. rewrite E. apply String.eqb_refl. }
  rewrite F in Hin. destruct Hin as [<-|[]]. reflexivity.
Qed.

(** An [UPDATE .. WHERE id = ? RETURNING ..] on the key of an existing task
    returns the new row and rewrites that row only. *)
Lemma update_existing {JD : JsDate} (w : World) (r : TodoRow.t)
  (f : TodoRow.t -> TodoRow.t) :
  schema_v2 (db w) = true ->
  NoDup (map TodoRow.id (tasks (db w))) ->
  In r (tasks (db w)) ->
  getFirstAsync (Sql.update_where_id f (TodoRow.id r)) w =
    Returned (Some (f r))
      (set_db (set_tasks (replace_task (TodoRow.id r) f (tasks (db w))) (db w))
         w).
Proof.
  intros Hs Hnd Hin. destruct (schema_v2_shape _ Hs) as [rs [l E]].
  destruct w as [d c us n clk]. simpl in *. rewrite E in *.
  unfold tasks in *. simpl in *.
  unfold getFirstAsync, Sql.update_where_id. simpl.
  rewrite (filter_id_unique r rs Hnd Hin). reflexivity.
Qed.

Lemma select_existing {JD : JsDate} (w : World) (r : TodoRow.t) :
  schema_v2 (db w) = true ->
  NoDup (map TodoRow.id (tasks (db w))) ->
  In r (tasks (db w)) ->
  getFirstAsync (Sql.select_todo_by_id (TodoRow.id r)) w = Returned (Some r) w.
Proof.
  intros Hs Hnd Hin. destruct (schema_v2_shape _ Hs) as [rs [l E]].
  destruct w as [d c us n clk]. simpl in *. rewrite E in *.
  unfold tasks in *. simpl in *.
  unfold getFirstAsync, Sql.select_todo_by_id. simpl.
  rewrite (filter_id_unique r rs Hnd Hin). reflexivity.
Qed.

Lemma or_null_id (x : option string) : null_or_nonempty x -> or_null x = x.
Proof.
  unfold null_or_nonempty, or_null. destruct x as [s|]; [|reflexivity].
  intro H. destruct (String.eqb_spec s ""); [subst; contradiction|reflexivity].
Qed.

Lemma truthy_keep (x : option string) :
  null_or_nonempty x -> (if truthy x then x else None) = x.
Proof.
  unfold null_or_nonempty, truthy. destruct x as [s|]; [|reflexivity].
  intro H. destruct (String.eqb_spec s ""); [subst; contradiction|reflexivity].
Qed.

(** C4. For every task [r] of a store the layer works on and every update
    argument, [updateTodo] returns the merged row [r'] as the record [item]
    and writes it in the place of [r], every other row left as it is.  The
    persisted row [r'] has the [id], [done] and [createdAt] of [r], and each
    of [text], [notes], [dueDate], [listId] that the update omits keeps its
    persisted value; with only a new text [x] in the update, [r'] is [r]
    with its text set to [x].  The returned record says the same: its [id]
    and [done] are those of [r], its [createdAt] is the date of the
    [createdAt] of [r], its [text] is the new text when one is given, and
    each of [text], [notes], [dueDate] (as a date) and [listId] that the
    update omits is that of [r]. *)
Theorem updateTodo_keeps_omitted {JD : JsDate} (w : World) (r : TodoRow.t)
  (u : Updates) :
  store_ok (db w) ->
  In r (tasks (db w)) ->
  exists r' item,
    updateTodo (TodoRow.id r) u w =
      Returned (Some item)
        (set_db (set_tasks
                   (replace_task (TodoRow.id r) (fun _ => r') (tasks (db w)))
                   (db w)) w) /\
    item = toTodoItem r' /\
    TodoRow.id r' = TodoRow.id r /\
    TodoRow.createdAt r' = TodoRow.createdAt r /\
    TodoRow.done r' = TodoRow.done r /\
    (upd_text u = None -> TodoRow.text r' = TodoRow.text r) /\
    (upd_notes u = None -> TodoRow.notes r' = TodoRow.notes r) /\
    (upd_dueDate u = None -> TodoRow.dueDate r' = TodoRow.dueDate r) /\
    (upd_listId u = None -> TodoRow.listId r' = TodoRow.listId r) /\
    (forall x, u = mkUpdates (Some x) None None None ->
               r' = TodoRow.set_text x r) /\
    item_id item = TodoRow.id r /\
    item_createdAt item = newDate (TodoRow.createdAt r) /\
    item_done item = TodoRow.done r /\
    (forall x, upd_text u = Some x ->
               TodoRow.text r' = x /\ item_text item = x) /\
    (upd_text u = None -> item_text item = TodoRow.text r) /\
    (upd_notes u = None -> item_notes item = TodoRow.notes r) /\
    (upd_dueDate u = None ->
     item_dueDate item = option_map newDate (TodoRow.dueDate r)) /\
    (upd_listId u = None -> item_listId item = TodoRow.listId r).
Proof.
  intros [Hs [Hnd Hok]] Hin.
  assert (Hr : row_ok r) by (rewrite Forall_forall in Hok; now apply Hok).
  destruct Hr as [Hn Hd].
  unfold updateTodo. unfold bind at 1.
  rewrite (select_existing w r Hs Hnd Hin).
  unfold Sql.update_fields, bind.
  rewrite (update_existing w r _ Hs Hnd Hin).
  eexists. eexists. split.
  - unfold ret. f_equal. f_equal. f_equal.
    apply replace_task_ext. intros q Hq E.
    now rewrite (unique_by_id q r _ Hnd Hq Hin E).
  - destruct r as [ri rx rd rc rl rn rdu]. destruct u as [ux un ud ul].
    simpl in *. repeat split.
    + intros ->. reflexivity.
    + intros ->. now apply or_null_id.
    + intros ->. now apply truthy_keep.
    + intros ->. reflexivity.
    + intros x E. injection E as -> -> -> ->. unfold TodoRow.set_text. simpl.
      rewrite (or_null_id _ Hn), (truthy_keep _ Hd). reflexivity.
    + now subst.
    + now subst.
    + intros ->. reflexivity.
    + intros ->. now apply or_null_id.
    + intros ->. rewrite (truthy_keep _ Hd).
      unfold null_or_nonempty, truthy in *.
      destruct rdu as [s|]; [|reflexivity].
      destruct (String.eqb_spec s ""); [subst; contradiction|reflexivity].
    + intros ->. reflexivity.
Qed.

Lemma updateTodo_keeps_omitted_witness :
  exists r' item w',
    updateTodo "id-3" (mkUpdates (Some "Pay the rent") None None None)
      world_with_dueDate = Returned (Some item) w' /\
    r' = TodoRow.set_text "Pay the rent" task_with_dueDate /\
    tasks (db w') = [seeded_task_1; seeded_task_2; seeded_task_3; r'] /\
    item_id item = "id-3" /\
    item_text item = "Pay the rent" /\
    item_createdAt item = 1700000000000%N /\
    item_notes item = None /\
    item_dueDate item = Some 86400%N /\
    item_listId item = Some "default-list".
Proof.
  destruct (updateTodo_keeps_omitted world_with_dueDate task_with_dueDate
              (mkUpdates (Some "Pay the rent") None None None))
    as (r' & item & E & _ & _ & _ & _ & _ & _ & _ & _ & Hr & Hi & Hc & _
        & Hx & _ & Hn & Hd & Hl).
  - unfold store_ok. split; [vm_compute; reflexivity|]. split.
    + vm_compute. repeat constructor; simpl; intuition discriminate.
    + vm_compute. repeat constructor; discriminate.
  - vm_compute. auto.
  - exists r', item. eexists. split; [exact E|].
    pose proof (Hr _ eq_refl) as Er.
    split; [exact Er|]. split; [rewrite Er; vm_compute; reflexivity|].
    split; [exact Hi|]. split; [apply (Hx _ eq_refl)|].
    split; [rewrite Hc; vm_compute; reflexivity|].
    split; [apply Hn; reflexivity|].
    split; [rewrite Hd by reflexivity; vm_compute; reflexivity|].
    apply Hl. reflexivity.
Defined.

(** *** Creating a task *)

(** C5. On a store with the schema of version 2, [createTodo] returns
    whenever the identifier drawn is the key of no task, and never returns
    [null].  Whenever it returns, the task returned has [done] 0 (false),
    as [createdAt] the instant the clock shows, as [listId] the one given,
    or ['default-list'] when none is given, the text given, and as [id] the
    identifier just drawn from the generator, which is the key of no task
    of the store before the call; the row of that task, with the same
    values, is appended to [todos], and nothing else in the store
    changes. *)
Theorem createTodo_new_task {JD : JsDate} (w : World) (text : string)
  (listId notes : option string) (dueDate : option Date) :
  schema_v2 (db w) = true ->
  (~ In (uuids w (drawn w)) (map TodoRow.id (tasks (db w))) ->
   exists item w',
     createTodo text listId notes dueDate w = Returned (Some item) w') /\
  (forall o w',
     createTodo text listId notes dueDate w = Returned o w' ->
     exists item row,
       o = Some item /\
       item_done item = 0 /\
       item_createdAt item = clock w /\
       item_listId item = Some (match listId with
                                | Some l => l
                                | None => "default-list"
                                end) /\
       item_id item = uuids w (drawn w) /\
       ~ In (item_id item) (map TodoRow.id (tasks (db w))) /\
       drawn w' = S (drawn w) /\
       item_text item = text /\
       item = toTodoItem row /\
       TodoRow.id row = item_id item /\
       TodoRow.text row = text /\
       TodoRow.done row = 0 /\
       TodoRow.createdAt row = toISOString (clock w) /\
       TodoRow.listId row = item_listId item /\
       tasks (db w') = tasks (db w) ++ [row] /\
       db w' = set_tasks (tasks (db w) ++ [row]) (db w)).
Proof.
  intros Hs. destruct (schema_v2_shape _ Hs) as [rs [l E]].
  destruct w as [d c us n clk]. simpl in *. rewrite E in *.
  unfold tasks. simpl. split.
  - intro Hi. unfold createTodo. run.
    unfold Sql.insert_todo_returning, todo_ids. simpl.
    rewrite (mem_string_notin _ _ Hi). simpl.
    eexists. eexists. reflexivity.
  - intros o w'. unfold createTodo. run.
    unfold Sql.insert_todo_returning, todo_ids. simpl.
    destruct (mem_string (us n) (map TodoRow.id rs)) eqn:Hm; simpl;
      [discriminate|].
    intro R. injection R as <- <-.
    eexists. eexists. split; [reflexivity|]. simpl.
    rewrite newDate_toISOString.
    assert (Hi : ~ In (us n) (map TodoRow.id rs)).
    { intro Hin. apply mem_string_In in Hin. congruence. }
    destruct listId as [x|]; repeat split; assumption.
Qed.

Lemma createTodo_new_task_witness :
  exists item w',
    createTodo "Buy milk" (Some "work") None None migrated_world
      = Returned (Some item) w' /\
    item_done item = 0 /\
    item_createdAt item = clock migrated_world /\
    item_listId item = Some "work" /\
    item_id item = "id-3" /\
    ~ In (item_id item) ["id-0"; "id-1"; "id-2"] /\
    item_text item = "Buy milk" /\
    length (tasks (db w')) = 4%nat.
Proof.
  destruct (createTodo_new_task migrated_world "Buy milk" (Some "work") None
              None) as [R P].
  - vm_compute. reflexivity.
  - destruct R as [item [w' E]].
    { rewrite migrated_world_tasks. vm_compute. intuition discriminate. }
    destruct (P _ _ E)
      as (item' & row & Eo & Hd & Hc & Hl & Hi & Hn & _ & Ht & _ & _ & _ & _
          & _ & _ & T & _).
    injection Eo as <-.
    exists item, w'. split; [exact E|].
    rewrite migrated_world_tasks in Hn, T.
    repeat split; try assumption. rewrite T. reflexivity.
Defined.

(** *** The completion flag *)

Lemma schema_v2_set_tasks (rs : list TodoRow.t) (d : DB) :
  schema_v2 (set_tasks rs d) = schema_v2 d.
Proof.
  destruct d as [v j [[hl hn hd rs0]|] [l|]]; reflexivity.
Qed.

Lemma tasks_set_tasks (rs : list TodoRow.t) (d : DB) :
  schema_v2 d = true -> tasks (set_tasks rs d) = rs.
Proof.
  intro Hs. destruct (schema_v2_shape _ Hs) as [rs0 [l ->]]. reflexivity.
Qed.

Lemma set_tasks_twice (rs rs' : list TodoRow.t) (d : DB) :
  set_tasks rs' (set_tasks rs d) = set_tasks rs' d.
Proof.
  destruct d as [v j [[hl hn hd rs0]|] l]; reflexivity.
Qed.

Lemma In_replace_task (r : TodoRow.t) (f : TodoRow.t -> TodoRow.t)
  (rs : list TodoRow.t) :
  In r rs -> In (f r) (replace_task (TodoRow.id r) f rs).
Proof.
  intro H. unfold replace_task. apply in_map_iff. exists r.
  rewrite String.eqb_refl. now split.
Qed.

(** C7, as the code has it. For every task [r] of a store the layer works
    on, [updateTodoStatus] with [true] returns [r] with [done] set to 1 and
    writes it in the place of [r]; [updateTodoStatus] with [false], called
    next, returns [r] with [done] set to 0 and writes that; no other field
    and no other row changes.  So the pair of calls leaves the task not
    done, and brings the store back to what it was when the task was not
    done before. *)
Theorem updateTodoStatus_on_then_off {JD : JsDate} (w : World)
  (r : TodoRow.t) :
  store_ok (db w) ->
  In r (tasks (db w)) ->
  exists w1 w2,
    updateTodoStatus (TodoRow.id r) true w =
      Returned (Some (toTodoItem (TodoRow.set_done 1 r))) w1 /\
    db w1 = set_tasks (replace_task (TodoRow.id r) (TodoRow.set_done 1)
                         (tasks (db w))) (db w) /\
    updateTodoStatus (TodoRow.id r) false w1 =
      Returned (Some (toTodoItem (TodoRow.set_done 0 r))) w2 /\
    db w2 = set_tasks (replace_task (TodoRow.id r) (TodoRow.set_done 0)
                         (tasks (db w))) (db w) /\
    find_task (TodoRow.id r) (db w2) = Some (TodoRow.set_done 0 r) /\
    (TodoRow.done r = 0 -> db w2 = db w).
Proof.
  intros [Hs [Hnd Hok]] Hin.
  pose proof (update_existing w r (TodoRow.set_done 1) Hs Hnd Hin) as E1.
  set (w1 := set_db (set_tasks (replace_task (TodoRow.id r)
                                  (TodoRow.set_done 1) (tasks (db w))) (db w))
               w) in *.
  assert (D1 : db w1 = set_tasks (replace_task (TodoRow.id r)
                                    (TodoRow.set_done 1) (tasks (db w))) (db w))
    by (destruct w; reflexivity).
  assert (Hs1 : schema_v2 (db w1) = true)
    by (rewrite D1, schema_v2_set_tasks; exact Hs).
  assert (T1 : tasks (db w1) =
               replace_task (TodoRow.id r) (TodoRow.set_done 1) (tasks (db w)))
    by (rewrite D1; now apply tasks_set_tasks).
  assert (Hnd1 : NoDup (map TodoRow.id (tasks (db w1))))
    by (rewrite T1, replace_task_ids; [exact Hnd | reflexivity]).
  assert (Hin1 : In (TodoRow.set_done 1 r) (tasks (db w1)))
    by (rewrite T1; now apply In_replace_task).
  pose proof (update_existing w1 (TodoRow.set_done 1 r) (TodoRow.set_done 0)
                Hs1 Hnd1 Hin1) as E2.
  simpl in E2.
  set (w2 := set_db (set_tasks (replace_task (TodoRow.id r)
                                  (TodoRow.set_done 0) (tasks (db w1)))
                       (db w1)) w1) in *.
  assert (D2 : db w2 = set_tasks (replace_task (TodoRow.id r)
                                    (TodoRow.set_done 0) (tasks (db w))) (db w)).
  { transitivity (set_tasks (replace_task (TodoRow.id r) (TodoRow.set_done 0)
                               (tasks (db w1))) (db w1));
      [destruct w1; reflexivity|].
    rewrite T1, D1, set_tasks_twice.
    rewrite replace_task_twice by reflexivity. reflexivity. }
  exists w1, w2.
  split; [unfold updateTodoStatus, Sql.update_done, bind; cbv iota;
          rewrite E1; reflexivity|].
  split; [exact D1|].
  split; [unfold updateTodoStatus, Sql.update_done, bind; cbv iota;
          rewrite E2; reflexivity|].
  split; [exact D2|].
  split.
  - unfold find_task. rewrite D2, tasks_set_tasks by exact Hs.
    assert (F : forall rs,
               In r rs ->
               NoDup (map TodoRow.id rs) ->
               find (fun q => (TodoRow.id q =? TodoRow.id r)%string)
                 (replace_task (TodoRow.id r) (TodoRow.set_done 0) rs)
               = Some (TodoRow.set_done 0 r)).
    { induction rs as [|q rs IH]; simpl; [contradiction|].
      intros [->|Hq] Hn.
      - rewrite String.eqb_refl. simpl. rewrite String.eqb_refl. reflexivity.
      - inversion Hn as [|? ? Hq' Hn']; subst.
        destruct (String.eqb_spec (TodoRow.id q) (TodoRow.id r)) as [E|N].
        + exfalso. apply Hq'. rewrite E. now apply in_map.
        + destruct (String.eqb_spec (TodoRow.id q) (TodoRow.id r));
            [contradiction|]. now apply IH. }
    now apply F.
  - intro Hd. rewrite D2.
    rewrite (replace_task_ext _ _ (fun q => q)).
    + rewrite replace_task_id. apply set_tasks_same.
    + intros q Hq E. rewrite (unique_by_id q r _ Hnd Hq Hin E).
      destruct r; simpl in *; subst; reflexivity.
Qed.

Lemma updateTodoStatus_on_then_off_witness :
  exists w1 w2,
    updateTodoStatus "id-0" true migrated_world =
      Returned (Some (toTodoItem (TodoRow.set_done 1 seeded_task_1))) w1 /\
    updateTodoStatus "id-0" false w1 =
      Returned (Some (toTodoItem (TodoRow.set_done 0 seeded_task_1))) w2 /\
    db w2 = db migrated_world.
Proof.
  destruct (updateTodoStatus_on_then_off migrated_world seeded_task_1)
    as [w1 [w2 [E1 [_ [E2 [_ [_ H]]]]]]].
  - exact migrated_world_ok.
  - rewrite migrated_world_tasks. now left.
  - exists w1, w2. split; [exact E1|]. split; [exact E2|].
    apply H. reflexivity.
Defined.

(** C7 fails as stated. The second seeded task is done when the migration
    ends; after [updateTodoStatus] with [true] and then with [false] it is
    not done: its original [done] value is not restored. *)
Lemma updateTodoStatus_on_then_off_not_restoring :
  option_map TodoRow.done (find_task "id-1" (db migrated_world)) = Some 1 /\
  option_map TodoRow.done
    (find_task "id-1"
       (db (world_of
              (updateTodoStatus "id-1" false
                 (world_of (updateTodoStatus "id-1" true migrated_world))))))
  = Some 0.
Proof. split; vm_compute; reflexivity. Qed.

(** *** The order of names *)

Lemma string_compare_trans_le (s1 : string) :
  forall s2 s3,
    String.compare s1 s2 <> Gt -> String.compare s2 s3 <> Gt ->
    String.compare s1 s3 <> Gt.
Proof.
  induction s1 as [|c1 s1 IH]; intros [|c2 s2] [|c3 s3]; simpl;
    try congruence.
  unfold Ascii.compare.
  destruct (N.compare_spec (N_of_ascii c1) (N_of_ascii c2)) as [E12|L12|G12];
    destruct (N.compare_spec (N_of_ascii c2) (N_of_ascii c3)) as [E23|L23|G23];
    try congruence; intros H12 H23.
  - rewrite E12, E23, N.compare_refl. now apply (IH s2 s3).
  - rewrite E12. now rewrite (proj2 (N.compare_lt_iff _ _) L23).
  - rewrite <- E23. now rewrite (proj2 (N.compare_lt_iff _ _) L12).
  - rewrite (proj2 (N.compare_lt_iff _ _) (N.lt_trans _ _ _ L12 L23)).
    discriminate.
Qed.

Lemma leb_not_Gt (s1 s2 : string) :
  String.leb s1 s2 = true <-> String.compare s1 s2 <> Gt.
Proof.
  unfold String.leb. destruct (String.compare s1 s2); split; congruence.
Qed.

Lemma name_le_trans (a b c : TodoList.t) :
  name_le a b -> name_le b c -> name_le a c.
Proof.
  unfold name_le. rewrite !leb_not_Gt. apply string_compare_trans_le.
Qed.

Lemma name_le_total (a b : TodoList.t) : name_le a b \/ name_le b a.
Proof. apply String.leb_total. Qed.

Lemma insert_by_name_perm (x : TodoList.t) (l : list TodoList.t) :
  Permutation (x :: l) (insert_by_name x l).
Proof.
  induction l as [|y l IH]; simpl; [apply Permutation_refl|].
  destruct (String.leb (TodoList.name x) (TodoList.name y));
    [apply Permutation_refl|].
  eapply perm_trans; [apply perm_swap|]. now apply perm_skip.
Qed.

Lemma order_by_name_perm (l : list TodoList.t) :
  Permutation l (order_by_name l).
Proof.
  induction l as [|x l IH]; simpl; [apply perm_nil|].
  eapply perm_trans; [apply perm_skip, IH | apply insert_by_name_perm].
Qed.

Lemma insert_by_name_sorted (x : TodoList.t) (l : list TodoList.t) :
  Sorted name_le l -> Sorted name_le (insert_by_name x l).
Proof.
  induction l as [|y l IH]; simpl; intro H.
  - repeat constructor.
  - destruct (String.leb (TodoList.name x) (TodoList.name y)) eqn:E.
    + constructor; [assumption|]. constructor. exact E.
    + inversion H as [|? ? Hs Hh]; subst.
      constructor; [now apply IH|].
      assert (Hyx : name_le y x).
      { destruct (name_le_total x y) as [Hxy|Hyx]; [|assumption].
        unfold name_le in Hxy. congruence. }
      destruct l as [|z l]; simpl.
      * now constructor.
      * destruct (String.leb (TodoList.name x) (TodoList.name z));
          constructor; [assumption|]. now inversion Hh.
Qed.

Lemma order_by_name_sorted (l : list TodoList.t) :
  StronglySorted name_le (order_by_name l).
Proof.
  apply Sorted_StronglySorted.
  - intros a b c. apply name_le_trans.
  - induction l as [|x l IH]; simpl; [constructor|].
    now apply insert_by_name_sorted.
Qed.

(** C9. On a store with table [todo_lists], [getAllLists] returns all its
    rows, each as often as it is stored, in ascending order of [name]:
    every row comes before the rows whose name is greater in the
    lexicographic order of bytes, whatever the order of insertion. *)
Theorem getAllLists_sorted {JD : JsDate} (w : World) :
  todo_lists (db w) <> None ->
  exists ls,
    getAllLists w = Returned ls w /\
    Permutation (lists (db w)) ls /\
    StronglySorted name_le ls.
Proof.
  destruct w as [[v j t [l|]] c us n clk]; simpl; [intros _|congruence].
  exists (order_by_name l). split; [reflexivity|]. split.
  - apply order_by_name_perm.
  - apply order_by_name_sorted.
Qed.

Lemma getAllLists_sorted_witness :
  exists ls,
    getAllLists world_with_lists = Returned ls world_with_lists /\
    Permutation (lists (db world_with_lists)) ls /\
    StronglySorted name_le ls.
Proof.
  apply (getAllLists_sorted world_with_lists).
  vm_compute. discriminate.
Defined.

(** Lists created in the order "Work", "Apple", "Z" come back, with the
    sentinel list of the migration, in the order of their names. *)
Example getAllLists_work_apple_z :
  map TodoList.name (lists (db world_with_lists))
    = ["Todas as Tarefas"; "Work"; "Apple"; "Z"] /\
  option_map (map TodoList.name) (value_of (getAllLists world_with_lists))
    = Some ["Apple"; "Todas as Tarefas"; "Work"; "Z"].
Proof. split; vm_compute; reflexivity. Qed.

(** *** Reading tasks *)

Lemma filter_list_absent (l : string) (rs : list TodoRow.t) :
  (forall r, In r rs -> TodoRow.listId r <> Some l) ->
  filter (fun r => match TodoRow.listId r with
                   | Some x => (x =? l)%string
                   | None => false
                   end) rs = [].
Proof.
  intro H. induction rs as [|r rs' IH]; simpl; [reflexivity|].
  destruct (TodoRow.listId r) as [x|] eqn:Ex.
  - destruct (String.eqb_spec x l) as [->|_].
    + exfalso. apply (H r); [now left | assumption].
    + apply IH. intros q Hq. apply H. now right.
  - apply IH. intros q Hq. apply H. now right.
Qed.

(** C8, as the code has it. On a store with the schema of version 2:
    with a non-empty [listId], [getTodosByList] returns exactly the tasks
    whose [listId] equals it, in stored order; with no [listId], or with
    the empty string, it returns what [getAllTodos] returns, every task;
    with a non-empty [listId] that no task carries it returns the empty
    sequence, and so it does for one that is the id of no list when every
    task refers to a stored list.  It never throws. *)
Theorem getTodosByList_filters {JD : JsDate} (w : World) :
  schema_v2 (db w) = true ->
  getAllTodos w = Returned (map toTodoItem (tasks (db w))) w /\
  getTodosByList None w = getAllTodos w /\
  getTodosByList (Some "") w = getAllTodos w /\
  (forall l, l <> "" ->
     getTodosByList (Some l) w =
       Returned (map toTodoItem (tasks_of_list l (db w))) w) /\
  (forall l, l <> "" ->
     (forall r, In r (tasks (db w)) -> TodoRow.listId r <> Some l) ->
     getTodosByList (Some l) w = Returned [] w) /\
  (forall l, l <> "" ->
     ~ In l (map TodoList.id (lists (db w))) ->
     (forall r, In r (tasks (db w)) ->
        exists l', TodoRow.listId r = Some l' /\
                   In l' (map TodoList.id (lists (db w)))) ->
     getTodosByList (Some l) w = Returned [] w).
Proof.
  intro Hs. destruct (schema_v2_shape _ Hs) as [rs [ls E]].
  destruct w as [d c us n clk]. simpl in *. rewrite E in *. clear E.
  unfold tasks_of_list, tasks, lists. simpl.
  assert (Hby : forall l, l <> "" ->
            getTodosByList (Some l)
              (mkWorld (mkDB (user_version d) (journal_wal d)
                          (Some (mkTodos true true true rs)) (Some ls))
                 c us n clk) =
            Returned
              (map toTodoItem
                 (filter (fun r => match TodoRow.listId r with
                                   | Some x => (x =? l)%string
                                   | None => false
                                   end) rs))
              (mkWorld (mkDB (user_version d) (journal_wal d)
                          (Some (mkTodos true true true rs)) (Some ls))
                 c us n clk)).
  { intros l Hl. unfold getTodosByList. simpl.
    destruct (String.eqb_spec l ""); [contradiction|]. reflexivity. }
  split; [reflexivity|]. split; [reflexivity|]. split; [reflexivity|].
  split; [exact Hby|]. split.
  - intros l Hl H. rewrite (Hby l Hl), (filter_list_absent l rs H). reflexivity.
  - intros l Hl Hnl H. rewrite (Hby l Hl), (filter_list_absent l rs); [reflexivity|].
    intros r Hr Er. destruct (H r Hr) as [l' [El' Hin]].
    rewrite Er in El'. injection El' as <-. contradiction.
Qed.

Lemma getTodosByList_filters_witness :
  getTodosByList (Some "default-list") migrated_world =
    Returned (map toTodoItem (tasks_of_list "default-list" (db migrated_world)))
      migrated_world /\
  getTodosByList (Some "nonexistent-id") migrated_world =
    Returned [] migrated_world.
Proof.
  destruct (getTodosByList_filters migrated_world) as [_ [_ [_ [H [H0 _]]]]].
  - vm_compute. reflexivity.
  - split.
    + apply H. discriminate.
    + apply H0; [discriminate|].
      rewrite migrated_world_tasks. intros r [<-|[<-|[<-|[]]]]; discriminate.
Defined.

(** C8 fails as stated. The empty string is a [listId] that is given, and
    no task of the migrated store carries it, yet [getTodosByList] returns
    the three tasks of the store. *)
Lemma getTodosByList_empty_listId_returns_all :
  tasks_of_list "" (db migrated_world) = [] /\
  value_of (getTodosByList (Some "") migrated_world) =
    Some (map toTodoItem [seeded_task_1; seeded_task_2; seeded_task_3]).
Proof. split; vm_compute; reflexivity. Qed.

(** *** Notes are never stored empty *)

Lemma or_null_ok (x : option string) : null_or_nonempty (or_null x).
Proof.
  unfold null_or_nonempty, or_null. destruct x as [s|]; [|discriminate].
  destruct (String.eqb_spec s ""); [discriminate|]. congruence.
Qed.

Lemma or_null_empty : or_null (Some "") = None.
Proof. reflexivity. Qed.

Lemma notes_ok_replace (i : string) (f : TodoRow.t -> TodoRow.t)
  (rs : list TodoRow.t) :
  (forall r, null_or_nonempty (TodoRow.notes r) ->
             null_or_nonempty (TodoRow.notes (f r))) ->
  Forall (fun r => null_or_nonempty (TodoRow.notes r)) rs ->
  Forall (fun r => null_or_nonempty (TodoRow.notes r)) (replace_task i f rs).
Proof.
  intros Hf H. unfold replace_task. rewrite Forall_forall in *.
  intros r Hr. apply in_map_iff in Hr. destruct Hr as [q [<- Hq]].
  destruct (TodoRow.id q =? i)%string; [apply Hf|]; now apply H.
Qed.

Lemma createList_tasks {JD : JsDate} (name : string) (w : World) :
  tasks (db (world_of (createList name w))) = tasks (db w).
Proof.
  destruct w as [[v j t l] c us n clk]. unfold createList. run.
  unfold Sql.insert_list_returning, Sql.insert_list. simpl.
  destruct l as [l|]; simpl; [|reflexivity].
  destruct (mem_string _ _); reflexivity.
Qed.

Lemma createTodo_cases {JD : JsDate} (text : string)
  (listId notes : option string) (dueDate : option Date) (w : World) :
  (exists w', createTodo text listId notes dueDate w = Thrown w' /\
              db w' = db w) \/
  (exists row w',
     createTodo text listId notes dueDate w
       = Returned (Some (toTodoItem row)) w' /\
     TodoRow.notes row = or_null notes /\
     TodoRow.dueDate row = option_map toISOString dueDate /\
     TodoRow.id row = uuids w (drawn w) /\
     ~ In (TodoRow.id row) (map TodoRow.id (tasks (db w))) /\
     schema_v2 (db w) = schema_v2 (db w') /\
     tasks (db w') = tasks (db w) ++ [row] /\
     db w' = set_tasks (tasks (db w) ++ [row]) (db w)).
Proof.
  destruct w as [[v j t l] c us n clk]. unfold createTodo. run.
  unfold Sql.insert_todo_returning. simpl.
  destruct t as [[hl hn hd rs]|]; simpl;
    [|left; eexists; split; reflexivity].
  destruct (all_columns _) eqn:Ha; simpl;
    [|left; eexists; split; reflexivity].
  destruct (mem_string _ _) eqn:Hm; simpl;
    [left; eexists; split; reflexivity|].
  right. eexists. eexists. split; [reflexivity|]. simpl.
  repeat split.
  intro Hin. apply mem_string_In in Hin. unfold todo_ids in Hm. simpl in Hm.
  unfold tasks in Hin. simpl in Hin. congruence.
Qed.

Lemma updateTodoStatus_cases {JD : JsDate} (i : string) (dn : bool)
  (w : World) :
  (exists w', updateTodoStatus i dn w = Thrown w' /\ db w' = db w) \/
  (exists o w',
     updateTodoStatus i dn w = Returned o w' /\
     schema_v2 (db w) = schema_v2 (db w') /\
     tasks (db w') =
       replace_task i (TodoRow.set_done (if dn then 1 else 0)) (tasks (db w))).
Proof.
  destruct w as [[v j t l] c us n clk]. unfold updateTodoStatus. run.
  unfold Sql.update_done, Sql.update_where_id. simpl.
  destruct t as [[hl hn hd rs]|]; simpl;
    [|left; eexists; split; reflexivity].
  destruct (all_columns _) eqn:Ha; simpl;
    [|left; eexists; split; reflexivity].
  right.
  destruct (hd_error _); eexists; eexists; (split; [reflexivity|]);
    split; reflexivity.
Qed.

Lemma updateTodo_cases {JD : JsDate} (i : string) (u : Updates) (w : World) :
  (exists w', updateTodo i u w = Thrown w' /\ db w' = db w) \/
  (updateTodo i u w = Returned None w /\ find_task i (db w) = None) \/
  (exists r r' w',
     find_task i (db w) = Some r /\
     updateTodo i u w = Returned (Some (toTodoItem (r' r))) w' /\
     (forall q,
        r' q =
          TodoRow.mk (TodoRow.id q)
            (nullish (upd_text u) (TodoRow.text r))
            (TodoRow.done q) (TodoRow.createdAt q)
            (match upd_listId u with
             | Some x => Some x
             | None => TodoRow.listId r
             end)
            (or_null (match upd_notes u with
                      | Some x => Some x
                      | None => TodoRow.notes r
                      end))
            (match upd_dueDate u with
             | Some x => Some (toISOString x)
             | None => if truthy (TodoRow.dueDate r)
                       then TodoRow.dueDate r else None
             end)) /\
     schema_v2 (db w) = schema_v2 (db w') /\
     tasks (db w') = replace_task i r' (tasks (db w))).
Proof.
  destruct w as [[v j t l] c us n clk]. unfold updateTodo. run.
  unfold Sql.select_todo_by_id, find_task, tasks. simpl.
  destruct t as [[hl hn hd rs]|]; simpl;
    [|left; eexists; split; reflexivity].
  assert (Hfind : forall (p : TodoRow.t -> bool),
             hd_error (filter p rs) = find p rs).
  { intro p. induction rs as [|q rs IH]; simpl; [reflexivity|].
    destruct (p q); [reflexivity | exact IH]. }
  rewrite Hfind.
  destruct (find _ rs) as [r|] eqn:Ef; simpl.
  2:{ right. left. split; reflexivity. }
  unfold Sql.update_fields, Sql.update_where_id. simpl.
  destruct (all_columns _) eqn:Ha; simpl;
    [|left; eexists; split; reflexivity].
  right. right.
  assert (Hr : TodoRow.id r = i).
  { apply find_some in Ef. destruct Ef as [_ E].
    now apply String.eqb_eq in E. }
  assert (Hhd : exists rest,
             filter (fun q => (TodoRow.id q =? i)%string) rs = r :: rest).
  { clear -Ef. induction rs as [|q rs IH]; simpl in *; [discriminate|].
    destruct (TodoRow.id q =? i)%string.
    - injection Ef as ->. now eexists.
    - now apply IH. }
  destruct Hhd as [rest Hhd]. rewrite Hhd. simpl.
  exists r.
  exists (fun q =>
            TodoRow.set_listId
              (match upd_listId u with
               | Some x => Some x
               | None => TodoRow.listId r
               end)
              (TodoRow.set_dueDate
                 (match upd_dueDate u with
                  | Some x => Some (toISOString x)
                  | None => if truthy (TodoRow.dueDate r)
                            then TodoRow.dueDate r else None
                  end)
                 (TodoRow.set_notes
                    (or_null (match upd_notes u with
                              | Some x => Some x
                              | None => TodoRow.notes r
                              end))
                    (TodoRow.set_text (nullish (upd_text u) (TodoRow.text r))
                       q)))).
  eexists. split; [reflexivity|].
  split; [reflexivity|]. split; [|split; reflexivity].
  intro q. reflexivity.
Qed.

(** C10. No write of the layer stores an empty [notes].  When no task of the
    store has the empty string as its [notes], none has after any write
    operation, whether it returned or threw.  [createTodo] stores and
    returns as [notes] the value given, with NULL for the empty string;
    [updateTodo] stores and returns the notes of the update, or else the
    stored ones, again with NULL for the empty string. *)
Theorem notes_never_empty {JD : JsDate} (w : World) :
  notes_ok (db w) ->
  (forall c, notes_ok (db (after_write c w))) /\
  (forall text listId notes dueDate item w',
     createTodo text listId notes dueDate w = Returned (Some item) w' ->
     item_notes item = or_null notes /\
     (notes = Some "" -> item_notes item = None) /\
     exists row,
       tasks (db w') = tasks (db w) ++ [row] /\
       TodoRow.notes row = item_notes item) /\
  (forall i u item w',
     updateTodo i u w = Returned (Some item) w' ->
     exists r,
       find_task i (db w) = Some r /\
       item_notes item =
         or_null (match upd_notes u with
                  | Some x => Some x
                  | None => TodoRow.notes r
                  end) /\
       (upd_notes u = Some "" -> item_notes item = None) /\
       forall r', In r' (tasks (db w')) -> TodoRow.id r' = i ->
                  TodoRow.notes r' = item_notes item).
Proof.
  intro Hok. split; [|split].
  - intros [name|text listId notes dueDate|i dn|i u]; unfold after_write.
    + unfold notes_ok. now rewrite createList_tasks.
    + destruct (createTodo_cases text listId notes dueDate w)
        as [[w' [E D]]|[row [w' [E [Hn [_ [_ [_ [_ [T _]]]]]]]]]];
        rewrite E; simpl; unfold notes_ok.
      * now rewrite D.
      * rewrite T. apply Forall_app. split; [exact Hok|].
        constructor; [|constructor]. rewrite Hn. apply or_null_ok.
    + destruct (updateTodoStatus_cases i dn w)
        as [[w' [E D]]|[o [w' [E [_ T]]]]]; rewrite E; simpl; unfold notes_ok.
      * now rewrite D.
      * rewrite T. apply notes_ok_replace; [|exact Hok].
        intros r Hr. exact Hr.
    + destruct (updateTodo_cases i u w)
        as [[w' [E D]]|[[E _]|[r [r' [w' [_ [E [Hr' [_ T]]]]]]]]];
        rewrite E; simpl; unfold notes_ok.
      * now rewrite D.
      * exact Hok.
      * rewrite T. apply notes_ok_replace; [|exact Hok].
        intros q _. rewrite Hr'. simpl. apply or_null_ok.
  - intros text listId notes dueDate item w' E.
    destruct (createTodo_cases text listId notes dueDate w)
      as [[w1 [E1 _]]|[row [w1 [E1 [Hn [_ [_ [_ [_ [T _]]]]]]]]]];
      rewrite E1 in E; [discriminate|].
    injection E as <- <-. simpl. split; [exact Hn|]. split.
    + intros ->. rewrite Hn. reflexivity.
    + exists row. split; [exact T | reflexivity].
  - intros i u item w' E.
    destruct (updateTodo_cases i u w)
      as [[w1 [E1 _]]|[[E1 _]|[r [r' [w1 [F [E1 [Hr' [_ T]]]]]]]]];
      rewrite E1 in E; try discriminate.
    injection E as <- <-. exists r. split; [exact F|].
    rewrite (Hr' r). simpl. split; [reflexivity|]. split.
    + intros ->. reflexivity.
    + intros q Hq Hi. rewrite T in Hq. unfold replace_task in Hq.
      apply in_map_iff in Hq. destruct Hq as [q0 [<- Hq0]].
      destruct (String.eqb_spec (TodoRow.id q0) i) as [Ei|Ni].
      * rewrite Hr'. reflexivity.
      * contradiction.
Qed.

Lemma notes_never_empty_witness :
  notes_ok
    (db (after_write (CreateTodo "Buy milk" None (Some "") None)
           migrated_world)) /\
  notes_ok
    (db (after_write (UpdateTodo "id-0" (mkUpdates None (Some "") None None))
           migrated_world)).
Proof.
  assert (Hok : notes_ok (db migrated_world)).
  { unfold notes_ok. rewrite migrated_world_tasks.
    repeat constructor; discriminate. }
  split; apply (proj1 (notes_never_empty migrated_world Hok)).
Defined.

(** *** Stores the layer works on *)

(** A first launch leaves a store the layer works on. *)
Lemma migrateDB_fresh_store_ok {JD : JsDate} (w : World) :
  user_version (db w) = 0 ->
  tasks (db w) = [] ->
  lists (db w) = [] ->
  NoDup [uuids w (drawn w); uuids w (S (drawn w)); uuids w (S (S (drawn w)))] ->
  store_ok (db (world_of (migrateDB w))).
Proof.
  intros Hv Ht Hl Hnd.
  destruct (migrateDB_fresh_run w Hv Ht Hl Hnd) as [w' [E D]].
  rewrite E. simpl. rewrite D. unfold store_ok, tasks. simpl.
  split; [reflexivity|]. split; [exact Hnd|].
  repeat constructor; discriminate.
Qed.

Lemma createList_schema {JD : JsDate} (name : string) (w : World) :
  schema_v2 (db (world_of (createList name w))) = schema_v2 (db w).
Proof.
  destruct w as [[v j t l] c us n clk]. unfold createList. run.
  unfold Sql.insert_list_returning, Sql.insert_list. simpl.
  destruct l as [l|]; simpl; [|reflexivity].
  destruct (mem_string _ _); reflexivity.
Qed.

Lemma truthy_ok (x : option string) :
  null_or_nonempty (if truthy x then x else None).
Proof.
  unfold null_or_nonempty, truthy. destruct x as [s|]; [|discriminate].
  destruct (String.eqb_spec s ""); simpl; [discriminate|congruence].
Qed.

Lemma row_ok_replace (i : string) (f : TodoRow.t -> TodoRow.t)
  (rs : list TodoRow.t) :
  (forall r, row_ok r -> row_ok (f r)) ->
  Forall row_ok rs -> Forall row_ok (replace_task i f rs).
Proof.
  intros Hf H. unfold replace_task. rewrite Forall_forall in *.
  intros r Hr. apply in_map_iff in Hr. destruct Hr as [q [<- Hq]].
  destruct (TodoRow.id q =? i)%string; [apply Hf|]; now apply H.
Qed.

(** Every write of the layer, returning or throwing, leaves a store the
    layer works on. *)
Lemma store_ok_after_write {JD : JsDate} (c : dal_write) (w : World) :
  store_ok (db w) -> store_ok (db (after_write c w)).
Proof.
  intros [Hs [Hnd Hok]].
  destruct c as [name|text listId notes dueDate|i dn|i u]; unfold after_write.
  - unfold store_ok. rewrite createList_schema, createList_tasks. auto.
  - destruct (createTodo_cases text listId notes dueDate w)
      as [[w' [E D]]|[row [w' [E [Hn [Hd [_ [Hi [S [T _]]]]]]]]]];
      rewrite E; simpl; unfold store_ok.
    + rewrite D. auto.
    + rewrite <- S, T. split; [exact Hs|]. split.
      * rewrite map_app. simpl. apply NoDup_app_remove_r with (l' := []).
        rewrite app_nil_r.
        apply (Permutation_NoDup
                 (l := TodoRow.id row :: map TodoRow.id (tasks (db w)))).
        -- apply Permutation_cons_append.
        -- now constructor.
      * apply Forall_app. split; [exact Hok|].
        constructor; [|constructor]. split.
        -- rewrite Hn. apply or_null_ok.
        -- rewrite Hd. destruct dueDate as [d|]; simpl; [|discriminate].
           intro H. injection H as H. now apply toISOString_nonempty in H.
  - destruct (updateTodoStatus_cases i dn w)
      as [[w' [E D]]|[o [w' [E [S T]]]]]; rewrite E; simpl; unfold store_ok.
    + rewrite D. auto.
    + rewrite <- S, T. split; [exact Hs|]. split.
      * rewrite replace_task_ids; [exact Hnd | reflexivity].
      * apply row_ok_replace; [|exact Hok]. intros r Hr. exact Hr.
  - destruct (updateTodo_cases i u w)
      as [[w' [E D]]|[[E _]|[r [r' [w' [_ [E [Hr' [S T]]]]]]]]];
      rewrite E; simpl; unfold store_ok.
    + rewrite D. auto.
    + auto.
    + rewrite <- S, T. split; [exact Hs|]. split.
      * rewrite replace_task_ids; [exact Hnd|]. intro q. now rewrite Hr'.
      * apply row_ok_replace; [|exact Hok]. intros q _. rewrite Hr'.
        split; simpl; [apply or_null_ok|].
        destruct (upd_dueDate u) as [d|]; [|apply truthy_ok].
        intro H. injection H as H. now apply toISOString_nonempty in H.
Qed.

(** An installation of the first release, at version 1 with its table
    [todos], comes out of [migrateDB] as a store the layer works on. *)
Lemma migrateDB_upgrade_store_ok {JD : JsDate} (w : World) (t : TodosTable) :
  user_version (db w) = 1 ->
  todos (db w) = Some t ->
  NoDup (map TodoRow.id (rows t)) ->
  Forall (fun r =>
            (has_notes t = true -> null_or_nonempty (TodoRow.notes r)) /\
            (has_dueDate t = true -> null_or_nonempty (TodoRow.dueDate r)))
    (rows t) ->
  store_ok (db (world_of (migrateDB w))).
Proof.
  destruct w as [[v j t0 l] c u n clk]. simpl. intros -> -> Hnd Hok.
  unfold migrateDB. run.
  match goal with
  | |- context [upgradeToVersion2 ?W] =>
      destruct (upgradeToVersion2_returns W t eq_refl)
        as [w2 [E2 [_ [Hs2 [_ Ht2]]]]];
      rewrite E2
  end.
  destruct w2 as [[v2 j2 t2 ls2] c2 u2 n2 clk2]. simpl in *.
  unfold store_ok, schema_v2, tasks in *. simpl in *.
  split; [exact Hs2|]. rewrite Ht2. split.
  - rewrite map_map. erewrite map_ext; [exact Hnd|].
    intro r. apply upgraded_row_id.
  - rewrite Forall_forall in *. intros r Hr.
    apply in_map_iff in Hr. destruct Hr as [q [<- Hq]].
    destruct (Hok q Hq) as [Hn Hd]. now apply upgraded_row_ok.
Qed.

(** * Further properties of the layer *)

(** ** What each operation of the layer computes *)

Lemma hd_error_filter_find {A : Type} (p : A -> bool) (l : list A) :
  hd_error (filter p l) = find p l.
Proof.
  induction l as [|x l IH]; simpl; [reflexivity|].
  destruct (p x); [reflexivity | exact IH].
Qed.

Lemma filter_head_find {A : Type} (p : A -> bool) (l : list A) (x : A) :
  find p l = Some x -> exists rest, filter p l = x :: rest.
Proof.
  rewrite <- hd_error_filter_find.
  destruct (filter p l) as [|y rest]; simpl; [discriminate|].
  intro E. injection E as ->. now exists rest.
Qed.

Lemma createList_run {JD : JsDate} (name : string) (w : World) :
  createList name w =
    let w1 := mkWorld (db w) (console w) (uuids w) (S (drawn w)) (clock w) in
    let row := TodoList.mk (uuids w (drawn w)) name in
    match todo_lists (db w) with
    | None => Thrown w1
    | Some l =>
        if mem_string (uuids w (drawn w)) (map TodoList.id l) then Thrown w1
        else Returned (Some row) (set_db (set_lists (l ++ [row]) (db w)) w1)
    end.
Proof.
  destruct w as [[v j t l] c us n clk]. unfold createList. run.
  unfold Sql.insert_list_returning, Sql.insert_list, set_lists. simpl.
  destruct l as [l|]; simpl; [|reflexivity].
  destruct (mem_string _ _); reflexivity.
Qed.

Lemma createTodo_run {JD : JsDate} (text : string)
  (listId notes : option string) (dueDate : option Date) (w : World) :
  createTodo text listId notes dueDate w =
    let w1 := mkWorld (db w) (console w) (uuids w) (S (drawn w)) (clock w) in
    let row :=
      TodoRow.mk (uuids w (drawn w)) text 0 (toISOString (clock w))
        (Some (nullish listId "default-list")) (or_null notes)
        (option_map toISOString dueDate) in
    match todos (db w) with
    | None => Thrown w1
    | Some t =>
        if all_columns t then
          if mem_string (uuids w (drawn w)) (todo_ids t) then Thrown w1
          else Returned (Some (toTodoItem row))
                 (set_db (set_tasks (rows t ++ [row]) (db w)) w1)
        else Thrown w1
    end.
Proof.
  destruct w as [[v j t l] c us n clk]. unfold createTodo. run.
  unfold Sql.insert_todo_returning, set_tasks. simpl.
  destruct t as [[hl hn hd rs]|]; simpl; [|reflexivity].
  destruct (all_columns _); simpl; [|reflexivity].
  destruct (mem_string _ _); reflexivity.
Qed.

Lemma updateTodoStatus_run {JD : JsDate} (i : string) (dn : bool)
  (w : World) :
  updateTodoStatus i dn w =
    let f := TodoRow.set_done (if dn then 1 else 0) in
    match todos (db w) with
    | None => Thrown w
    | Some t =>
        if all_columns t then
          Returned (option_map (fun r => toTodoItem (f r)) (find_task i (db w)))
            (set_db (set_tasks (replace_task i f (rows t)) (db w)) w)
        else Thrown w
    end.
Proof.
  destruct w as [[v j t l] c us n clk]. unfold updateTodoStatus. run.
  unfold Sql.update_done, Sql.update_where_id, set_tasks, find_task, tasks.
  simpl.
  destruct t as [[hl hn hd rs]|]; simpl; [|reflexivity].
  destruct (all_columns _); simpl; [|reflexivity].
  rewrite <- hd_error_filter_find.
  destruct (filter _ rs); reflexivity.
Qed.

Lemma updateTodo_run {JD : JsDate} (i : string) (u : Updates) (w : World) :
  updateTodo i u w =
    match todos (db w) with
    | None => Thrown w
    | Some t =>
        match find_task i (db w) with
        | None => Returned None w
        | Some todo =>
            if all_columns t then
              Returned (Some (toTodoItem (merged_row u todo todo)))
                (set_db (set_tasks
                           (replace_task i (merged_row u todo) (rows t))
                           (db w)) w)
            else Thrown w
        end
    end.
Proof.
  destruct w as [[v j t l] c us n clk]. unfold updateTodo. run.
  unfold Sql.select_todo_by_id, find_task, tasks. simpl.
  destruct t as [[hl hn hd rs]|]; simpl; [|reflexivity].
  rewrite hd_error_filter_find.
  destruct (find _ rs) as [r|] eqn:Ef; simpl; [|reflexivity].
  unfold Sql.update_fields, Sql.update_where_id, set_tasks. simpl.
  destruct (all_columns _); simpl; [|reflexivity].
  destruct (filter_head_find _ _ _ Ef) as [rest ->]. reflexivity.
Qed.

Lemma getAllTodos_run {JD : JsDate} (w : World) :
  getAllTodos w =
    match todos (db w) with
    | None => Thrown w
    | Some t => Returned (map toTodoItem (rows t)) w
    end.
Proof.
  destruct w as [[v j t l] c us n clk]. unfold getAllTodos. run.
  unfold Sql.select_todos. simpl. destruct t; reflexivity.
Qed.

Lemma getTodosByList_run {JD : JsDate} (listId : option string) (w : World) :
  getTodosByList listId w =
    if truthy listId then
      match todos (db w) with
      | None => Thrown w
      | Some t =>
          if has_listId t then
            Returned (map toTodoItem
                        (tasks_of_list (nullish listId "") (db w))) w
          else Thrown w
      end
    else getAllTodos w.
Proof.
  rewrite getAllTodos_run.
  destruct w as [[v j t l] c us n clk]. unfold getTodosByList. run.
  unfold Sql.select_todos_by_list, Sql.select_todos, tasks_of_list, tasks.
  simpl.
  destruct (truthy listId); destruct t as [t|]; simpl; try reflexivity.
  destruct (has_listId t); reflexivity.
Qed.

Lemma getAllLists_run {JD : JsDate} (w : World) :
  getAllLists w =
    match todo_lists (db w) with
    | None => Thrown w
    | Some l => Returned (order_by_name l) w
    end.
Proof.
  destruct w as [[v j t l] c us n clk]. unfold getAllLists. run.
  unfold Sql.select_lists_by_name. simpl. destruct l; reflexivity.
Qed.

(** ** Creating and reading back *)

(** X1. On a store with table [todo_lists], with a new identifier drawn,
    [createList] returns the row it inserted, made of that identifier and
    the name given as it is; the row is appended to [todo_lists], no task
    changes, and [getAllLists], called next, returns the old rows and the
    new one, sorted by name. *)
Theorem createList_then_getAllLists {JD : JsDate} (w : World)
  (name : string) :
  todo_lists (db w) <> None ->
  ~ In (uuids w (drawn w)) (map TodoList.id (lists (db w))) ->
  exists w' ls,
    createList name w
      = Returned (Some (TodoList.mk (uuids w (drawn w)) name)) w' /\
    lists (db w') = lists (db w) ++ [TodoList.mk (uuids w (drawn w)) name] /\
    todos (db w') = todos (db w) /\
    user_version (db w') = user_version (db w) /\
    getAllLists w' = Returned ls w' /\
    Permutation (TodoList.mk (uuids w (drawn w)) name :: lists (db w)) ls /\
    StronglySorted name_le ls.
Proof.
  intros Hl Hi. rewrite createList_run. cbv zeta.
  destruct w as [[v j t [l|]] c us n clk]; simpl in *; [|congruence].
  unfold lists in Hi. simpl in Hi. rewrite (mem_string_notin _ _ Hi).
  eexists. eexists. split; [reflexivity|].
  rewrite getAllLists_run. unfold set_lists, lists. simpl.
  repeat split.
  - eapply perm_trans; [|apply order_by_name_perm].
    apply Permutation_cons_append.
  - apply order_by_name_sorted.
Qed.

Lemma createList_then_getAllLists_witness :
  exists w' ls,
    createList "Work" migrated_world
      = Returned (Some (TodoList.mk "id-3" "Work")) w' /\
    getAllLists w' = Returned ls w' /\
    Permutation (TodoList.mk "id-3" "Work" :: lists (db migrated_world)) ls /\
    StronglySorted name_le ls.
Proof.
  destruct (createList_then_getAllLists migrated_world "Work")
    as [w' [ls [E [_ [_ [_ [G [P S]]]]]]]].
  - vm_compute. discriminate.
  - vm_compute. intuition discriminate.
  - exists w', ls. repeat split; assumption.
Defined.

(** X2. The two inserts of the layer fail on exactly two grounds, and write
    nothing when they fail.  [createList] returns if and only if table
    [todo_lists] exists and the identifier drawn is the key of no list;
    [createTodo] returns if and only if table [todos] exists with its three
    added columns and the identifier drawn is the key of no task.  When
    either throws, the store is as before. *)
Theorem create_returns_iff {JD : JsDate} (w : World) :
  (forall name,
     (value_of (createList name w) <> None <->
      todo_lists (db w) <> None /\
      ~ In (uuids w (drawn w)) (map TodoList.id (lists (db w)))) /\
     (value_of (createList name w) = None ->
      db (world_of (createList name w)) = db w)) /\
  (forall text listId notes dueDate,
     (value_of (createTodo text listId notes dueDate w) <> None <->
      (exists t, todos (db w) = Some t /\ all_columns t = true) /\
      ~ In (uuids w (drawn w)) (map TodoRow.id (tasks (db w)))) /\
     (value_of (createTodo text listId notes dueDate w) = None ->
      db (world_of (createTodo text listId notes dueDate w)) = db w)).
Proof.
  split.
  - intro name. rewrite createList_run. cbv zeta.
    destruct w as [[v j t [l|]] c us n clk]; unfold lists; simpl.
    + destruct (mem_string _ _) eqn:M; simpl.
      * apply mem_string_In in M. split; [|reflexivity].
        split; [congruence | intros [_ H]; contradiction].
      * split; [|discriminate]. split; [|discriminate].
        intros _. split; [discriminate|]. intro H.
        apply mem_string_In in H. congruence.
    + split; [|reflexivity]. split; [congruence | intros [H _]; congruence].
  - intros text listId notes dueDate. rewrite createTodo_run. cbv zeta.
    destruct w as [[v j [t|] l] c us n clk]; unfold tasks; simpl.
    + destruct (all_columns t) eqn:A; simpl.
      * destruct (mem_string _ _) eqn:M; simpl.
        -- apply mem_string_In in M. split; [|reflexivity].
           split; [congruence | intros [_ H]; contradiction].
        -- split; [|discriminate]. split; [|discriminate].
           intros _. split; [now exists t|]. intro H.
           apply mem_string_In in H. unfold todo_ids in M. congruence.
      * split; [|reflexivity]. split; [congruence|].
        intros [[t' [E A']] _]. injection E as <-. congruence.
    + split; [|reflexivity]. split; [congruence|].
      intros [[t' [E _]] _]. discriminate.
Qed.

(** X3. On a store with the schema of version 2, with a new identifier
    drawn, what [createTodo] returns is what [getAllTodos] reads back: the
    tasks read after the call are the tasks read before it followed by the
    returned task, and that task has the text given, the notes given (none
    for the empty string) and the due date given, equal as a date to the one
    passed in. *)
Theorem createTodo_then_getAllTodos {JD : JsDate} (w : World) (text : string)
  (listId notes : option string) (dueDate : option Date) :
  schema_v2 (db w) = true ->
  ~ In (uuids w (drawn w)) (map TodoRow.id (tasks (db w))) ->
  exists item w' before,
    createTodo text listId notes dueDate w = Returned (Some item) w' /\
    getAllTodos w = Returned before w /\
    getAllTodos w' = Returned (before ++ [item]) w' /\
    item_text item = text /\
    item_notes item = or_null notes /\
    item_dueDate item = dueDate.
Proof.
  intros Hs Hi. destruct (schema_v2_shape _ Hs) as [rs [l E]].
  rewrite createTodo_run, getAllTodos_run. cbv zeta.
  destruct w as [d c us n clk]. simpl in *. rewrite E in *. clear E.
  unfold tasks in Hi. simpl in Hi. unfold todo_ids. simpl.
  rewrite (mem_string_notin _ _ Hi).
  eexists. eexists. eexists. split; [reflexivity|].
  split; [reflexivity|]. rewrite getAllTodos_run. simpl.
  split; [now rewrite map_app|]. split; [reflexivity|].
  split; [reflexivity|].
  destruct dueDate as [d0|]; simpl; [|reflexivity].
  destruct (String.eqb_spec (toISOString d0) "") as [He|_].
  - now apply toISOString_nonempty in He.
  - simpl. now rewrite newDate_toISOString.
Qed.

Lemma createTodo_then_getAllTodos_witness :
  exists item w' before,
    createTodo "Buy milk" (Some "default-list") (Some "2 litres")
      (Some 1700086400000%N) migrated_world = Returned (Some item) w' /\
    getAllTodos migrated_world = Returned before migrated_world /\
    getAllTodos w' = Returned (before ++ [item]) w' /\
    item_text item = "Buy milk" /\
    item_notes item = Some "2 litres" /\
    item_dueDate item = Some 1700086400000%N.
Proof.
  apply (createTodo_then_getAllTodos migrated_world "Buy milk"
           (Some "default-list") (Some "2 litres") (Some 1700086400000%N)).
  - vm_compute. reflexivity.
  - rewrite migrated_world_tasks. vm_compute. intuition discriminate.
Defined.

(** X4. On a store with the schema of version 2, with a new identifier
    drawn, a task created for a non-empty [listId] shows up, last, in what
    [getTodosByList] returns for that list, and in what it returns for no
    other non-empty list. *)
Theorem createTodo_then_getTodosByList {JD : JsDate} (w : World)
  (text l : string) (notes : option string) (dueDate : option Date) :
  schema_v2 (db w) = true ->
  ~ In (uuids w (drawn w)) (map TodoRow.id (tasks (db w))) ->
  l <> "" ->
  exists item w',
    createTodo text (Some l) notes dueDate w = Returned (Some item) w' /\
    getTodosByList (Some l) w' =
      Returned (map toTodoItem (tasks_of_list l (db w)) ++ [item]) w' /\
    (forall l', l' <> "" -> l' <> l ->
       getTodosByList (Some l') w' =
         Returned (map toTodoItem (tasks_of_list l' (db w))) w').
Proof.
  intros Hs Hi Hl. destruct (schema_v2_shape _ Hs) as [rs [ls E]].
  rewrite createTodo_run. cbv zeta.
  destruct w as [d c us n clk]. simpl in *. rewrite E in *. clear E.
  unfold tasks in Hi. simpl in Hi. unfold todo_ids. simpl.
  rewrite (mem_string_notin _ _ Hi).
  eexists. eexists. split; [reflexivity|]. split.
  - rewrite getTodosByList_run. simpl.
    destruct (String.eqb_spec l ""); [contradiction|]. simpl.
    unfold tasks_of_list, tasks, set_tasks. simpl.
    rewrite filter_app, map_app. simpl. rewrite String.eqb_refl. reflexivity.
  - intros l' Hl' Hne. rewrite getTodosByList_run. simpl.
    destruct (String.eqb_spec l' ""); [contradiction|]. simpl.
    unfold tasks_of_list, tasks, set_tasks. simpl.
    rewrite filter_app. simpl.
    destruct (String.eqb_spec l l'); [congruence|]. now rewrite app_nil_r.
Qed.

Lemma createTodo_then_getTodosByList_witness :
  exists item w',
    createTodo "Buy milk" (Some "shopping") None None migrated_world
      = Returned (Some item) w' /\
    getTodosByList (Some "shopping") w' = Returned [item] w' /\
    getTodosByList (Some "default-list") w' =
      Returned (map toTodoItem (tasks (db migrated_world))) w'.
Proof.
  destruct (createTodo_then_getTodosByList migrated_world "Buy milk"
              "shopping" None None) as [item [w' [E [G H]]]].
  - vm_compute. reflexivity.
  - rewrite migrated_world_tasks. vm_compute. intuition discriminate.
  - discriminate.
  - exists item, w'. split; [exact E|]. split; [exact G|].
    rewrite (H "default-list"); [reflexivity | discriminate | discriminate].
Defined.

(** ** What the writes leave alone *)

Lemma map_key_replace (i : string) (f : TodoRow.t -> TodoRow.t)
  (rs : list TodoRow.t) :
  (forall r, key_of (f r) = key_of r) ->
  map key_of (replace_task i f rs) = map key_of rs.
Proof.
  intro Hf. unfold replace_task. rewrite map_map. apply map_ext. intro r.
  destruct (TodoRow.id r =? i)%string; [apply Hf | reflexivity].
Qed.

Lemma tasks_set_tasks_some (rs : list TodoRow.t) (d : DB) (t : TodosTable) :
  todos d = Some t -> tasks (set_tasks rs d) = rs.
Proof.
  destruct d as [v j t0 l]. simpl. intros ->. reflexivity.
Qed.

(** X5. No write of the layer deletes a task, reorders the tasks, or
    changes the key or the creation time of one: after any write operation,
    returning or throwing, the keys and creation times of the stored tasks
    are those of before, in the same order, followed by at most one new
    one. *)
Theorem writes_keep_keys {JD : JsDate} (c : dal_write) (w : World) :
  exists added,
    map key_of (tasks (db (after_write c w)))
      = map key_of (tasks (db w)) ++ added /\
    (length added <= 1)%nat.
Proof.
  destruct c as [name|text listId notes dueDate|i dn|i u]; unfold after_write.
  - exists []. rewrite createList_tasks, app_nil_r. split; [reflexivity|].
    simpl. lia.
  - rewrite createTodo_run. cbv zeta.
    destruct w as [d cs us n clk]. simpl.
    destruct (todos d) as [t|] eqn:Et;
      [|exists []; simpl; rewrite app_nil_r; split;
        [reflexivity | simpl; lia]].
    destruct (all_columns t);
      [|exists []; simpl; rewrite app_nil_r; split;
        [reflexivity | simpl; lia]].
    destruct (mem_string _ _);
      [exists []; simpl; rewrite app_nil_r; split;
       [reflexivity | simpl; lia]|].
    eexists [_]. split; [|simpl; lia]. simpl.
    rewrite (tasks_set_tasks_some _ _ _ Et). unfold tasks. rewrite Et.
    rewrite map_app. reflexivity.
  - exists []. rewrite app_nil_r. split; [|simpl; lia].
    rewrite updateTodoStatus_run. cbv zeta.
    destruct (todos (db w)) as [t|] eqn:Et; [|reflexivity].
    destruct (all_columns t); [|reflexivity].
    destruct w as [d cs us n clk]. simpl in *.
    rewrite (tasks_set_tasks_some _ _ _ Et). unfold tasks. rewrite Et.
    now apply map_key_replace.
  - exists []. rewrite app_nil_r. split; [|simpl; lia].
    rewrite updateTodo_run.
    destruct (todos (db w)) as [t|] eqn:Et; [|reflexivity].
    destruct (find_task i (db w)) as [todo|]; [|reflexivity].
    destruct (all_columns t); [|reflexivity].
    destruct w as [d cs us n clk]. simpl in *.
    rewrite (tasks_set_tasks_some _ _ _ Et). unfold tasks. rewrite Et.
    now apply map_key_replace.
Qed.

(** X6. The writes of the layer stay within their table.  [createList]
    leaves table [todos] as it is and only appends to [todo_lists]; the
    three writes on tasks leave [todo_lists] as it is and keep the columns
    of [todos]; and none of them changes the version marker or the journal
    mode. *)
Theorem writes_stay_in_their_table {JD : JsDate} (c : dal_write)
  (w : World) :
  user_version (db (after_write c w)) = user_version (db w) /\
  journal_wal (db (after_write c w)) = journal_wal (db w) /\
  match c with
  | CreateList _ =>
      todos (db (after_write c w)) = todos (db w) /\
      exists added, lists (db (after_write c w)) = lists (db w) ++ added
  | _ =>
      todo_lists (db (after_write c w)) = todo_lists (db w) /\
      exists rs, db (after_write c w) = set_tasks rs (db w)
  end.
Proof.
  destruct c as [name|text listId notes dueDate|i dn|i u]; unfold after_write.
  - rewrite createList_run. cbv zeta.
    destruct w as [[v j t [l|]] cs us n clk]; unfold lists; simpl.
    + destruct (mem_string _ _); simpl; repeat split;
        (now eexists) || (exists []; now rewrite app_nil_r).
    + repeat split. now exists [].
  - rewrite createTodo_run. cbv zeta.
    destruct w as [[v j [[hl hn hd rs]|] l] cs us n clk]; simpl.
    + destruct (all_columns _); simpl.
      * destruct (mem_string _ _); simpl; repeat split;
          (now eexists) || (now exists rs).
      * repeat split. now exists rs.
    + repeat split. now exists [].
  - rewrite updateTodoStatus_run. cbv zeta.
    destruct w as [[v j [[hl hn hd rs]|] l] cs us n clk]; simpl.
    + destruct (all_columns _); simpl; repeat split;
        (now eexists) || (now exists rs).
    + repeat split. now exists [].
  - rewrite updateTodo_run.
    destruct w as [[v j [[hl hn hd rs]|] l] cs us n clk]; simpl.
    + destruct (find_task _ _); simpl.
      * destruct (all_columns _); simpl; repeat split;
          (now eexists) || (now exists rs).
      * repeat split. now exists rs.
    + repeat split. now exists [].
Qed.

(** X7. The reads of the layer write nothing: [getAllTodos],
    [getTodosByList], [getAllLists] and [getDBVersion] leave the world, the
    store in it, as it was, whether they return or throw. *)
Theorem reads_write_nothing {JD : JsDate} (w : World) :
  world_of (getAllTodos w) = w /\
  (forall listId, world_of (getTodosByList listId w) = w) /\
  world_of (getAllLists w) = w /\
  getDBVersion w = Returned (Some (user_version (db w))) w.
Proof.
  split; [|split; [|split]].
  - rewrite getAllTodos_run. now destruct (todos (db w)).
  - intro listId. rewrite getTodosByList_run, getAllTodos_run.
    destruct (truthy listId), (todos (db w)) as [t|]; try reflexivity.
    now destruct (has_listId t).
  - rewrite getAllLists_run. now destruct (todo_lists (db w)).
  - now destruct w.
Qed.

(** ** Repeating an update *)

Lemma find_replace_task (i : string) (f : TodoRow.t -> TodoRow.t)
  (rs : list TodoRow.t) :
  (forall r, TodoRow.id (f r) = TodoRow.id r) ->
  find (fun r => (TodoRow.id r =? i)%string) (replace_task i f rs)
    = option_map f (find (fun r => (TodoRow.id r =? i)%string) rs).
Proof.
  intro Hf. unfold replace_task.
  induction rs as [|r rs IH]; simpl; [reflexivity|].
  destruct (String.eqb_spec (TodoRow.id r) i) as [E|N].
  - rewrite Hf, E, String.eqb_refl. reflexivity.
  - destruct (String.eqb_spec (TodoRow.id r) i); [contradiction | exact IH].
Qed.

Lemma set_tasks_todos (rs : list TodoRow.t) (d : DB) (t : TodosTable) :
  todos d = Some t -> todos (set_tasks rs d) = Some (set_rows rs t).
Proof.
  destruct d as [v j t0 l]. simpl. intros ->. reflexivity.
Qed.

(** X8. Of two calls of [updateTodoStatus] on the same id, one after the
    other, the second decides: on every store, the store and the result
    after both are the store and the result after the second alone.  In
    particular the same call made twice does what it does once. *)
Theorem updateTodoStatus_last_call_decides {JD : JsDate} (w : World)
  (i : string) (a b : bool) :
  db (world_of (updateTodoStatus i b (world_of (updateTodoStatus i a w))))
    = db (world_of (updateTodoStatus i b w)) /\
  value_of (updateTodoStatus i b (world_of (updateTodoStatus i a w)))
    = value_of (updateTodoStatus i b w).
Proof.
  rewrite (updateTodoStatus_run i a w). cbv zeta.
  destruct (todos (db w)) as [t|] eqn:Et; [|split; reflexivity].
  destruct (all_columns t) eqn:A; [|split; reflexivity].
  simpl. rewrite !updateTodoStatus_run. cbv zeta.
  destruct w as [d cs us n clk]. simpl in *.
  rewrite (set_tasks_todos _ _ _ Et), Et. simpl.
  unfold all_columns in *. simpl. rewrite A. simpl.
  rewrite set_tasks_twice, replace_task_twice by reflexivity.
  split; [reflexivity|].
  unfold find_task. rewrite (tasks_set_tasks_some _ _ _ Et).
  unfold tasks. rewrite Et, find_replace_task by reflexivity.
  now destruct (find _ (rows t)).
Qed.

Lemma or_null_twice (x : option string) : or_null (or_null x) = or_null x.
Proof. apply or_null_id. apply or_null_ok. Qed.

Lemma TodoRow_ext (a b : TodoRow.t) :
  TodoRow.id a = TodoRow.id b -> TodoRow.text a = TodoRow.text b ->
  TodoRow.done a = TodoRow.done b ->
  TodoRow.createdAt a = TodoRow.createdAt b ->
  TodoRow.listId a = TodoRow.listId b -> TodoRow.notes a = TodoRow.notes b ->
  TodoRow.dueDate a = TodoRow.dueDate b -> a = b.
Proof. destruct a, b; simpl; intros; subst; reflexivity. Qed.

Lemma merged_row_id {JD : JsDate} (u : Updates) (todo q : TodoRow.t) :
  TodoRow.id (merged_row u todo q) = TodoRow.id q.
Proof. reflexivity. Qed.

Lemma merged_row_text {JD : JsDate} (u : Updates) (todo q : TodoRow.t) :
  TodoRow.text (merged_row u todo q) = nullish (upd_text u) (TodoRow.text todo).
Proof. reflexivity. Qed.

Lemma merged_row_done {JD : JsDate} (u : Updates) (todo q : TodoRow.t) :
  TodoRow.done (merged_row u todo q) = TodoRow.done q.
Proof. reflexivity. Qed.

Lemma merged_row_createdAt {JD : JsDate} (u : Updates) (todo q : TodoRow.t) :
  TodoRow.createdAt (merged_row u todo q) = TodoRow.createdAt q.
Proof. reflexivity. Qed.

Lemma merged_row_listId {JD : JsDate} (u : Updates) (todo q : TodoRow.t) :
  TodoRow.listId (merged_row u todo q) =
    match upd_listId u with
    | Some l => Some l
    | None => TodoRow.listId todo
    end.
Proof. reflexivity. Qed.

Lemma merged_row_notes {JD : JsDate} (u : Updates) (todo q : TodoRow.t) :
  TodoRow.notes (merged_row u todo q) =
    or_null (match upd_notes u with
             | Some n => Some n
             | None => TodoRow.notes todo
             end).
Proof. reflexivity. Qed.

Lemma merged_row_dueDate {JD : JsDate} (u : Updates) (todo q : TodoRow.t) :
  TodoRow.dueDate (merged_row u todo q) =
    match upd_dueDate u with
    | Some d => Some (toISOString d)
    | None => if truthy (TodoRow.dueDate todo)
              then TodoRow.dueDate todo else None
    end.
Proof. reflexivity. Qed.

Lemma merged_row_twice {JD : JsDate} (u : Updates) (todo q : TodoRow.t) :
  merged_row u (merged_row u todo todo) (merged_row u todo q)
    = merged_row u todo q.
Proof.
  apply TodoRow_ext;
    rewrite ?merged_row_id, ?merged_row_text, ?merged_row_done,
      ?merged_row_createdAt, ?merged_row_listId, ?merged_row_notes,
      ?merged_row_dueDate; try reflexivity.
  - now destruct (upd_text u).
  - now destruct (upd_listId u).
  - destruct (upd_notes u); [reflexivity | apply or_null_twice].
  - destruct (upd_dueDate u); [reflexivity|]. apply truthy_keep, truthy_ok.
Qed.

(** X9. [updateTodo] made twice with the same arguments does what it does
    once: on every store, the store and the result after the second call
    are those after the first. *)
Theorem updateTodo_twice {JD : JsDate} (w : World) (i : string)
  (u : Updates) :
  db (world_of (updateTodo i u (world_of (updateTodo i u w))))
    = db (world_of (updateTodo i u w)) /\
  value_of (updateTodo i u (world_of (updateTodo i u w)))
    = value_of (updateTodo i u w).
Proof.
  rewrite (updateTodo_run i u w).
  destruct (todos (db w)) as [t|] eqn:Et;
    [|simpl; rewrite updateTodo_run, Et; split; reflexivity].
  destruct (find_task i (db w)) as [todo|] eqn:Ef;
    [|simpl; rewrite updateTodo_run, Et, Ef; split; reflexivity].
  destruct (all_columns t) eqn:A;
    [|simpl; rewrite updateTodo_run, Et, Ef, A; split; reflexivity].
  simpl. rewrite updateTodo_run.
  destruct w as [d cs us n clk]. simpl in *.
  rewrite (set_tasks_todos _ _ _ Et).
  unfold find_task in *. rewrite (tasks_set_tasks_some _ _ _ Et).
  unfold tasks in Ef. rewrite Et in Ef.
  rewrite find_replace_task, Ef by (intro; apply merged_row_id). simpl.
  unfold all_columns in *. simpl. rewrite A. simpl.
  rewrite set_tasks_twice, replace_task_twice by (intro; apply merged_row_id).
  rewrite merged_row_twice. split; [|reflexivity].
  f_equal. apply replace_task_ext. intros q _ _. apply merged_row_twice.
Qed.

(** X10. [updateTodo] cannot take a due date or a list away from a task.
    When it returns a task, a task with the key was read first and the task
    returned is the one now stored under the key; if the task read had a due
    date, the stored and returned one has a due date too; if it had a
    [listId], so has the stored and returned one; and an update without a
    due date keeps the stored due date.  Notes are different: the empty
    string in the update clears them. *)
Theorem updateTodo_never_clears {JD : JsDate} (w : World) (i : string)
  (u : Updates) (item : TodoItem) (w' : World) :
  updateTodo i u w = Returned (Some item) w' ->
  exists todo r',
    find_task i (db w) = Some todo /\
    find_task i (db w') = Some r' /\
    item = toTodoItem r' /\
    (truthy (TodoRow.dueDate todo) = true ->
     truthy (TodoRow.dueDate r') = true /\ item_dueDate item <> None) /\
    (TodoRow.listId todo <> None ->
     TodoRow.listId r' <> None /\ item_listId item <> None) /\
    (upd_dueDate u = None -> truthy (TodoRow.dueDate todo) = true ->
     TodoRow.dueDate r' = TodoRow.dueDate todo) /\
    (upd_notes u = Some "" -> TodoRow.notes r' = None).
Proof.
  rewrite updateTodo_run.
  destruct (todos (db w)) as [t|] eqn:Et; [|discriminate].
  destruct (find_task i (db w)) as [todo|] eqn:Ef; [|discriminate].
  destruct (all_columns t); [|discriminate].
  intro E. injection E as <- <-.
  exists todo, (merged_row u todo todo). split; [reflexivity|].
  destruct w as [d cs us n clk]. simpl in *.
  unfold find_task in *. rewrite (tasks_set_tasks_some _ _ _ Et).
  unfold tasks in Ef. rewrite Et in Ef.
  rewrite find_replace_task, Ef by (intro; apply merged_row_id).
  split; [reflexivity|]. split; [reflexivity|].
  assert (Hd : truthy (TodoRow.dueDate todo) = true ->
               truthy (TodoRow.dueDate (merged_row u todo todo)) = true).
  { intro T. unfold merged_row. simpl. destruct (upd_dueDate u) as [x|].
    - simpl. destruct (String.eqb_spec (toISOString x) "") as [He|_];
        [now apply toISOString_nonempty in He | reflexivity].
    - now rewrite T. }
  repeat split.
  - now apply Hd.
  - unfold toTodoItem. simpl. specialize (Hd H). simpl in Hd. rewrite Hd.
    intro N. destruct (upd_dueDate u); simpl in N; [discriminate|].
    rewrite H in N. unfold truthy in H.
    destruct (TodoRow.dueDate todo); simpl in N; discriminate.
  - simpl. destruct (upd_listId u); [discriminate | assumption].
  - simpl. destruct (upd_listId u); [discriminate | assumption].
  - intros ->. simpl. intros ->. reflexivity.
  - intros ->. reflexivity.
Qed.

Lemma updateTodo_never_clears_witness :
  exists item w' todo r',
    updateTodo "id-0" (mkUpdates None (Some "") None None) migrated_world
      = Returned (Some item) w' /\
    find_task "id-0" (db migrated_world) = Some todo /\
    find_task "id-0" (db w') = Some r' /\
    TodoRow.listId r' <> None /\
    TodoRow.notes r' = None.
Proof.
  assert (E : updateTodo "id-0" (mkUpdates None (Some "") None None)
                migrated_world
              = Returned (Some (toTodoItem seeded_task_1)) migrated_world)
    by (vm_compute; reflexivity).
  destruct (updateTodo_never_clears _ _ _ _ _ E)
    as [todo [r' [F [F' [_ [_ [Hl [_ Hn]]]]]]]].
  exists (toTodoItem seeded_task_1), migrated_world, todo, r'.
  split; [exact E|]. split; [exact F|]. split; [exact F'|]. split.
  - apply Hl. vm_compute in F. injection F as <-. discriminate.
  - now apply Hn.
Defined.

(** ** What the migration keeps *)

Lemma upgradeToVersion2_keeps_lists {JD : JsDate} (w : World)
  (t : TodosTable) :
  todos (db w) = Some t ->
  exists w',
    upgradeToVersion2 w = Returned tt w' /\
    user_version (db w') = user_version (db w) /\
    schema_v2 (db w') = true /\
    tasks (db w') = map (upgraded_row t) (rows t) /\
    lists (db w') =
      (if mem_string "default-list" (map TodoList.id (lists (db w)))
       then lists (db w)
       else lists (db w) ++ [default_list]).
Proof.
  destruct w as [[v j t0 l] c u n clk]; simpl. intros ->.
  unfold upgradeToVersion2. run.
  unfold Sql.create_todo_lists, Sql.add_column, Sql.count_lists_with_id,
    Sql.backfill_listId, Sql.insert_list; simpl.
  destruct t as [hl hn hd rs].
  destruct l as [l|]; simpl;
    [pose proof (count_zero_notin "default-list" l) as Hm;
     pose proof (count_nonzero_in "default-list" l) as Hin;
     destruct hl, hn, hd; simpl;
     match goal with
     | |- context [Z.of_nat ?x =? 0] =>
         destruct (Z.eqb_spec (Z.of_nat x) 0) as [E|E];
         [simpl; rewrite (Hm E)
         |specialize (Hin E); apply mem_string_In in Hin]
     end
    |destruct hl, hn, hd]; simpl;
      (eexists; split; [reflexivity|]; simpl; unfold schema_v2, tasks, lists;
       simpl;
       repeat split;
       try (rewrite ?map_map; apply map_ext; intro r; reflexivity);
       try (rewrite (Hm E); reflexivity);
       try (rewrite Hin; reflexivity)).
Qed.

Lemma upgraded_row_kept (t : TodosTable) (r : TodoRow.t) :
  TodoRow.id (upgraded_row t r) = TodoRow.id r /\
  TodoRow.text (upgraded_row t r) = TodoRow.text r /\
  TodoRow.done (upgraded_row t r) = TodoRow.done r /\
  TodoRow.createdAt (upgraded_row t r) = TodoRow.createdAt r /\
  TodoRow.listId (upgraded_row t r) <> None /\
  (has_listId t = true -> TodoRow.listId r <> None ->
   TodoRow.listId (upgraded_row t r) = TodoRow.listId r) /\
  (has_notes t = true ->
   TodoRow.notes (upgraded_row t r) = TodoRow.notes r) /\
  (has_dueDate t = true ->
   TodoRow.dueDate (upgraded_row t r) = TodoRow.dueDate r).
Proof.
  unfold upgraded_row.
  destruct (has_listId t), (has_notes t), (has_dueDate t); simpl;
    destruct (TodoRow.listId r) eqn:E; simpl; rewrite ?E;
      repeat split; congruence.
Qed.

(** X11. A store at version 1 with its table [todos] comes out of
    [migrateDB] with every task kept: [migrateDB] returns, the store has
    the schema of version 2 under the marker 2, the tasks are those of
    before in the same order, each with its key, text, completion flag and
    creation time, with the value of every added column that was there
    already, and with a [listId], the sentinel list where it had none.  The
    lists are those of before, followed by the sentinel list if it was
    missing. *)
Theorem migrateDB_from_1_keeps_tasks {JD : JsDate} (w : World)
  (t : TodosTable) :
  user_version (db w) = 1 ->
  todos (db w) = Some t ->
  exists w',
    migrateDB w = Returned tt w' /\
    user_version (db w') = 2 /\
    schema_v2 (db w') = true /\
    tasks (db w') = map (upgraded_row t) (rows t) /\
    (forall r,
       TodoRow.id (upgraded_row t r) = TodoRow.id r /\
       TodoRow.text (upgraded_row t r) = TodoRow.text r /\
       TodoRow.done (upgraded_row t r) = TodoRow.done r /\
       TodoRow.createdAt (upgraded_row t r) = TodoRow.createdAt r /\
       TodoRow.listId (upgraded_row t r) <> None /\
       (has_listId t = true -> TodoRow.listId r <> None ->
        TodoRow.listId (upgraded_row t r) = TodoRow.listId r) /\
       (has_notes t = true ->
        TodoRow.notes (upgraded_row t r) = TodoRow.notes r) /\
       (has_dueDate t = true ->
        TodoRow.dueDate (upgraded_row t r) = TodoRow.dueDate r)) /\
    lists (db w') =
      (if mem_string "default-list" (map TodoList.id (lists (db w)))
       then lists (db w)
       else lists (db w) ++ [default_list]).
Proof.
  destruct w as [[v j t0 l] c u n clk]. simpl. intros -> ->.
  unfold migrateDB. run.
  match goal with
  | |- context [upgradeToVersion2 ?W] =>
      destruct (upgradeToVersion2_keeps_lists W t eq_refl)
        as [w2 [E2 [_ [Hs2 [Ht2 Hl2]]]]];
      rewrite E2
  end.
  destruct w2 as [[v2 j2 t2 ls2] c2 u2 n2 clk2]. simpl in *.
  eexists. split; [reflexivity|]. simpl.
  split; [reflexivity|]. split; [exact Hs2|]. split; [exact Ht2|].
  split; [intro r; apply upgraded_row_kept | exact Hl2].
Qed.

Lemma migrateDB_from_1_keeps_tasks_witness :
  exists w',
    migrateDB
      (world0 (mkDB 1 true
                 (Some (mkTodos false false false
                          [TodoRow.mk "a" "Call Ana" 1 "2024-05-01T10:00:00.000Z"
                             None None None]))
                 None))
      = Returned tt w' /\
    tasks (db w') =
      [TodoRow.mk "a" "Call Ana" 1 "2024-05-01T10:00:00.000Z"
         (Some "default-list") None None] /\
    lists (db w') = [default_list].
Proof.
  destruct (migrateDB_from_1_keeps_tasks
              (world0 (mkDB 1 true
                         (Some (mkTodos false false false
                                  [TodoRow.mk "a" "Call Ana" 1
                                     "2024-05-01T10:00:00.000Z"
                                     None None None]))
                         None))
              (mkTodos false false false
                 [TodoRow.mk "a" "Call Ana" 1 "2024-05-01T10:00:00.000Z"
                    None None None]))
    as [w' [E [_ [_ [T [_ L]]]]]]; [reflexivity | reflexivity |].
  exists w'. split; [exact E|]. split; [exact T | exact L].
Defined.

Lemma initializeDB_appends {JD : JsDate} (w : World) :
  fresh3 w ->
  exists w',
    initializeDB w = Returned tt w' /\
    todos (db w') =
      Some (set_rows (tasks (db w) ++
                      seed_rows (uuids w (drawn w)) (uuids w (S (drawn w)))
                        (uuids w (S (S (drawn w)))))
              (match todos (db w) with
               | Some t => t
               | None => mkTodos false false false []
               end)) /\
    todo_lists (db w') = todo_lists (db w) /\
    user_version (db w') = user_version (db w).
Proof.
  destruct w as [[v j t l] c u n clk]. unfold fresh3, tasks. simpl.
  intro Hnd.
  inversion Hnd as [|? ? H1 Hnd1]; subst.
  inversion Hnd1 as [|? ? H2 Hnd2]; subst.
  inversion Hnd2 as [|? ? H3 _]; subst.
  unfold initializeDB. run.
  unfold Sql.insert_todo4, Sql.create_todos, todo_ids; simpl.
  destruct t as [[hl hn hd rs]|]; simpl in *.
  - rewrite (mem_string_notin (u n) (map TodoRow.id rs)); simpl.
    2:{ intro Hin. apply H1. right. right. exact Hin. }
    rewrite (mem_string_notin (u (S n))); simpl.
    2:{ rewrite map_app. intro Hin. apply in_app_or in Hin.
        destruct Hin as [Hin|[E|[]]];
          [apply H2; right; exact Hin | apply H1; left; now symmetry]. }
    rewrite (mem_string_notin (u (S (S n)))); simpl.
    2:{ rewrite !map_app. intro Hin. apply in_app_or in Hin.
        destruct Hin as [Hin|[E|[]]].
        - apply in_app_or in Hin. destruct Hin as [Hin|[E|[]]];
            [apply H3; exact Hin | apply H1; right; left; now symmetry].
        - apply H2. left. now symmetry. }
    eexists. split; [reflexivity|]. simpl. unfold set_rows. simpl.
    rewrite <- !app_assoc. simpl. auto.
  - rewrite (mem_string_notin (u (S n))); simpl.
    2:{ intros [E|[]]. apply H1. left. now symmetry. }
    rewrite (mem_string_notin (u (S (S n)))); simpl.
    2:{ intros [E|[E|[]]];
          [apply H1; right; left; now symmetry | apply H2; left; now symmetry]. }
    eexists. split; [reflexivity|]. simpl. auto.
Qed.

(** X12. From version 0 [migrateDB] never drops a row that is already
    there, and always adds its three seeds.  With new identifiers drawn it
    returns with the marker at 2 and the schema of version 2; the tasks are
    the ones the store held, brought to the new columns, followed by the
    three seed tasks on the sentinel list, so a store whose marker stayed at
    0 over the seeds of an earlier run ends with those seeds twice. *)
Theorem migrateDB_from_0_appends_seeds {JD : JsDate} (w : World) :
  user_version (db w) = 0 ->
  fresh3 w ->
  exists w',
    migrateDB w = Returned tt w' /\
    user_version (db w') = 2 /\
    schema_v2 (db w') = true /\
    tasks (db w') =
      map (upgraded_row (match todos (db w) with
                         | Some t => t
                         | None => mkTodos false false false []
                         end)) (tasks (db w)) ++
      map (TodoRow.set_listId (Some "default-list"))
        (seed_rows (uuids w (drawn w)) (uuids w (S (drawn w)))
           (uuids w (S (S (drawn w))))) /\
    length (tasks (db w')) = (length (tasks (db w)) + 3)%nat /\
    lists (db w') =
      (if mem_string "default-list" (map TodoList.id (lists (db w)))
       then lists (db w)
       else lists (db w) ++ [default_list]).
Proof.
  destruct w as [[v j t l] c u n clk]. simpl. intros -> Hf.
  unfold migrateDB. run.
  match goal with
  | |- context [initializeDB ?W] =>
      destruct (initializeDB_appends W Hf) as [w1 [E1 [Ht1 [Hl1 _]]]];
      rewrite E1
  end.
  destruct w1 as [d1 c1 u1 n1 clk1]. simpl in *.
  match goal with
  | |- context [upgradeToVersion2 ?W] =>
      destruct (upgradeToVersion2_keeps_lists W _ Ht1)
        as [w2 [E2 [_ [Hs2 [Ht2 Hl2]]]]];
      rewrite E2
  end.
  destruct w2 as [[v2 j2 t2 ls2] c2 u2 n2 clk2]. simpl in *.
  eexists. split; [reflexivity|]. simpl.
  split; [reflexivity|]. split; [exact Hs2|].
  assert (T : tasks (mkDB v2 j2 t2 ls2) =
              map (upgraded_row (match t with
                                 | Some t => t
                                 | None => mkTodos false false false []
                                 end)) (tasks (mkDB 0 j t l)) ++
              map (TodoRow.set_listId (Some "default-list"))
                (seed_rows (u n) (u (S n)) (u (S (S n))))).
  { rewrite Ht2. cbn [rows set_rows]. rewrite map_app.
    apply f_equal2; [reflexivity|].
    destruct t as [[hl hn hd rs]|]; [destruct hl, hn, hd|]; reflexivity. }
  split; [exact T|]. split.
  - unfold tasks in *. simpl in *. rewrite T, length_app, length_map.
    reflexivity.
  - unfold lists in *. simpl in *. rewrite Hl2, Hl1. reflexivity.
Qed.

Lemma migrateDB_from_0_appends_seeds_witness :
  exists w',
    migrateDB world_with_stale_marker = Returned tt w' /\
    length (tasks (db w')) = 6%nat.
Proof.
  destruct (migrateDB_from_0_appends_seeds world_with_stale_marker)
    as [w' [E [_ [_ [_ [L _]]]]]].
  - reflexivity.
  - unfold fresh3. vm_compute.
    repeat constructor; simpl; intuition discriminate.
  - exists w'. split; [exact E|]. rewrite L. reflexivity.
Defined.

(** ** The path of [migrateDB] *)

(** From version 0: both steps, the second on the world the first
    leaves, then the marker. *)
Lemma migrateDB_from_0_path {JD : JsDate} (w : World) :
  user_version (db w) = 0 -> fresh3 w ->
  exists w1 w2,
    initializeDB
      (logged "Current DB version: 0, Target DB version: 2"
         (logged "Running initial database setup..." w)) = Returned tt w1 /\
    tasks (db w1) =
      tasks (db w) ++
      seed_rows (uuids w (drawn w)) (uuids w (S (drawn w)))
        (uuids w (S (S (drawn w)))) /\
    lists (db w1) = lists (db w) /\
    upgradeToVersion2 (logged "Upgrading database to version 2..." w1)
      = Returned tt w2 /\
    schema_v2 (db w2) = true /\
    tasks (db w2) =
      map (upgraded_row (match todos (db w) with
                         | Some t => t
                         | None => mkTodos false false false []
                         end)) (tasks (db w)) ++
      map (TodoRow.set_listId (Some "default-list"))
        (seed_rows (uuids w (drawn w)) (uuids w (S (drawn w)))
           (uuids w (S (S (drawn w))))) /\
    lists (db w2) =
      (if mem_string "default-list" (map TodoList.id (lists (db w)))
       then lists (db w)
       else lists (db w) ++ [default_list]) /\
    user_version (db w2) = 0 /\
    migrateDB w = Returned tt (marked 2 w2).
Proof.
  destruct w as [[v j t l] c u n clk]. simpl. intros -> Hf.
  set (W0 := logged "Current DB version: 0, Target DB version: 2"
               (logged "Running initial database setup..."
                  (mkWorld (mkDB 0 j t l) c u n clk))).
  assert (Hf0 : fresh3 W0) by exact Hf.
  destruct (initializeDB_appends W0 Hf0) as [w1 [E1 [Ht1 [Hl1 Hv1]]]].
  set (W1 := logged "Upgrading database to version 2..." w1).
  assert (Ht1' : todos (db W1) = todos (db w1)) by reflexivity.
  rewrite Ht1 in Ht1'.
  destruct (upgradeToVersion2_keeps_lists W1 _ Ht1')
    as [w2 [E2 [Hv2 [Hs2 [Ht2 Hl2]]]]].
  exists w1, w2.
  split; [exact E1|].
  split; [unfold tasks; rewrite Ht1; reflexivity|].
  split; [unfold lists; rewrite Hl1; reflexivity|].
  split; [exact E2|]. split; [exact Hs2|].
  split.
  { rewrite Ht2. cbn [rows set_rows]. unfold W0, logged. simpl.
    rewrite map_app. apply f_equal2.
    - unfold tasks. simpl.
      destruct t as [[hl hn hd rs]|]; reflexivity.
    - destruct t as [[hl hn hd rs]|]; [destruct hl, hn, hd|]; reflexivity. }
  split.
  { rewrite Hl2. unfold W1, logged. simpl. unfold lists. rewrite Hl1.
    reflexivity. }
  split.
  { rewrite Hv2. unfold W1, logged. simpl. rewrite Hv1. reflexivity. }
  unfold migrateDB. run.
  match goal with
  | |- context [initializeDB ?W] => change W with W0
  end.
  rewrite E1.
  unfold W1, logged in E2. unfold console_log, world_of in E2. simpl in E2.
  destruct w1 as [d1 c1 u1 n1 clk1]. simpl in *. rewrite E2.
  destruct w2 as [[v2 j2 t2 ls2] c2 u2 n2 clk2]. reflexivity.
Qed.

(** From version 1 with table [todos]: the second step, then the
    marker. *)
Lemma migrateDB_from_1_path {JD : JsDate} (w : World) (t : TodosTable) :
  user_version (db w) = 1 -> todos (db w) = Some t ->
  exists w2,
    upgradeToVersion2 (logged "Upgrading database to version 2..." w)
      = Returned tt w2 /\
    schema_v2 (db w2) = true /\
    tasks (db w2) = map (upgraded_row t) (rows t) /\
    lists (db w2) =
      (if mem_string "default-list" (map TodoList.id (lists (db w)))
       then lists (db w)
       else lists (db w) ++ [default_list]) /\
    user_version (db w2) = 1 /\
    migrateDB w = Returned tt (marked 2 w2).
Proof.
  destruct w as [[v j t0 l] c u n clk]. simpl. intros -> ->.
  set (W1 := logged "Upgrading database to version 2..."
               (mkWorld (mkDB 1 j (Some t) l) c u n clk)).
  destruct (upgradeToVersion2_keeps_lists W1 t eq_refl)
    as [w2 [E2 [Hv2 [Hs2 [Ht2 Hl2]]]]].
  exists w2. split; [exact E2|]. split; [exact Hs2|]. split; [exact Ht2|].
  split; [exact Hl2|]. split; [exact Hv2|].
  unfold migrateDB. run.
  unfold W1, logged in E2. unfold console_log, world_of in E2. simpl in E2.
  rewrite E2.
  destruct w2 as [[v2 j2 t2 ls2] c2 u2 n2 clk2]. reflexivity.
Qed.

(** From version 1 without table [todos]: the second step throws and
    the marker is not written. *)
Lemma migrateDB_from_1_stops {JD : JsDate} (w : World) :
  user_version (db w) = 1 -> todos (db w) = None ->
  exists w2,
    upgradeToVersion2 (logged "Upgrading database to version 2..." w)
      = Thrown w2 /\
    user_version (db w2) = 1 /\
    migrateDB w = Thrown w2.
Proof.
  destruct w as [[v j t0 l] c u n clk]. simpl. intros -> ->.
  set (W1 := logged "Upgrading database to version 2..."
               (mkWorld (mkDB 1 j None l) c u n clk)).
  destruct (upgradeToVersion2_no_todos W1 eq_refl)
    as [w2 [E2 [Hv2 _]]].
  exists w2. split; [exact E2|]. split; [exact Hv2|].
  unfold migrateDB. run.
  unfold W1, logged in E2. unfold console_log, world_of in E2. simpl in E2.
  rewrite E2. reflexivity.
Qed.



(** ** Stores the layer works on, across writes *)

(** X13. The stores the layer works on are closed under its writes.  When
    the store has the schema of version 2, a unique key in [todos] and no
    empty string as [notes] or [dueDate], it still has after any sequence
    of write operations, each returning or throwing. *)
Theorem store_ok_kept {JD : JsDate} (cs : list dal_write) (w : World) :
  store_ok (db w) ->
  store_ok (db (fold_left (fun w c => after_write c w) cs w)).
Proof.
  revert w. induction cs as [|c cs IH]; intros w H; [exact H|].
  cbn [fold_left]. apply IH. now apply store_ok_after_write.
Qed.

Lemma store_ok_kept_witness :
  store_ok (db (fold_left (fun w c => after_write c w)
                  [CreateList "Work";
                   CreateTodo "Buy milk" (Some "default-list") (Some "") None;
                   UpdateTodoStatus "id-0" true;
                   UpdateTodo "id-1" (mkUpdates None (Some "") None None)]
                  migrated_world)).
Proof.
  apply (store_ok_kept _ migrated_world). exact migrated_world_ok.
Defined.

(** * Properties of the screens *)

(** ** The list shown on the task screen *)

Lemma insert_sorted_perm {A : Type} (compare : A -> A -> Z) (x : A)
  (l : list A) :
  Permutation (x :: l) (insert_sorted compare x l).
Proof.
  induction l as [|y l IH]; simpl; [apply Permutation_refl|].
  destruct (compare x y <=? 0); [apply Permutation_refl|].
  eapply perm_trans; [apply perm_swap|]. now apply perm_skip.
Qed.

Lemma array_sort_perm {A : Type} (compare : A -> A -> Z) (l : list A) :
  Permutation l (array_sort compare l).
Proof.
  induction l as [|x l IH]; simpl; [apply perm_nil|].
  eapply perm_trans; [apply perm_skip, IH | apply insert_sorted_perm].
Qed.

Lemma insert_sorted_sorted {A : Type} (compare : A -> A -> Z)
  (R : A -> A -> Prop) (x : A) (l : list A) :
  (forall a b, compare a b <= 0 <-> R a b) ->
  (forall a b, R a b \/ R b a) ->
  Sorted R l -> Sorted R (insert_sorted compare x l).
Proof.
  intros Hc Ht. induction l as [|y l IH]; simpl; intro H.
  - repeat constructor.
  - destruct (Z.leb_spec (compare x y) 0) as [L|G].
    + constructor; [assumption|]. constructor. now apply Hc.
    + inversion H as [|? ? Hs Hh]; subst.
      constructor; [now apply IH|].
      assert (Hyx : R y x).
      { destruct (Ht x y) as [Hxy|Hyx]; [|assumption].
        apply Hc in Hxy. lia. }
      destruct l as [|z l]; simpl.
      * now constructor.
      * destruct (compare x z <=? 0); constructor;
          [assumption|]. now inversion Hh.
Qed.

Lemma array_sort_sorted {A : Type} (compare : A -> A -> Z)
  (R : A -> A -> Prop) (l : list A) :
  (forall a b, compare a b <= 0 <-> R a b) ->
  (forall a b, R a b \/ R b a) ->
  (forall a b c, R a b -> R b c -> R a c) ->
  StronglySorted R (array_sort compare l).
Proof.
  intros Hc Ht Htr. apply Sorted_StronglySorted; [exact Htr|].
  induction l as [|x l IH]; simpl; [constructor|].
  now apply insert_sorted_sorted.
Qed.

Lemma compareTodos_shown_before {JD : JsDate} {JT : JsTime}
  (a b : TodoItem) :
  compareTodos a b <= 0 <-> shown_before a b.
Proof.
  unfold compareTodos, shown_before, has_dueDate_item.
  destruct (is_done a), (is_done b), (item_dueDate a), (item_dueDate b);
    simpl; intuition (try discriminate; try lia).
Qed.

Lemma shown_before_total {JD : JsDate} {JT : JsTime} (a b : TodoItem) :
  shown_before a b \/ shown_before b a.
Proof.
  unfold shown_before.
  destruct (is_done a), (is_done b), (item_dueDate a), (item_dueDate b);
    simpl; intuition (try lia);
    match goal with
    | |- context [getTime ?x <= getTime ?y] =>
        destruct (Z.le_ge_cases (getTime x) (getTime y)); intuition lia
    end.
Qed.

Lemma shown_before_trans {JD : JsDate} {JT : JsTime} (a b c : TodoItem) :
  shown_before a b -> shown_before b c -> shown_before a c.
Proof.
  unfold shown_before.
  destruct (is_done a), (is_done b), (is_done c),
    (item_dueDate a), (item_dueDate b), (item_dueDate c);
    simpl; intuition (try discriminate; try lia).
Qed.

(** X14. The list shown on the task screen holds the tasks that pass the
    filter chosen and nothing else, each as often as the screen holds it:
    all of them, those not done, or those done. *)
Theorem filteredAndSortedTodos_shows {JD : JsDate} {JT : JsTime}
  (todos : list TodoItem) (filter : FilterOptions) :
  Permutation (List.filter (shown_by filter) todos)
    (filteredAndSortedTodos todos filter) /\
  (forall todo,
     In todo (filteredAndSortedTodos todos filter) <->
     In todo todos /\
     match filter with
     | FilterAll => True
     | FilterPending => item_done todo = 0
     | FilterDone => item_done todo <> 0
     end).
Proof.
  split; [apply array_sort_perm|]. intro todo.
  assert (P : Permutation (List.filter (shown_by filter) todos)
                (filteredAndSortedTodos todos filter))
    by apply array_sort_perm.
  split.
  - intro H. apply (Permutation_in _ (Permutation_sym P)) in H.
    apply filter_In in H. destruct H as [Hin Hs]. split; [assumption|].
    unfold shown_by, is_done in Hs.
    destruct filter; [exact I| |];
      destruct (Z.eqb_spec (item_done todo) 0); simpl in Hs;
        congruence.
  - intros [Hin Hs]. apply (Permutation_in _ P). apply filter_In.
    split; [assumption|]. unfold shown_by, is_done.
    destruct filter; [reflexivity| |];
      destruct (Z.eqb_spec (item_done todo) 0); simpl; congruence.
Qed.

(** X15. The list shown is in this order: every task comes before the
    tasks that follow it in the sense of [shown_before].  So no task that
    is done is shown above one that is not; among tasks equally done, none
    without a due date is shown above one with a due date, those with one
    are shown by due date, the earliest first, and those without by
    creation time, the latest first. *)
Theorem filteredAndSortedTodos_order {JD : JsDate} {JT : JsTime}
  (todos : list TodoItem) (filter : FilterOptions) :
  StronglySorted shown_before (filteredAndSortedTodos todos filter).
Proof.
  apply array_sort_sorted.
  - apply compareTodos_shown_before.
  - apply shown_before_total.
  - apply shown_before_trans.
Qed.

(** ** The task screen and the store *)

Lemma find_task_unique (r : TodoRow.t) (d : DB) :
  NoDup (map TodoRow.id (tasks d)) -> In r (tasks d) ->
  find_task (TodoRow.id r) d = Some r.
Proof.
  intros Hnd Hin. unfold find_task. rewrite <- hd_error_filter_find.
  now rewrite (filter_id_unique r _ Hnd Hin).
Qed.

Lemma updateTodoStatus_existing {JD : JsDate} (w : World) (r : TodoRow.t)
  (dn : bool) :
  store_ok (db w) -> In r (tasks (db w)) ->
  updateTodoStatus (TodoRow.id r) dn w =
    Returned (Some (toTodoItem (TodoRow.set_done (if dn then 1 else 0) r)))
      (set_db (set_tasks
                 (replace_task (TodoRow.id r)
                    (TodoRow.set_done (if dn then 1 else 0)) (tasks (db w)))
                 (db w)) w).
Proof.
  intros [Hs [Hnd _]] Hin. rewrite updateTodoStatus_run. cbv zeta.
  rewrite (find_task_unique r _ Hnd Hin).
  destruct (schema_v2_shape _ Hs) as [rs [l E]].
  destruct w as [d c us n clk]. cbn [db] in *. rewrite E. reflexivity.
Qed.

Lemma store_ok_set_done (d : DB) (i : string) (v : Z) :
  store_ok d ->
  store_ok (set_tasks (replace_task i (TodoRow.set_done v) (tasks d)) d).
Proof.
  intros [Hs [Hnd Hok]]. unfold store_ok.
  rewrite schema_v2_set_tasks, tasks_set_tasks by exact Hs.
  split; [exact Hs|]. split.
  - rewrite replace_task_ids; [exact Hnd | reflexivity].
  - apply row_ok_replace; [|exact Hok]. intros q Hq. exact Hq.
Qed.

Lemma map_replace_item {JD : JsDate} (r : TodoRow.t)
  (f : TodoRow.t -> TodoRow.t) (rs : list TodoRow.t) :
  NoDup (map TodoRow.id rs) -> In r rs ->
  (forall q, TodoRow.id (f q) = TodoRow.id q) ->
  map toTodoItem (replace_task (TodoRow.id r) f rs) =
  map (fun t => if (item_id t =? item_id (toTodoItem (f r)))%string
                then toTodoItem (f r) else t) (map toTodoItem rs).
Proof.
  intros Hnd Hin Hf. unfold replace_task. rewrite !map_map.
  apply map_ext_in. intros q Hq. cbn [item_id toTodoItem]. rewrite Hf.
  destruct (String.eqb_spec (TodoRow.id q) (TodoRow.id r)) as [E|_];
    [|reflexivity].
  now rewrite (unique_by_id q r rs Hnd Hq Hin E).
Qed.

Lemma find_item_row {JD : JsDate} (i : string) (rs : list TodoRow.t)
  (todo : TodoItem) :
  find (fun t => (item_id t =? i)%string) (map toTodoItem rs) = Some todo ->
  exists r, In r rs /\ TodoRow.id r = i /\ todo = toTodoItem r.
Proof.
  induction rs as [|q rs IH]; simpl; [discriminate|].
  destruct (String.eqb_spec (TodoRow.id q) i) as [E|_].
  - intro H. injection H as <-. exists q. auto.
  - intro H. destruct (IH H) as [r [Hin Hr]]. exists r. auto.
Qed.

Lemma toggleTodo_run {JD : JsDate} (ui : UI TodoListState) (w : World)
  (r : TodoRow.t) :
  store_ok (db w) -> In r (tasks (db w)) -> mirrors ui w ->
  toggleTodo (st_todos (state ui)) (TodoRow.id r) ui w =
    let v := if (TodoRow.done r =? 0) then 1 else 0 in
    let rs := replace_task (TodoRow.id r) (TodoRow.set_done v)
                (tasks (db w)) in
    Settled tt
      (mkUI (setTodos (map toTodoItem rs) (state ui)) (alerts ui))
      (set_db (set_tasks rs (db w)) w).
Proof.
  intros Hok Hin Hm. unfold mirrors in Hm. cbv zeta.
  unfold toggleTodo, h_try. rewrite Hm.
  destruct (find _ (map toTodoItem (tasks (db w)))) as [todo|] eqn:Ef.
  - destruct (find_item_row _ _ _ Ef) as [q [Hq [Eq ->]]].
    destruct Hok as [Hs [Hnd Hrow]].
    rewrite (unique_by_id q r _ Hnd Hq Hin Eq).
    unfold h_bind, await.
    rewrite (updateTodoStatus_existing w r _ (conj Hs (conj Hnd Hrow)) Hin).
    unfold is_done. cbn [item_done toTodoItem].
    destruct (TodoRow.done r =? 0); cbn [negb];
      unfold set_state; cbn [state alerts];
      rewrite <- (map_replace_item r _ _ Hnd Hin) by reflexivity;
      reflexivity.
  - exfalso.
    assert (H : In (toTodoItem r) (map toTodoItem (tasks (db w))))
      by now apply in_map.
    apply (find_none _ _ Ef) in H. cbn [item_id toTodoItem] in H.
    now rewrite String.eqb_refl in H.
Qed.

(** X16. While the task screen mirrors the store, toggling a task on it
    twice brings both back: after the first [toggleTodo] the task is done
    in the store and on the screen if it was not before, and not done if it
    was; after the second, the store and the list on the screen are what
    they were.  No alert is shown. *)
Theorem toggleTodo_twice {JD : JsDate} (ui : UI TodoListState) (w : World)
  (r : TodoRow.t) :
  store_ok (db w) ->
  In r (tasks (db w)) ->
  TodoRow.done r = 0 \/ TodoRow.done r = 1 ->
  mirrors ui w ->
  exists ui1 w1 ui2 w2,
    toggleTodo (st_todos (state ui)) (TodoRow.id r) ui w = Settled tt ui1 w1 /\
    find_task (TodoRow.id r) (db w1)
      = Some (TodoRow.set_done (1 - TodoRow.done r) r) /\
    mirrors ui1 w1 /\
    toggleTodo (st_todos (state ui1)) (TodoRow.id r) ui1 w1
      = Settled tt ui2 w2 /\
    db w2 = db w /\
    st_todos (state ui2) = st_todos (state ui) /\
    alerts ui2 = alerts ui.
Proof.
  intros Hok Hin Hd Hm.
  pose proof (toggleTodo_run ui w r Hok Hin Hm) as E1. cbv zeta in E1.
  set (v := if TodoRow.done r =? 0 then 1 else 0) in *.
  assert (Hv : v = 1 - TodoRow.done r).
  { unfold v. destruct Hd as [-> | ->]; reflexivity. }
  set (rs1 := replace_task (TodoRow.id r) (TodoRow.set_done v)
                (tasks (db w))) in *.
  set (w1 := set_db (set_tasks rs1 (db w)) w) in *.
  set (ui1 := mkUI (setTodos (map toTodoItem rs1) (state ui)) (alerts ui))
    in *.
  destruct Hok as [Hs [Hnd Hrow]].
  assert (D1 : db w1 = set_tasks rs1 (db w)) by (destruct w; reflexivity).
  assert (T1 : tasks (db w1) = rs1)
    by (rewrite D1; now apply tasks_set_tasks).
  assert (Hok1 : store_ok (db w1)).
  { rewrite D1. apply store_ok_set_done. repeat split; assumption. }
  assert (Hin1 : In (TodoRow.set_done v r) (tasks (db w1)))
    by (rewrite T1; now apply In_replace_task).
  assert (Hm1 : mirrors ui1 w1) by (unfold mirrors; now rewrite T1).
  pose proof (toggleTodo_run ui1 w1 (TodoRow.set_done v r) Hok1 Hin1 Hm1)
    as E2.
  cbv zeta in E2. cbn [TodoRow.id TodoRow.done TodoRow.set_done] in E2.
  assert (Hback : replace_task (TodoRow.id r)
                    (TodoRow.set_done (if v =? 0 then 1 else 0))
                    (tasks (db w1)) = tasks (db w)).
  { rewrite T1. unfold rs1.
    rewrite replace_task_twice by reflexivity.
    rewrite (replace_task_ext _ _ (fun q => q)); [apply replace_task_id|].
    intros q Hq E. rewrite (unique_by_id q r _ Hnd Hq Hin E).
    unfold v. destruct r as [ri rx rd rc rl rn rdu]. cbn in *.
    destruct Hd as [-> | ->]; reflexivity. }
  rewrite Hback in E2.
  eexists. eexists. eexists. eexists.
  split; [exact E1|]. split.
  - rewrite <- Hv. rewrite <- (find_task_unique (TodoRow.set_done v r) (db w1)).
    + reflexivity.
    + now destruct Hok1 as [_ [H _]].
    + exact Hin1.
  - split; [exact Hm1|]. split; [exact E2|].
    split; [|split].
    + rewrite D1. cbn [db set_db]. destruct w as [d c us n clk].
      cbn [db set_db] in *. rewrite set_tasks_twice. apply set_tasks_same.
    + cbn [state st_todos setTodos]. symmetry. exact Hm.
    + reflexivity.
Qed.

Lemma toggleTodo_twice_witness :
  exists ui1 w1 ui2 w2,
    toggleTodo (st_todos (state task_screen)) "id-0" task_screen migrated_world
      = Settled tt ui1 w1 /\
    find_task "id-0" (db w1) = Some (TodoRow.set_done 1 seeded_task_1) /\
    mirrors ui1 w1 /\
    toggleTodo (st_todos (state ui1)) "id-0" ui1 w1 = Settled tt ui2 w2 /\
    db w2 = db migrated_world /\
    st_todos (state ui2) = st_todos (state task_screen) /\
    alerts ui2 = [].
Proof.
  apply (toggleTodo_twice task_screen migrated_world seeded_task_1).
  - exact migrated_world_ok.
  - rewrite migrated_world_tasks. simpl. auto.
  - left. reflexivity.
  - reflexivity.
Defined.

Lemma loadData_run {JD : JsDate} (selectedListId : option string)
  (ui : UI TodoListState) (w : World) :
  schema_v2 (db w) = true ->
  loadData selectedListId ui w =
    let lists' := order_by_name (lists (db w)) in
    let s1 := setLists lists' (state ui) in
    let s2 :=
      if truthy selectedListId then
        setListName
          (name_or_Lista
             (find (fun list =>
                      (TodoList.id list =? nullish selectedListId "")%string)
                lists')) s1
      else s1 in
    Settled tt
      (mkUI (setTodos
               (map toTodoItem
                  (if truthy selectedListId
                   then tasks_of_list (nullish selectedListId "") (db w)
                   else tasks (db w))) s2)
         (alerts ui)) w.
Proof.
  intro Hs. destruct (schema_v2_shape _ Hs) as [rs [l E]].
  unfold loadData, h_try, h_bind, await, set_state, h_ret.
  rewrite getAllLists_run.
  destruct w as [d c us n clk]. cbn [db] in *. rewrite E.
  cbn [todo_lists lists].
  destruct (truthy selectedListId) eqn:T; cbv zeta; cbn [state alerts].
  - rewrite getTodosByList_run, T. cbn [db todos has_listId]. reflexivity.
  - rewrite getAllTodos_run. cbn [db todos rows tasks]. reflexivity.
Qed.

(** X17. The task screen keeps mirroring the store.  When the screen holds
    the tasks of the store, it still does after [toggleTodo] on any id and
    after [addTodo] with any arguments, whether the layer returned or threw;
    and [loadData] with no list selected makes any screen mirror the store.
    None of the three handlers rejects. *)
Theorem task_screen_mirrors_store {JD : JsDate} (ui : UI TodoListState)
  (w : World) :
  store_ok (db w) ->
  (mirrors ui w ->
   forall id,
     exists ui' w',
       toggleTodo (st_todos (state ui)) id ui w = Settled tt ui' w' /\
       mirrors ui' w') /\
  (mirrors ui w ->
   forall text listId notes dueDate,
     exists ui' w',
       addTodo (st_todos (state ui)) text listId notes dueDate ui w
         = Settled tt ui' w' /\
       mirrors ui' w') /\
  (exists ui', loadData None ui w = Settled tt ui' w /\ mirrors ui' w).
Proof.
  intro Hok. split; [|split].
  - intros Hm id.
    destruct (find (fun t => (item_id t =? id)%string) (st_todos (state ui)))
      as [todo|] eqn:Ef.
    + pose proof Ef as Ef'. rewrite Hm in Ef'.
      destruct (find_item_row _ _ _ Ef') as [r [Hin [<- _]]].
      pose proof (toggleTodo_run ui w r Hok Hin Hm) as E. cbv zeta in E.
      eexists. eexists. split; [exact E|].
      unfold mirrors. cbn [state st_todos setTodos].
      destruct w as [d c us n clk]. cbn [db set_db].
      destruct Hok as [Hs _]. now rewrite tasks_set_tasks.
    + exists ui, w. split; [|exact Hm].
      unfold toggleTodo, h_try. rewrite Ef. reflexivity.
  - intros Hm text listId notes dueDate.
    unfold addTodo, h_try, h_bind, await_row.
    rewrite createTodo_run. cbv zeta.
    destruct Hok as [Hs _]. destruct (schema_v2_shape _ Hs) as [rs [l E]].
    destruct w as [d c us n clk]. unfold mirrors in *. cbn [db] in *.
    rewrite E in *. cbn [todos tasks rows] in *.
    change (all_columns (mkTodos true true true rs)) with true. cbv iota.
    destruct (mem_string _ _).
    + eexists. eexists. split; [reflexivity|]. exact Hm.
    + eexists. eexists. split; [reflexivity|].
      cbn [state st_todos setTodos db set_db set_tasks todos tasks rows
           set_todos set_rows].
      rewrite Hm, map_app. reflexivity.
  - destruct Hok as [Hs _]. rewrite (loadData_run None ui w Hs). cbv zeta.
    eexists. split; [reflexivity|]. reflexivity.
Qed.

Lemma task_screen_mirrors_store_witness :
  (exists ui' w',
     toggleTodo (st_todos (state task_screen)) "id-1" task_screen
       migrated_world = Settled tt ui' w' /\
     mirrors ui' w') /\
  (exists ui' w',
     addTodo (st_todos (state task_screen)) "Buy milk" "work" None None
       task_screen migrated_world = Settled tt ui' w' /\
     mirrors ui' w') /\
  (exists ui',
     loadData None task_screen migrated_world = Settled tt ui' migrated_world /\
     mirrors ui' migrated_world).
Proof.
  destruct (task_screen_mirrors_store task_screen migrated_world
              migrated_world_ok) as [T [A L]].
  split; [apply (T eq_refl "id-1")|].
  split; [apply (A eq_refl "Buy milk" "work" None None) | exact L].
Defined.

(** X18. On a store with the schema of version 2, [loadData] puts on the
    screen the lists of the store sorted by name and the tasks of the list
    selected, all the tasks when none is selected or the selection is the
    empty string; with a list selected, the title becomes the name of that
    list when the list is found and has a name, and is never empty; with
    none it is left as it is.  [loadData] shows no alert and leaves the
    world as it is. *)
Theorem loadData_loads {JD : JsDate} (selectedListId : option string)
  (ui : UI TodoListState) (w : World) :
  schema_v2 (db w) = true ->
  exists ui',
    loadData selectedListId ui w = Settled tt ui' w /\
    st_lists (state ui') = order_by_name (lists (db w)) /\
    st_todos (state ui') =
      map toTodoItem
        (match selectedListId with
         | Some l => if (l =? "")%string then tasks (db w)
                     else tasks_of_list l (db w)
         | None => tasks (db w)
         end) /\
    (truthy selectedListId = false ->
     st_listName (state ui') = st_listName (state ui)) /\
    (forall l, selectedListId = Some l -> l <> "" ->
     st_listName (state ui') <> "" /\
     forall list,
       find (fun x => (TodoList.id x =? l)%string)
         (order_by_name (lists (db w))) = Some list ->
       TodoList.name list <> "" ->
       st_listName (state ui') = TodoList.name list) /\
    st_filter (state ui') = st_filter (state ui) /\
    alerts ui' = alerts ui.
Proof.
  intro Hs. rewrite (loadData_run selectedListId ui w Hs). cbv zeta.
  eexists. split; [reflexivity|].
  destruct selectedListId as [l|]; cbn [truthy nullish].
  - destruct (String.eqb_spec l "") as [->|Hl]; cbn [negb];
      cbn [state st_lists st_todos st_listName st_filter alerts setTodos
           setLists setListName].
    + split; [reflexivity|]. split; [reflexivity|].
      split; [reflexivity|]. split; [|split; reflexivity].
      intros l0 E0 Hne. injection E0 as <-. contradiction.
    + split; [reflexivity|]. split; [reflexivity|].
      split; [discriminate|]. split; [|split; reflexivity].
      intros l0 E0 _. injection E0 as <-. split.
      * unfold name_or_Lista.
        destruct (find _ _) as [list|]; [|discriminate].
        destruct (String.eqb_spec (TodoList.name list) "");
          [discriminate | assumption].
      * intros list F N0. rewrite F. unfold name_or_Lista.
        destruct (String.eqb_spec (TodoList.name list) "");
          [contradiction | reflexivity].
  - cbn [state st_lists st_todos st_listName st_filter alerts setTodos
         setLists setListName].
    split; [reflexivity|]. split; [reflexivity|].
    split; [reflexivity|]. split; [|split; reflexivity].
    intros l E0. discriminate.
Qed.

Lemma loadData_loads_witness :
  exists ui',
    loadData (Some "default-list")
      (mkUI (mkTodoListState [] [] FilterAll "Todas as Tarefas") [])
      migrated_world = Settled tt ui' migrated_world /\
    st_todos (state ui') =
      map toTodoItem [seeded_task_1; seeded_task_2; seeded_task_3] /\
    st_listName (state ui') = "Todas as Tarefas".
Proof.
  destruct (loadData_loads (Some "default-list")
              (mkUI (mkTodoListState [] [] FilterAll "Todas as Tarefas") [])
              migrated_world) as [ui' [E [_ [T [_ [N _]]]]]].
  - vm_compute. reflexivity.
  - exists ui'. split; [exact E|]. split.
    + rewrite T. vm_compute. reflexivity.
    + destruct (N "default-list" eq_refl) as [_ H]; [discriminate|].
      apply (H default_list); [vm_compute; reflexivity | discriminate].
Defined.

(** X19. The screen of one list does not follow a task added to another.
    On a store with the schema of version 2, with a new identifier drawn,
    when the screen holds the tasks of a list, [addTodo] appends the new
    task to the screen whatever list it was created for; [loadData] for the
    list of the screen, run next, keeps it there only if it was created for
    that list. *)
Theorem addTodo_on_list_screen {JD : JsDate} (ui : UI TodoListState)
  (w : World) (l text l' : string) (notes : option string)
  (dueDate : option Date) :
  schema_v2 (db w) = true ->
  ~ In (uuids w (drawn w)) (map TodoRow.id (tasks (db w))) ->
  l <> "" ->
  st_todos (state ui) = map toTodoItem (tasks_of_list l (db w)) ->
  exists item ui1 w1 ui2,
    addTodo (st_todos (state ui)) text l' notes dueDate ui w
      = Settled tt ui1 w1 /\
    st_todos (state ui1) = st_todos (state ui) ++ [item] /\
    item_listId item = Some l' /\
    In item (map toTodoItem (tasks (db w1))) /\
    loadData (Some l) ui1 w1 = Settled tt ui2 w1 /\
    st_todos (state ui2) =
      (if (l' =? l)%string then st_todos (state ui) ++ [item]
       else st_todos (state ui)).
Proof.
  intros Hs Hi Hl Hm. destruct (schema_v2_shape _ Hs) as [rs [ls E]].
  unfold addTodo, h_try, h_bind, await_row.
  rewrite createTodo_run. cbv zeta.
  destruct w as [d c us n clk]. cbn [db uuids drawn] in *.
  rewrite E in *. unfold tasks_of_list, tasks in *. cbn [todos rows] in *.
  change (all_columns (mkTodos true true true rs)) with true. cbv iota.
  unfold todo_ids. cbn [rows]. rewrite (mem_string_notin _ _ Hi).
  unfold set_state. cbn [state alerts].
  eexists. eexists. eexists. eexists.
  split; [reflexivity|]. cbn [state st_todos setTodos].
  split; [reflexivity|]. split; [reflexivity|]. split.
  - cbn [db set_db set_tasks todos set_todos set_rows rows].
    rewrite map_app. apply in_or_app. right. now left.
  - rewrite loadData_run by reflexivity. cbv zeta.
    split; [reflexivity|].
    cbn [truthy nullish state st_todos setTodos setLists setListName].
    destruct (String.eqb_spec l "") as [|_]; [contradiction|]. cbn [negb].
    unfold tasks_of_list, tasks.
    cbn [db set_db set_tasks todos set_todos set_rows rows].
    rewrite filter_app, map_app, Hm. cbn [filter TodoRow.listId nullish].
    destruct (l' =? l)%string; cbn [map]; [reflexivity|].
    now rewrite app_nil_r.
Qed.

Lemma addTodo_on_list_screen_witness :
  exists item ui1 w1 ui2,
    addTodo [] "Buy milk" "default-list" None None
      (mkUI (mkTodoListState [] [] FilterAll "Work") []) migrated_world
      = Settled tt ui1 w1 /\
    st_todos (state ui1) = [item] /\
    loadData (Some "work") ui1 w1 = Settled tt ui2 w1 /\
    st_todos (state ui2) = [].
Proof.
  destruct (addTodo_on_list_screen
              (mkUI (mkTodoListState [] [] FilterAll "Work") [])
              migrated_world "work" "Buy milk" "default-list" None None)
    as [item [ui1 [w1 [ui2 [E [T [_ [_ [L T2]]]]]]]]].
  - vm_compute. reflexivity.
  - rewrite migrated_world_tasks. vm_compute. intuition discriminate.
  - discriminate.
  - vm_compute. reflexivity.
  - exists item, ui1, w1, ui2. repeat split; assumption.
Defined.

(** ** The lists screen *)

(** X20. [handleCreateList] creates nothing for a name that trims to the
    empty string: it shows one alert and leaves the component and the
    world as they are.  For any other name, on a store with table
    [todo_lists] and with a new identifier drawn, it stores a list under
    the trimmed name, appends it to the lists on the screen, clears the
    input and closes the dialog; the screen, if it held the sorted lists of
    the store before, then holds the lists [getAllLists] would return now,
    though the new one last and not at its place in the order of names. *)
Theorem handleCreateList_creates {JD : JsDate} (trim : string -> string)
  (ui : UI ListsState) (w : World) (newListName : string) :
  todo_lists (db w) <> None ->
  ~ In (uuids w (drawn w)) (map TodoList.id (lists (db w))) ->
  (trim newListName = "" ->
   handleCreateList trim (ls_lists (state ui)) newListName ui w =
     Settled tt
       (mkUI (state ui)
          (alerts ui ++ [("Erro", "Por favor, digite um nome para a lista")]))
       w) /\
  (trim newListName <> "" ->
   exists ui' w' after,
     handleCreateList trim (ls_lists (state ui)) newListName ui w
       = Settled tt ui' w' /\
     lists (db w') =
       lists (db w) ++ [TodoList.mk (uuids w (drawn w)) (trim newListName)] /\
     ls_lists (state ui') =
       ls_lists (state ui)
       ++ [TodoList.mk (uuids w (drawn w)) (trim newListName)] /\
     ls_newListName (state ui') = "" /\
     ls_modalVisible (state ui') = false /\
     alerts ui' = alerts ui ++ [("Sucesso", "Lista criada com sucesso!")] /\
     getAllLists w' = Returned after w' /\
     (ls_lists (state ui) = order_by_name (lists (db w)) ->
      Permutation (ls_lists (state ui')) after)).
Proof.
  intros Hl Hi. unfold handleCreateList. split.
  - intros ->. reflexivity.
  - intro Hn. destruct (String.eqb_spec (trim newListName) "") as [|_];
      [contradiction|].
    unfold h_try, h_bind, await_row. rewrite createList_run. cbv zeta.
    destruct w as [[v j t [l|]] c us n clk]; cbn [db todo_lists] in *;
      [|congruence].
    unfold lists in *. cbn [todo_lists uuids drawn] in *.
    rewrite (mem_string_notin _ _ Hi).
    unfold set_state, alert. cbn [state alerts].
    eexists. eexists. eexists. split; [reflexivity|].
    cbn [state alerts ls_lists ls_newListName ls_modalVisible ls_setLists
         ls_setNewListName ls_setModalVisible db set_db set_lists
         todo_lists set_todo_lists].
    split; [reflexivity|]. split; [reflexivity|]. split; [reflexivity|].
    split; [reflexivity|]. split; [reflexivity|].
    rewrite getAllLists_run. cbn [db todo_lists].
    split; [reflexivity|]. intros ->.
    eapply perm_trans; [|apply order_by_name_perm].
    apply Permutation_app_tail. apply Permutation_sym, order_by_name_perm.
Qed.

Lemma handleCreateList_creates_witness :
  exists ui' w',
    handleCreateList (fun s => s) [default_list] "Apple"
      (mkUI (mkListsState [default_list] true "Apple") []) migrated_world
      = Settled tt ui' w' /\
    ls_lists (state ui') = [default_list; TodoList.mk "id-3" "Apple"] /\
    value_of (getAllLists w')
      = Some [TodoList.mk "id-3" "Apple"; default_list].
Proof.
  destruct (handleCreateList_creates (fun s => s)
              (mkUI (mkListsState [default_list] true "Apple") [])
              migrated_world "Apple")
    as [_ H].
  - vm_compute. discriminate.
  - vm_compute. intuition discriminate.
  - destruct H as [ui' [w' [after [E [L [S [_ [_ [_ [G _]]]]]]]]]];
      [discriminate|].
    exists ui', w'. split; [exact E|]. split; [exact S|].
    rewrite getAllLists_run in *. destruct (todo_lists (db w')) as [l|] eqn:El;
      [|discriminate].
    unfold lists in L. rewrite El in L. rewrite L. reflexivity.
Defined.

(** ** The details screen *)

Lemma set_db_same {JD : JsDate} (w : World) : set_db (db w) w = w.
Proof. now destruct w. Qed.

Lemma loadTask_run {JD : JsDate} (ui : UI TaskDetailState) (w : World)
  (r : TodoRow.t) :
  store_ok (db w) -> In r (tasks (db w)) ->
  loadTask (TodoRow.id r) ui w =
    Settled tt (mkUI (td_setTask (Some (toTodoItem r)) (state ui)) (alerts ui))
      w.
Proof.
  intros [Hs [Hnd _]] Hin. unfold loadTask, h_bind, await.
  rewrite (select_existing w r Hs Hnd Hin). reflexivity.
Qed.

Lemma handleUpdate_run {JD : JsDate} (ui : UI TaskDetailState) (w : World)
  (r : TodoRow.t) (task : TodoItem) :
  store_ok (db w) -> In r (tasks (db w)) -> item_id task = TodoRow.id r ->
  handleUpdate (Some task) ui w =
    let u := mkUpdates (Some (item_text task)) (item_notes task)
               (item_dueDate task) (item_listId task) in
    Settled tt
      (mkUI (td_setEditing false
               (td_setTask (Some (toTodoItem (merged_row u r r))) (state ui)))
         (alerts ui ++ [("Sucesso", "Tarefa atualizada!")]))
      (set_db (set_tasks
                 (replace_task (TodoRow.id r) (merged_row u r) (tasks (db w)))
                 (db w)) w).
Proof.
  intros [Hs [Hnd _]] Hin Hid. cbv zeta.
  unfold handleUpdate, h_try, h_bind, await. rewrite Hid, updateTodo_run.
  rewrite (find_task_unique r _ Hnd Hin).
  destruct (schema_v2_shape _ Hs) as [rs [l E]].
  destruct w as [d c us n clk]. cbn [db] in *. rewrite E.
  reflexivity.
Qed.

Lemma world_with_dueDate_tasks :
  tasks (db world_with_dueDate) =
    [seeded_task_1; seeded_task_2; seeded_task_3; task_with_dueDate].
Proof. vm_compute. reflexivity. Qed.

Lemma world_with_dueDate_ok : store_ok (db world_with_dueDate).
Proof.
  unfold store_ok. rewrite world_with_dueDate_tasks.
  split; [vm_compute; reflexivity|]. split.
  - simpl. repeat constructor; simpl; intuition discriminate.
  - repeat constructor; discriminate.
Defined.

Lemma store_ok_merged {JD : JsDate} (d : DB) (r : TodoRow.t) (u : Updates) :
  store_ok d ->
  store_ok (set_tasks (replace_task (TodoRow.id r) (merged_row u r) (tasks d))
              d).
Proof.
  intros [Hs [Hnd Hok]]. unfold store_ok.
  rewrite schema_v2_set_tasks, tasks_set_tasks by exact Hs.
  split; [exact Hs|]. split.
  - rewrite replace_task_ids; [exact Hnd | reflexivity].
  - apply row_ok_replace; [|exact Hok]. intros q _. split.
    + rewrite merged_row_notes. apply or_null_ok.
    + rewrite merged_row_dueDate. destruct (upd_dueDate u) as [x|].
      * intro E. injection E as E. now apply toISOString_nonempty in E.
      * apply truthy_ok.
Qed.

(** X21. What the details screen saves.  For every task [r] of a store the
    layer works on, when the screen holds a task with the key of [r],
    [handleUpdate] settles, stores the text of the screen, stores the list,
    the notes and the due date of the screen where the screen has one and
    keeps the stored one where it has none, with NULL for empty notes; it
    keeps the key, the status and the creation time, leaves every other
    task as it is, puts the stored task on the screen, leaves the editing
    mode and shows the success alert.  The store is still one the layer
    works on. *)
Theorem handleUpdate_saves {JD : JsDate} (ui : UI TaskDetailState)
  (w : World) (r : TodoRow.t) (task : TodoItem) :
  store_ok (db w) -> In r (tasks (db w)) -> item_id task = TodoRow.id r ->
  exists r' ui' w',
    handleUpdate (Some task) ui w = Settled tt ui' w' /\
    store_ok (db w') /\
    find_task (TodoRow.id r) (db w') = Some r' /\
    map TodoRow.id (tasks (db w')) = map TodoRow.id (tasks (db w)) /\
    (forall q, In q (tasks (db w)) -> TodoRow.id q <> TodoRow.id r ->
               find_task (TodoRow.id q) (db w') = Some q) /\
    TodoRow.id r' = TodoRow.id r /\
    TodoRow.done r' = TodoRow.done r /\
    TodoRow.createdAt r' = TodoRow.createdAt r /\
    TodoRow.text r' = item_text task /\
    TodoRow.listId r' = match item_listId task with
                        | Some l => Some l
                        | None => TodoRow.listId r
                        end /\
    TodoRow.notes r' = match item_notes task with
                       | Some n => or_null (Some n)
                       | None => TodoRow.notes r
                       end /\
    TodoRow.dueDate r' = match item_dueDate task with
                         | Some d => Some (toISOString d)
                         | None => TodoRow.dueDate r
                         end /\
    td_task (state ui') = Some (toTodoItem r') /\
    td_editing (state ui') = false /\
    alerts ui' = alerts ui ++ [("Sucesso", "Tarefa atualizada!")].
Proof.
  intros Hok Hin Hid. pose proof Hok as [Hs [Hnd Hrows]].
  assert (Hr : row_ok r) by (rewrite Forall_forall in Hrows; now apply Hrows).
  set (u := mkUpdates (Some (item_text task)) (item_notes task)
              (item_dueDate task) (item_listId task)).
  exists (merged_row u r r). eexists. eexists.
  split; [apply (handleUpdate_run ui w r task Hok Hin Hid)|].
  cbv zeta. fold u.
  assert (D : db (set_db (set_tasks
                 (replace_task (TodoRow.id r) (merged_row u r) (tasks (db w)))
                 (db w)) w)
              = set_tasks
                  (replace_task (TodoRow.id r) (merged_row u r) (tasks (db w)))
                  (db w)) by now destruct w.
  rewrite D.
  assert (T : tasks (set_tasks
                 (replace_task (TodoRow.id r) (merged_row u r) (tasks (db w)))
                 (db w))
              = replace_task (TodoRow.id r) (merged_row u r) (tasks (db w)))
    by now apply tasks_set_tasks.
  split; [now apply store_ok_merged|].
  split.
  { unfold find_task. rewrite T, find_replace_task by reflexivity.
    fold (find_task (TodoRow.id r) (db w)).
    now rewrite (find_task_unique r _ Hnd Hin). }
  split; [rewrite T; now apply replace_task_ids|].
  split.
  { intros q Hq Hne. unfold find_task. rewrite T.
    assert (Hq' : In q (replace_task (TodoRow.id r) (merged_row u r)
                          (tasks (db w)))).
    { unfold replace_task. apply in_map_iff. exists q. split; [|exact Hq].
      destruct (String.eqb_spec (TodoRow.id q) (TodoRow.id r));
        [contradiction | reflexivity]. }
    assert (Hnd' : NoDup (map TodoRow.id
                            (replace_task (TodoRow.id r) (merged_row u r)
                               (tasks (db w)))))
      by (rewrite replace_task_ids; [exact Hnd | reflexivity]).
    rewrite <- T in Hq', Hnd'.
    pose proof (find_task_unique q _ Hnd' Hq') as F. unfold find_task in F.
    now rewrite T in F. }
  split; [reflexivity|]. split; [reflexivity|]. split; [reflexivity|].
  split; [reflexivity|]. split; [reflexivity|].
  split.
  { rewrite merged_row_notes. unfold u. cbn [upd_notes].
    destruct (item_notes task); [reflexivity | apply or_null_id, Hr]. }
  split.
  { rewrite merged_row_dueDate. unfold u. cbn [upd_dueDate].
    destruct (item_dueDate task); [reflexivity | apply truthy_keep, Hr]. }
  repeat split.
Qed.

Lemma handleUpdate_saves_witness :
  exists r' ui' w',
    handleUpdate
      (Some (@mkTodoItem epoch_clock "id-0" "Buy bread" 0 0%N None (Some "") None))
      details_screen world_with_dueDate = Settled tt ui' w' /\
    find_task "id-0" (db w') = Some r' /\
    TodoRow.text r' = "Buy bread" /\
    TodoRow.listId r' = Some "default-list" /\
    TodoRow.notes r' = None /\
    TodoRow.dueDate r' = None /\
    td_editing (state ui') = false.
Proof.
  destruct (handleUpdate_saves details_screen world_with_dueDate seeded_task_1
              (@mkTodoItem epoch_clock "id-0" "Buy bread" 0 0%N None (Some "") None))
    as (r' & ui' & w' & E & _ & F & _ & _ & _ & _ & _ & Ht & Hl & Hn & Hd
          & _ & He & _).
  - exact world_with_dueDate_ok.
  - rewrite world_with_dueDate_tasks. simpl. auto.
  - reflexivity.
  - exists r', ui', w'. repeat split; assumption.
Defined.

Lemma merged_row_unedited {JD : JsDate} (r : TodoRow.t) (due : option Date) :
  row_ok r ->
  TodoRow.dueDate (merged_row
     (mkUpdates (Some (TodoRow.text r)) (TodoRow.notes r) due
        (TodoRow.listId r)) r r) = TodoRow.dueDate r ->
  merged_row (mkUpdates (Some (TodoRow.text r)) (TodoRow.notes r) due
                (TodoRow.listId r)) r r = r.
Proof.
  intros [Hn Hd] E. apply TodoRow_ext; [reflexivity .. | | | exact E].
  - rewrite merged_row_listId. cbn [upd_listId].
    now destruct (TodoRow.listId r).
  - rewrite merged_row_notes. cbn [upd_notes].
    replace (match TodoRow.notes r with
             | Some n => Some n
             | None => TodoRow.notes r
             end) with (TodoRow.notes r) by now destruct (TodoRow.notes r).
    now apply or_null_id.
Qed.

Lemma replace_task_fix (r : TodoRow.t) (f : TodoRow.t -> TodoRow.t)
  (rs : list TodoRow.t) :
  NoDup (map TodoRow.id rs) -> In r rs -> f r = r ->
  replace_task (TodoRow.id r) f rs = rs.
Proof.
  intros Hnd Hin E.
  rewrite (replace_task_ext _ f (fun q => q)); [apply replace_task_id|].
  intros q Hq Hid. now rewrite (unique_by_id q r rs Hnd Hq Hin Hid).
Qed.

Lemma handleUpdate_unchanged {JD : JsDate} (ui : UI TaskDetailState)
  (w : World) (r : TodoRow.t) (due : option Date) :
  store_ok (db w) -> In r (tasks (db w)) ->
  TodoRow.dueDate (merged_row
     (mkUpdates (Some (TodoRow.text r)) (TodoRow.notes r) due
        (TodoRow.listId r)) r r) = TodoRow.dueDate r ->
  handleUpdate (Some (with_dueDate due (toTodoItem r))) ui w =
    Settled tt
      (mkUI (td_setEditing false
               (td_setTask (Some (toTodoItem r)) (state ui)))
         (alerts ui ++ [("Sucesso", "Tarefa atualizada!")])) w.
Proof.
  intros Hok Hin E. pose proof Hok as [Hs [Hnd Hrows]].
  assert (Hr : row_ok r) by (rewrite Forall_forall in Hrows; now apply Hrows).
  rewrite (handleUpdate_run ui w r _ Hok Hin) by reflexivity.
  cbv zeta. cbn [with_dueDate toTodoItem item_text item_notes item_dueDate
                 item_listId].
  pose proof (merged_row_unedited r due Hr E) as M.
  rewrite M.
  rewrite (replace_task_fix r _ _ Hnd Hin) by
    (transitivity (merged_row
        (mkUpdates (Some (TodoRow.text r)) (TodoRow.notes r) due
           (TodoRow.listId r)) r r); [reflexivity | exact M]).
  now rewrite set_tasks_same, set_db_same.
Qed.

(** X22. Opening a task on the details screen and saving it unedited
    changes nothing in the store.  For every task [r] of a store the layer
    works on whose due date is NULL or the ISO string of a date:
    [loadTask] puts the task on the screen, and [handleUpdate] on what the
    screen then holds settles with the world unchanged, the task still on
    the screen, the editing mode left and the success alert shown. *)
Theorem save_unedited_task {JD : JsDate} (ui : UI TaskDetailState)
  (w : World) (r : TodoRow.t) :
  store_ok (db w) -> In r (tasks (db w)) ->
  (TodoRow.dueDate r = None \/
   exists d, TodoRow.dueDate r = Some (toISOString d)) ->
  exists ui1 ui2,
    loadTask (TodoRow.id r) ui w = Settled tt ui1 w /\
    td_task (state ui1) = Some (toTodoItem r) /\
    handleUpdate (td_task (state ui1)) ui1 w = Settled tt ui2 w /\
    td_task (state ui2) = Some (toTodoItem r) /\
    td_editing (state ui2) = false /\
    alerts ui2 = alerts ui ++ [("Sucesso", "Tarefa atualizada!")].
Proof.
  intros Hok Hin Hdue. eexists. eexists.
  split; [apply (loadTask_run ui w r Hok Hin)|].
  split; [reflexivity|].
  cbn [state td_task td_setTask].
  assert (T : toTodoItem r = with_dueDate (item_dueDate (toTodoItem r))
                               (toTodoItem r)) by reflexivity.
  rewrite T at 1. rewrite (handleUpdate_unchanged _ w r _ Hok Hin).
  - repeat split.
  - rewrite merged_row_dueDate. cbn [upd_dueDate toTodoItem item_dueDate].
    destruct Hdue as [E | [d E]]; rewrite E; [reflexivity|].
    unfold truthy.
    destruct (String.eqb_spec (toISOString d) "") as [Z|_];
      [now apply toISOString_nonempty in Z|].
    cbn [negb option_map]. now rewrite newDate_toISOString.
Qed.

Lemma save_unedited_task_witness :
  exists ui1 ui2,
    loadTask "id-3" details_screen world_with_dueDate
      = Settled tt ui1 world_with_dueDate /\
    td_task (state ui1) = Some (toTodoItem task_with_dueDate) /\
    handleUpdate (td_task (state ui1)) ui1 world_with_dueDate
      = Settled tt ui2 world_with_dueDate /\
    td_task (state ui2) = Some (toTodoItem task_with_dueDate) /\
    td_editing (state ui2) = false /\
    alerts ui2 = [("Sucesso", "Tarefa atualizada!")].
Proof.
  apply (save_unedited_task details_screen world_with_dueDate
           task_with_dueDate).
  - exact world_with_dueDate_ok.
  - rewrite world_with_dueDate_tasks. simpl. auto.
  - right. exists 86400%N. reflexivity.
Defined.

(** X23. Removing the due date on the details screen does not remove it
    from the store.  For every task [r] of a store the layer works on whose
    due date is the ISO string of a date [d]: after [loadTask],
    [removeDueDate] leaves the screen's task without a due date; and
    [handleUpdate] on that screen settles with the world unchanged, so the
    stored due date is still there, and puts the task back on the screen
    with the due date [d]. *)
Theorem removeDueDate_then_save {JD : JsDate} (ui : UI TaskDetailState)
  (w : World) (r : TodoRow.t) (d : Date) :
  store_ok (db w) -> In r (tasks (db w)) ->
  TodoRow.dueDate r = Some (toISOString d) ->
  exists ui1 ui2 ui3 shown,
    loadTask (TodoRow.id r) ui w = Settled tt ui1 w /\
    removeDueDate (td_task (state ui1)) ui1 w = Settled tt ui2 w /\
    td_task (state ui2) = Some shown /\ item_dueDate shown = None /\
    handleUpdate (td_task (state ui2)) ui2 w = Settled tt ui3 w /\
    find_task (TodoRow.id r) (db w) = Some r /\
    td_task (state ui3) = Some (toTodoItem r) /\
    item_dueDate (toTodoItem r) = Some d.
Proof.
  intros Hok Hin Hdue. pose proof Hok as [Hs [Hnd Hrows]].
  assert (Hr : row_ok r) by (rewrite Forall_forall in Hrows; now apply Hrows).
  eexists. eexists. eexists. eexists.
  split; [apply (loadTask_run ui w r Hok Hin)|].
  cbn [state td_task td_setTask].
  split; [reflexivity|]. cbn [state td_task td_setTask].
  split; [reflexivity|]. split; [reflexivity|].
  split.
  - rewrite (handleUpdate_unchanged _ w r None Hok Hin); [reflexivity|].
    rewrite merged_row_dueDate. cbn [upd_dueDate].
    apply truthy_keep, Hr.
  - split; [now apply find_task_unique|]. split; [reflexivity|].
    cbn [toTodoItem item_dueDate]. rewrite Hdue. unfold truthy.
    destruct (String.eqb_spec (toISOString d) "") as [Z|_];
      [now apply toISOString_nonempty in Z|].
    cbn [negb option_map]. now rewrite newDate_toISOString.
Qed.

Lemma removeDueDate_then_save_witness :
  exists ui1 ui2 ui3 shown,
    loadTask "id-3" details_screen world_with_dueDate
      = Settled tt ui1 world_with_dueDate /\
    removeDueDate (td_task (state ui1)) ui1 world_with_dueDate
      = Settled tt ui2 world_with_dueDate /\
    td_task (state ui2) = Some shown /\ item_dueDate shown = None /\
    handleUpdate (td_task (state ui2)) ui2 world_with_dueDate
      = Settled tt ui3 world_with_dueDate /\
    find_task "id-3" (db world_with_dueDate) = Some task_with_dueDate /\
    td_task (state ui3) = Some (toTodoItem task_with_dueDate) /\
    item_dueDate (toTodoItem task_with_dueDate) = Some 86400%N.
Proof.
  apply (removeDueDate_then_save details_screen world_with_dueDate
           task_with_dueDate 86400%N).
  - exact world_with_dueDate_ok.
  - rewrite world_with_dueDate_tasks. simpl. auto.
  - reflexivity.
Defined.

(** X24. A due date picked on the details screen and saved is stored and
    shown.  For every task [r] of a store the layer works on and every date
    [d]: after [loadTask], [handleDateChange] with [d] closes the picker and
    changes nothing in the store; [handleUpdate] on that screen then stores
    the ISO string of [d] as the due date of [r], changes nothing else of
    [r], and puts the task on the screen with the due date [d]. *)
Theorem handleDateChange_then_save {JD : JsDate} (ui : UI TaskDetailState)
  (w : World) (r : TodoRow.t) (d : Date) :
  store_ok (db w) -> In r (tasks (db w)) ->
  exists ui1 ui2 ui3 w',
    loadTask (TodoRow.id r) ui w = Settled tt ui1 w /\
    handleDateChange (td_task (state ui1)) (Some d) ui1 w
      = Settled tt ui2 w /\
    td_showDatePicker (state ui2) = false /\
    handleUpdate (td_task (state ui2)) ui2 w = Settled tt ui3 w' /\
    find_task (TodoRow.id r) (db w')
      = Some (TodoRow.set_dueDate (Some (toISOString d)) r) /\
    td_task (state ui3)
      = Some (toTodoItem (TodoRow.set_dueDate (Some (toISOString d)) r)) /\
    option_map item_dueDate (td_task (state ui3)) = Some (Some d).
Proof.
  intros Hok Hin. pose proof Hok as [Hs [Hnd Hrows]].
  assert (Hr : row_ok r) by (rewrite Forall_forall in Hrows; now apply Hrows).
  eexists. eexists. eexists. eexists.
  split; [apply (loadTask_run ui w r Hok Hin)|].
  cbn [state td_task td_setTask].
  split; [reflexivity|]. split; [reflexivity|].
  cbn [state td_task td_setTask td_setShowDatePicker].
  assert (M : merged_row
                (mkUpdates (Some (TodoRow.text r)) (TodoRow.notes r) (Some d)
                   (TodoRow.listId r)) r r
              = TodoRow.set_dueDate (Some (toISOString d)) r).
  { apply TodoRow_ext; try reflexivity.
    - rewrite merged_row_listId. cbn [upd_listId].
      now destruct r as [i t dn c [l|] n du].
    - rewrite merged_row_notes. cbn [upd_notes].
      replace (match TodoRow.notes r with
               | Some n => Some n
               | None => TodoRow.notes r
               end) with (TodoRow.notes r) by now destruct (TodoRow.notes r).
      destruct Hr as [Hn _]. rewrite (or_null_id _ Hn).
      now destruct r. }
  split.
  { rewrite (handleUpdate_run _ w r _ Hok Hin) by reflexivity. cbv zeta.
    cbn [with_dueDate toTodoItem item_text item_notes item_dueDate
           item_listId].
    reflexivity. }
  assert (D : forall rs, db (set_db (set_tasks rs (db w)) w)
                         = set_tasks rs (db w)) by (intro; now destruct w).
  split.
  { rewrite D. unfold find_task. rewrite tasks_set_tasks by exact Hs.
    rewrite find_replace_task by reflexivity.
    fold (find_task (TodoRow.id r) (db w)).
    rewrite (find_task_unique r _ Hnd Hin). cbn [option_map].
    now rewrite M. }
  cbn [state td_task td_setTask td_setEditing].
  split; [now rewrite M|].
  rewrite M. cbn [option_map toTodoItem item_dueDate TodoRow.set_dueDate
                    TodoRow.dueDate].
  unfold truthy.
  destruct (String.eqb_spec (toISOString d) "") as [Z|_];
    [now apply toISOString_nonempty in Z|].
  cbn [negb option_map]. now rewrite newDate_toISOString.
Qed.

Lemma handleDateChange_then_save_witness :
  exists ui1 ui2 ui3 w',
    loadTask "id-2" details_screen migrated_world
      = Settled tt ui1 migrated_world /\
    handleDateChange (td_task (state ui1)) (Some 172800%N) ui1 migrated_world
      = Settled tt ui2 migrated_world /\
    td_showDatePicker (state ui2) = false /\
    handleUpdate (td_task (state ui2)) ui2 migrated_world
      = Settled tt ui3 w' /\
    find_task "id-2" (db w')
      = Some (TodoRow.set_dueDate (Some "172800") seeded_task_3) /\
    td_task (state ui3)
      = Some (toTodoItem (TodoRow.set_dueDate (Some "172800") seeded_task_3)) /\
    option_map item_dueDate (td_task (state ui3)) = Some (Some 172800%N).
Proof.
  apply (handleDateChange_then_save details_screen migrated_world
           seeded_task_3 172800%N).
  - exact migrated_world_ok.
  - rewrite migrated_world_tasks. simpl. auto.
Defined.

(** X26. [loadTask] of the details screen has no [catch]: when the query
    fails, here for want of the table [todos], it rejects, leaving the
    screen and the world as they were; so does [loadTask] leave them when no
    task has the key, settling then. *)
Theorem loadTask_without_task {JD : JsDate} (taskId : string)
  (ui : UI TaskDetailState) (w : World) :
  (todos (db w) = None -> loadTask taskId ui w = Rejected ui w) /\
  (forall t, todos (db w) = Some t ->
             ~ In taskId (map TodoRow.id (rows t)) ->
             loadTask taskId ui w = Settled tt ui w).
Proof.
  destruct w as [[v j t l] c us n clk]. cbn [db todos]. split.
  - intros ->. reflexivity.
  - intros t0 -> Hn. unfold loadTask, h_bind, await, getFirstAsync.
    cbn [db todos Sql.select_todo_by_id].
    unfold Sql.select_todo_by_id. cbn [todos].
    rewrite (filter_id_absent _ _ Hn). reflexivity.
Qed.

Lemma loadTask_without_task_witness :
  loadTask "id-0" details_screen fresh_world
    = Rejected details_screen fresh_world /\
  loadTask "id-9" details_screen migrated_world
    = Settled tt details_screen migrated_world.
Proof.
  split.
  - apply (loadTask_without_task "id-0" details_screen fresh_world).
    reflexivity.
  - apply (proj2 (loadTask_without_task "id-9" details_screen migrated_world)
             (mkTodos true true true
                [seeded_task_1; seeded_task_2; seeded_task_3])).
    + vm_compute. reflexivity.
    + vm_compute. intuition discriminate.
Defined.

(** ** Errors in the handlers *)

Lemma settles_try {JD : JsDate} {S : Type} (m h : Handler S unit) :
  settles h -> settles (h_try m h).
Proof.
  intros Hh ui w. unfold h_try.
  destruct (m ui w) as [[] ui' w'|ui' w']; [now exists ui', w' | apply Hh].
Qed.

Lemma settles_alert {JD : JsDate} {S : Type} (t m : string) :
  settles (@alert JD S t m).
Proof. intros ui w. eexists. eexists. reflexivity. Qed.

Lemma settles_console_error {JD : JsDate} {S : Type} (l : string) :
  settles (@console_error JD S l).
Proof. intros ui w. eexists. eexists. reflexivity. Qed.

Lemma settles_then {JD : JsDate} {S : Type} (m k : Handler S unit) :
  settles m -> settles k -> settles (h_bind m (fun _ => k)).
Proof.
  intros Hm Hk ui w. unfold h_bind.
  destruct (Hm ui w) as [ui1 [w1 ->]]. apply Hk.
Qed.

(** X25. The handlers that wrap their work in [try]/[catch] never reject:
    on every screen state and every world, whatever the store holds and
    whatever the layer throws, [loadData], [addTodo] and [toggleTodo] of the
    task screen, [loadLists] and [handleCreateList] of the lists screen and
    [handleUpdate] of the details screen settle. *)
Theorem handlers_never_reject {JD : JsDate} :
  (forall selectedListId, settles (loadData selectedListId)) /\
  (forall todos text listId notes dueDate,
     settles (addTodo todos text listId notes dueDate)) /\
  (forall todos id, settles (toggleTodo todos id)) /\
  settles loadLists /\
  (forall trim lists newListName,
     settles (handleCreateList trim lists newListName)) /\
  (forall task, settles (handleUpdate task)).
Proof.
  split; [|split; [|split; [|split; [|split]]]].
  - intro. apply settles_try, settles_console_error.
  - intros. apply settles_try, settles_then;
      [apply settles_console_error | apply settles_alert].
  - intros. apply settles_try, settles_console_error.
  - apply settles_try, settles_then;
      [apply settles_console_error | apply settles_alert].
  - intros. unfold handleCreateList.
    destruct (trim newListName =? "")%string;
      [apply settles_alert | apply settles_try, settles_alert].
  - intros [task|]; cbn [handleUpdate].
    + apply settles_try, settles_alert.
    + intros ui w. now exists ui, w.
Qed.
